(** * zkevm-node: the parallel L1 rollup-info producer and the sequencer's
      batch resources

    A shallow embedding of

    - [synchronizer/l1_rollup_info_producer.go]: the producer's control loop
      ([newL1DataRetriever], [initialize], [start], [step], [getNextTimeout],
      [onNewLastBlock], [launchWork], [renewLastBlockOnL1IfNeeded],
      [onResponseRollupInfo], [sendPackages]);
    - package [sequencer]: [batchResources.sub].

    The producer talks to its collaborators through three Go interfaces
    ([filter], [syncStatusInterface], [workersInterface]); they are type
    classes here, and the producer is defined and verified for every
    instance.  The sync status and the reorder filter themselves are not part
    of the sources at hand; where a property needs them they are modelled
    from the design document, in the modules [SpecSyncStatus] and
    [SpecFilter].

    The consumer of the outgoing channel is not part of the producer
    either.  Module [Synchronizer] has the producer with a consumer that
    keeps receiving; module [Backpressure] has its functions that send, with
    the wait of a send on a full channel, and they are shown to agree with
    the former whenever no send waits for good.

    Part I holds the definitions, Part II the properties. *)

From Stdlib Require Import ZArith NArith List String Bool Lia.
Import ListNotations.

Set Implicit Arguments.

(** * Part I: definitions *)

(** ** Go values shared by both packages *)

(** [uint64] values are integers in [0, 2^64); arithmetic wraps. *)
Definition isUint64 (z : Z) : Prop := (0 <= z < 2 ^ 64)%Z.

Definition wrapUint64 (z : Z) : Z := (z mod 2 ^ 64)%Z.

(** [int64] values ([int], [time.Duration]) wrap in two's complement. *)
Definition wrapInt64 (z : Z) : Z := ((z + 2 ^ 63) mod 2 ^ 64 - 2 ^ 63)%Z.

(** Go [error] values: a sentinel made by [errors.New], or an error made by
    [fmt.Errorf] whose format starts with the verb [%w] and so wraps another
    error; [None : option error] is [nil]. *)
Inductive error : Type :=
| errors_New (msg : string)
| Errorf_w (wrapped : error) (rest : string).

Fixpoint error_Error (e : error) : string :=
  match e with
  | errors_New msg => msg
  | Errorf_w w rest => error_Error w ++ rest
  end.

Fixpoint error_eqb (a b : error) : bool :=
  match a, b with
  | errors_New m, errors_New n => String.eqb m n
  | Errorf_w w r, Errorf_w v s => error_eqb w v && String.eqb r s
  | _, _ => false
  end.

(** [errors.Is]: the error, or one it wraps, is the target. *)
Fixpoint errors_Is (e target : error) : bool :=
  error_eqb e target ||
  match e with
  | errors_New _ => false
  | Errorf_w w _ => errors_Is w target
  end.

(** ** Package sequencer: [batchResources] *)

Module Sequencer.

Section BatchResources.

(** [state.ZKCounters] and its method [Sub] belong to package [state]; [Sub]
    has a pointer receiver, so it yields the counters it leaves behind
    together with its error.  The sentinel
    [ErrBatchRemainingResourcesUnderflow] is declared in another file of the
    package. *)
Variable ZKCounters : Type.
Variable ZKCounters_Sub : ZKCounters -> ZKCounters -> ZKCounters * option error.
Variable ErrBatchRemainingResourcesUnderflow : error.

Record batchResources : Type := mkBatchResources {
  zKCounters : ZKCounters;
  bytes : Z  (* uint64 *)
}.

(** [func (r *batchResources) sub(other batchResources) error]: the receiver
    after the call and the returned error. *)
Definition sub (r other : batchResources) : batchResources * option error :=
  if (bytes other >? bytes r)%Z then
    (r, Some (Errorf_w ErrBatchRemainingResourcesUnderflow ". Resource: Bytes"))
  else
    let bytesBackup := bytes r in
    let r1 := mkBatchResources (zKCounters r) (wrapUint64 (bytes r - bytes other)) in
    let '(zk, err) := ZKCounters_Sub (zKCounters r1) (zKCounters other) in
    let r2 := mkBatchResources zk (bytes r1) in
    match err with
    | Some e =>
        (mkBatchResources (zKCounters r2) bytesBackup,
         Some (Errorf_w ErrBatchRemainingResourcesUnderflow (". " ++ error_Error e)))
    | None => (r2, err)
    end.

End BatchResources.

(** A one-counter instance of [state.ZKCounters] for the examples: [Sub]
    fails, leaving the counter alone, when it would go below zero. *)
Definition gasCounter_Sub (z other : Z) : Z * option error :=
  if (other >? z)%Z then (z, Some (errors_New "underflow: CumulativeGasUsed"))
  else ((z - other)%Z, None).

Definition errUnderflow : error :=
  errors_New "underflow of remaining resources for current batch".

End Sequencer.

(** ** Package synchronizer: the L1 rollup-info producer *)

Module Synchronizer.

(** *** Time *)

(** A [time.Time] is an instant in nanoseconds since the Unix epoch, a
    [time.Duration] a signed 64-bit count of nanoseconds. *)
Definition Time : Type := Z.

Definition Duration : Type := Z.

Definition Nanosecond : Duration := 1%Z.

Definition Second : Duration := (1000000000 * Nanosecond)%Z.

Definition Minute : Duration := (60 * Second)%Z.

Definition minDuration : Duration := (- 2 ^ 63)%Z.

Definition maxDuration : Duration := (2 ^ 63 - 1)%Z.

(** The zero [time.Time], January 1 of year 1, which a struct field holds
    until it is assigned. *)
Definition zeroTime : Time := (-62135596800 * 1000000000)%Z.

(** [t.Sub(u)]: the difference, saturated to the range of [Duration]. *)
Definition time_Sub (t u : Time) : Duration :=
  let d := (t - u)%Z in
  if (d >? maxDuration)%Z then maxDuration
  else if (d <? minDuration)%Z then minDuration
  else d.

(** [+] on durations. *)
Definition Duration_add (a b : Duration) : Duration := wrapInt64 (a + b).

(** *** Constants of the producer *)

Definition ttlOfLastBlockDefault : Duration := (Second * 5)%Z.

Definition timeOutMainLoop : Duration := (Minute * 5)%Z.

Definition timeForShowUpStatisticsLog : Duration := (Second * 60)%Z.

Definition conversionFactorPercentage : Z := 100%Z.

Definition maxRetriesForRequestnitialValueOfLastBlock : Z := 10%Z.

Definition timeRequestInitialValueOfLastBlock : Duration := (Second * 5)%Z.

(** *** Data exchanged with the collaborators

    These types are declared in other files of the package; they are modelled
    from the design document (sections 3 and 4.4).  Block numbers are
    [uint64] in the source; the producer never computes with them, and the
    design document reasons about them as unbounded naturals, so they are
    [N] here. *)

Record blockRange : Type := mkBlockRange {
  fromBlock : N;
  toBlock : N
}.

Definition blockRange_eqb (a b : blockRange) : bool :=
  (fromBlock a =? fromBlock b)%N && (toBlock a =? toBlock b)%N.

(** Modelled from the spec: [blockRange.len], "Length = to - from + 1". *)
Definition blockRange_len (br : blockRange) : N :=
  (toBlock br - fromBlock br + 1)%N.

Inductive syncStatusEnum : Type :=
| syncStatusIdle
| syncStatusWorking
| syncStatusSynchronized.

Definition syncStatusEnum_eqb (a b : syncStatusEnum) : bool :=
  match a, b with
  | syncStatusIdle, syncStatusIdle => true
  | syncStatusWorking, syncStatusWorking => true
  | syncStatusSynchronized, syncStatusSynchronized => true
  | _, _ => false
  end.

(** [genericResponse[T]]: the fields [err] and [result]. *)
Record genericResponse (T : Type) : Type := mkGenericResponse {
  err : option error;
  result : T
}.

(** The payload of a fetched range (blocks and their events) is opaque to the
    producer: a type parameter [RollupInfo]. *)
Record responseRollupInfoByBlockRange (RollupInfo : Type) : Type := mkResponseRollupInfo {
  response_blockRange : blockRange;
  rollupInfo : RollupInfo
}.

Record retrieveL1LastBlockResult : Type := mkRetrieveL1LastBlockResult {
  block : N
}.

Record onNewLastBlockResponse : Type := mkOnNewLastBlockResponse {
  fullRange : blockRange;
  extendedRange : option blockRange
}.

Inductive eventEnum : Type :=
| eventProducerIsFullySynced.

(** Modelled from the spec: [l1SyncMessage], "a tagged sum: Data(chunk) or
    Control(event) where the only defined event is FullySynced".  The
    constructors are the source's [newL1SyncMessageData] and
    [newL1SyncMessageControl]. *)
Inductive l1SyncMessage (RollupInfo : Type) : Type :=
| newL1SyncMessageData (data : responseRollupInfoByBlockRange RollupInfo)
| newL1SyncMessageControl (event : eventEnum).

Arguments newL1SyncMessageControl {RollupInfo} event.

(** The outgoing channel [chan l1SyncMessage]: its capacity, and the messages
    sent on it so far, oldest first.  A send waits while the buffer is full
    and the consumer does not receive.  The consumer is not part of the
    producer: the functions of [Section Producer] below are the producer
    with a consumer that keeps receiving, for which every send completes;
    module [Backpressure] has the functions that send with a consumer that
    may stop, for which a send may wait for good. *)
Record channel (RollupInfo : Type) : Type := mkChannel {
  chanCap : nat;
  chanSent : list (l1SyncMessage RollupInfo)
}.

(** *** The interfaces

    A method with a pointer receiver takes the collaborator's state and gives
    back the state it leaves; the getters only read.  The design document
    makes two methods of the sync status depend on the current time
    ([needHeadRefresh], [onNewHead]); they receive the producer's reading of
    the clock. *)

(** [type filter interface] together with its constructor. *)
Class filter (RollupInfo F : Type) : Type := {
  newFilterToSendOrdererResultsToConsumer : N -> F;
  filter_toStringBrief : F -> string;
  filter_filter : F -> l1SyncMessage RollupInfo -> list (l1SyncMessage RollupInfo) * F
}.

(** [type syncStatusInterface interface] together with [newSyncStatus]. *)
Class syncStatusInterface (S : Type) : Type := {
  newSyncStatus : N -> N -> Duration -> S;
  syncStatus_verify : S -> bool -> option error * S;
  syncStatus_toStringBrief : S -> string;
  getNextRange : S -> option blockRange * S;
  isNodeFullySynchronizedWithL1 : S -> bool;
  needToRenewLastBlockOnL1 : S -> Time -> bool;
  getStatus : S -> syncStatusEnum;
  getLastBlockOnL1 : S -> N;
  onStartedNewWorker : S -> blockRange -> S;
  onFinishWorker : S -> blockRange -> bool -> S;
  onNewLastBlockOnL1 : S -> Time -> N -> onNewLastBlockResponse * S
}.

(** [type workersInterface interface] together with [newWorkers].  The
    response channel of [getResponseChannelForRollupInfo] is read by the
    [select] of [step] only; what it delivers is the [caseResponse] below. *)
Class workersInterface (Etherman W : Type) : Type := {
  newWorkers : list Etherman -> W;
  workers_verify : W -> bool -> option error * W;
  workers_initialize : W -> option error * W;
  workers_finalize : W -> option error * W;
  waitFinishAllWorkers : W -> W;
  asyncRequestRollupInfoByBlockRange : W -> blockRange -> option error * W;
  requestLastBlockWithRetries :
    W -> Duration -> Z -> genericResponse retrieveL1LastBlockResult * W
}.

(** [l1RollupInfoProducerStatistics], a struct declared in another file:
    its constructor, the field [lastShowUpTime] and the methods the producer
    calls. *)
Class statisticsInterface (St : Type) : Type := {
  newRollupInfoProducerStatistics : N -> St;
  lastShowUpTime : St -> Time;
  set_lastShowUpTime : St -> Time -> St;
  updateLastBlockNumber : St -> N -> St;
  updateNumRollupInfoOk : St -> N -> N -> St;
  updateNumRollupInfoErrors : St -> N -> St;
  getETA : St -> string
}.

(** *** What a run leaves behind *)

(** Which case of the [select] in [step] fired. *)
Inductive selectCase (RollupInfo : Type) : Type :=
| caseDone
| caseTimeAfter
| caseResponse (r : genericResponse (responseRollupInfoByBlockRange RollupInfo)).

Arguments caseDone {RollupInfo}.
Arguments caseTimeAfter {RollupInfo}.

(** The calls the producer makes on its collaborators and on the outgoing
    channel, in the order it makes them. *)
Inductive call (RollupInfo : Type) : Type :=
| callSelect (c : selectCase RollupInfo)
| callWorkersVerify (allowModify : bool) (e : option error)
| callSyncStatusVerify (allowModify : bool) (e : option error)
| callWorkersInitialize (e : option error)
| callGetNextRange (br : option blockRange)
| callAsyncRequest (br : blockRange) (accepted : bool)
| callOnStartedNewWorker (br : blockRange)
| callOnFinishWorker (br : blockRange) (successful : bool)
| callOnNewLastBlockOnL1 (now : Time) (lastBlock : N)
| callRequestLastBlock (timeout : Duration) (maxRetries : Z)
    (r : genericResponse retrieveL1LastBlockResult)
| callFilter (data : l1SyncMessage RollupInfo) (released : list (l1SyncMessage RollupInfo))
| callSend (pkg : l1SyncMessage RollupInfo)
| callWaitFinishAllWorkers.

Arguments callWorkersVerify {RollupInfo} allowModify e.
Arguments callSyncStatusVerify {RollupInfo} allowModify e.
Arguments callWorkersInitialize {RollupInfo} e.
Arguments callGetNextRange {RollupInfo} br.
Arguments callAsyncRequest {RollupInfo} br accepted.
Arguments callOnStartedNewWorker {RollupInfo} br.
Arguments callOnFinishWorker {RollupInfo} br successful.
Arguments callOnNewLastBlockOnL1 {RollupInfo} now lastBlock.
Arguments callRequestLastBlock {RollupInfo} timeout maxRetries r.
Arguments callWaitFinishAllWorkers {RollupInfo}.

(** A line of the log: its level and its format string (the arguments are
    left out). *)
Inductive logLevel : Type :=
| logDebug
| logInfo
| logWarn
| logError
| logFatal.

Definition logEntry : Type := (logLevel * string)%type.

(** How a call ends: normally, with a value and the state reached; in
    [log.Fatal], which exits the process; or, in the model only, with the
    fuel of a loop used up. *)
Inductive outcome (P A : Type) : Type :=
| Ok (a : A) (l : P)
| Fatal (e : error) (l : P)
| OutOfFuel.

Arguments OutOfFuel {P A}.
Arguments Fatal {P A} e l.

(** What [start] has come to when the cases of the [select] given to it are
    used up: it has returned, or it waits in the [select]. *)
Inductive startResult : Type :=
| startReturned (e : option error)
| startWaiting.

(** *** The producer *)

Section Producer.

Variables RollupInfo Etherman : Type.

Context {W S F St : Type}.

Context {workersOps : workersInterface Etherman W}.

Context {syncStatusOps : syncStatusInterface S}.

Context {filterOps : filter RollupInfo F}.

Context {statisticsOps : statisticsInterface St}.

(** The readings of the clock, in the order the run takes them: the [n]-th
    call of [time.Now] or [time.Since] sees [clock n]. *)
Variable clock : nat -> Time.

(** [type l1RollupInfoProducer struct].  The mutex is left out (one thread
    runs the producer), and so are [ctx] and [cancelCtx], whose only effect
    is the case [caseDone] of the [select].  The last three fields are not in
    the struct: the number of clock readings taken, the calls made and the
    log written so far. *)
Record l1RollupInfoProducer : Type := mkProducer {
  workers : W;
  syncStatus : S;
  outgoingChannel : channel RollupInfo;
  timeLastBLockOnL1 : Time;
  ttlOfLastBlockOnL1 : Duration;
  filterToSendOrdererResultsToConsumer : F;
  statistics : St;
  clockReads : nat;
  calls : list (call RollupInfo);
  logs : list logEntry
}.

Definition set_workers (w : W) (l : l1RollupInfoProducer) : l1RollupInfoProducer :=
  mkProducer w (syncStatus l) (outgoingChannel l) (timeLastBLockOnL1 l)
    (ttlOfLastBlockOnL1 l) (filterToSendOrdererResultsToConsumer l) (statistics l)
    (clockReads l) (calls l) (logs l).

Definition set_syncStatus (s : S) (l : l1RollupInfoProducer) : l1RollupInfoProducer :=
  mkProducer (workers l) s (outgoingChannel l) (timeLastBLockOnL1 l)
    (ttlOfLastBlockOnL1 l) (filterToSendOrdererResultsToConsumer l) (statistics l)
    (clockReads l) (calls l) (logs l).

Definition set_outgoingChannel (c : channel RollupInfo) (l : l1RollupInfoProducer) :
  l1RollupInfoProducer :=
  mkProducer (workers l) (syncStatus l) c (timeLastBLockOnL1 l)
    (ttlOfLastBlockOnL1 l) (filterToSendOrdererResultsToConsumer l) (statistics l)
    (clockReads l) (calls l) (logs l).

Definition set_timeLastBLockOnL1 (t : Time) (l : l1RollupInfoProducer) :
  l1RollupInfoProducer :=
  mkProducer (workers l) (syncStatus l) (outgoingChannel l) t
    (ttlOfLastBlockOnL1 l) (filterToSendOrdererResultsToConsumer l) (statistics l)
    (clockReads l) (calls l) (logs l).

Definition set_filter (f : F) (l : l1RollupInfoProducer) : l1RollupInfoProducer :=
  mkProducer (workers l) (syncStatus l) (outgoingChannel l) (timeLastBLockOnL1 l)
    (ttlOfLastBlockOnL1 l) f (statistics l)
    (clockReads l) (calls l) (logs l).

Definition set_statistics (st : St) (l : l1RollupInfoProducer) : l1RollupInfoProducer :=
  mkProducer (workers l) (syncStatus l) (outgoingChannel l) (timeLastBLockOnL1 l)
    (ttlOfLastBlockOnL1 l) (filterToSendOrdererResultsToConsumer l) st
    (clockReads l) (calls l) (logs l).

Definition set_clockReads (n : nat) (l : l1RollupInfoProducer) : l1RollupInfoProducer :=
  mkProducer (workers l) (syncStatus l) (outgoingChannel l) (timeLastBLockOnL1 l)
    (ttlOfLastBlockOnL1 l) (filterToSendOrdererResultsToConsumer l) (statistics l)
    n (calls l) (logs l).

Definition set_calls (cs : list (call RollupInfo)) (l : l1RollupInfoProducer) :
  l1RollupInfoProducer :=
  mkProducer (workers l) (syncStatus l) (outgoingChannel l) (timeLastBLockOnL1 l)
    (ttlOfLastBlockOnL1 l) (filterToSendOrdererResultsToConsumer l) (statistics l)
    (clockReads l) cs (logs l).

Definition set_logs (ls : list logEntry) (l : l1RollupInfoProducer) : l1RollupInfoProducer :=
  mkProducer (workers l) (syncStatus l) (outgoingChannel l) (timeLastBLockOnL1 l)
    (ttlOfLastBlockOnL1 l) (filterToSendOrdererResultsToConsumer l) (statistics l)
    (clockReads l) (calls l) ls.

(** The methods of the producer run in a state monad over the struct, with
    the two abnormal ends of [outcome]. *)
Definition M (A : Type) : Type := l1RollupInfoProducer -> outcome l1RollupInfoProducer A.

Definition ret {A : Type} (a : A) : M A := fun l => Ok a l.

Definition bind {A B : Type} (m : M A) (k : A -> M B) : M B :=
  fun l =>
    match m l with
    | Ok a l' => k a l'
    | Fatal e l' => Fatal e l'
    | OutOfFuel => OutOfFuel
    end.

Notation "x <- m ;; k" := (bind m (fun x => k))
  (at level 61, m at next level, right associativity).

Notation "m ;;; k" := (bind m (fun _ => k))
  (at level 61, right associativity).

Definition get : M l1RollupInfoProducer := fun l => Ok l l.

Definition modify (f : l1RollupInfoProducer -> l1RollupInfoProducer) : M unit :=
  fun l => Ok tt (f l).

Definition record (c : call RollupInfo) : M unit :=
  modify (fun l => set_calls (calls l ++ [c]) l).

Definition log (lvl : logLevel) (format : string) : M unit :=
  modify (fun l => set_logs (logs l ++ [(lvl, format)]) l).

(** [log.Fatal]: the line is written and the process exits. *)
Definition log_Fatal {A : Type} (e : error) : M A :=
  fun l => Fatal e (set_logs (logs l ++ [(logFatal, error_Error e)]) l).

(** [time.Now()]. *)
Definition time_Now : M Time :=
  fun l => Ok (clock (clockReads l)) (set_clockReads (Datatypes.S (clockReads l)) l).

(** [time.Since(t)], which is [time.Now().Sub(t)]. *)
Definition time_Since (t : Time) : M Duration :=
  now <- time_Now ;; ret (time_Sub now t).

(** [max[T constraints.Ordered](a, b T) T] at [time.Duration]. *)
Definition max (a b : Duration) : Duration :=
  if (a >? b)%Z then a else b.

(** [min(a, b uint64) uint64]. *)
Definition min (a b : N) : N :=
  if (a <? b)%N then a else b.

(** [func (l *l1RollupInfoProducer) sendPackages(outgoingPackages)], with
    every send completing ([Backpressure.sendPackages] is the function with
    sends that may wait). *)
Fixpoint sendPackages (outgoingPackages : list (l1SyncMessage RollupInfo)) : M unit :=
  match outgoingPackages with
  | [] => ret tt
  | pkg :: rest =>
      log logInfo "producer: Sending results [data] to consumer:%s: It could block channel [%d/%d]" ;;;
      modify (fun l =>
        set_outgoingChannel
          (mkChannel (chanCap (outgoingChannel l)) (chanSent (outgoingChannel l) ++ [pkg])) l) ;;;
      record (callSend pkg) ;;;
      sendPackages rest
  end.

(** [func (l *l1RollupInfoProducer) verify(allowModify bool) error]. *)
Definition verify (allowModify : bool) : M (option error) :=
  l <- get ;;
  let '(err, w) := workers_verify (workers l) allowModify in
  modify (set_workers w) ;;;
  record (callWorkersVerify allowModify err) ;;;
  match err with
  | Some e => ret (Some e)
  | None =>
      l <- get ;;
      let '(err, s) := syncStatus_verify (syncStatus l) allowModify in
      modify (set_syncStatus s) ;;;
      record (callSyncStatusVerify allowModify err) ;;;
      match err with
      | Some e => ret (Some e)
      | None => ret None
      end
  end.

(** The loop of [launchWork]; [fuel] bounds the number of its rounds.  It
    yields [launchedWorker] and [thereAreAnError]; the string [accDebugStr]
    only feeds the log and is left out. *)
Fixpoint launchWork_loop (fuel : nat) (launchedWorker : Z) : M (Z * bool) :=
  match fuel with
  | O => fun _ => OutOfFuel
  | Datatypes.S fuel' =>
      l <- get ;;
      let '(br, s) := getNextRange (syncStatus l) in
      modify (set_syncStatus s) ;;;
      record (callGetNextRange br) ;;;
      match br with
      | None => ret (launchedWorker, false)
      | Some br =>
          l <- get ;;
          let '(err, w) := asyncRequestRollupInfoByBlockRange (workers l) br in
          modify (set_workers w) ;;;
          match err with
          | Some e =>
              record (callAsyncRequest br false) ;;;
              ret (launchedWorker, true)
          | None =>
              record (callAsyncRequest br true) ;;;
              modify (fun l => set_syncStatus (onStartedNewWorker (syncStatus l) br) l) ;;;
              record (callOnStartedNewWorker br) ;;;
              launchWork_loop fuel' (wrapInt64 (launchedWorker + 1))
          end
      end
  end.

(** [func (l *l1RollupInfoProducer) launchWork() int]. *)
Definition launchWork (fuel : nat) : M Z :=
  r <- launchWork_loop fuel 0%Z ;;
  let '(launchedWorker, thereAreAnError) := r in
  (if (launchedWorker =? 0)%Z
   then log logDebug "producer: No workers launched because: %s"
   else ret tt) ;;;
  (if thereAreAnError
   then log logWarn "producer: launched workers: %d , but there are an error: %s"
   else ret tt) ;;;
  ret launchedWorker.

(** [func (l *l1RollupInfoProducer) onNewLastBlock(lastBlock uint64,
    launchWork bool) onNewLastBlockResponse]. *)
Definition onNewLastBlock (fuel : nat) (lastBlock : N) (launch : bool) :
  M onNewLastBlockResponse :=
  now <- time_Now ;;
  l <- get ;;
  let '(resp, s) := onNewLastBlockOnL1 (syncStatus l) now lastBlock in
  modify (set_syncStatus s) ;;;
  record (callOnNewLastBlockOnL1 now lastBlock) ;;;
  modify (fun l => set_statistics (updateLastBlockNumber (statistics l) (toBlock (fullRange resp))) l) ;;;
  now <- time_Now ;;
  modify (set_timeLastBLockOnL1 now) ;;;
  match extendedRange resp with
  | Some _ => log logInfo "producer: New last block on L1: %v -> %s"
  | None => ret tt
  end ;;;
  (if launch then launchWork fuel ;;; ret tt else ret tt) ;;;
  ret resp.

(** [func (l *l1RollupInfoProducer) initialize() error]. *)
Definition initialize : M (option error) :=
  verr <- verify true ;;
  match verr with
  | Some e => log_Fatal e
  | None => ret tt
  end ;;;
  l <- get ;;
  let '(werr, w) := workers_initialize (workers l) in
  modify (set_workers w) ;;;
  record (callWorkersInitialize werr) ;;;
  match werr with
  | Some e => log_Fatal e
  | None => ret tt
  end ;;;
  now <- time_Now ;;
  l <- get ;;
  if needToRenewLastBlockOnL1 (syncStatus l) now then
    log logInfo "producer: Need a initial value for Last Block On L1, doing the request (maxRetries:%v, timeRequest:%v)" ;;;
    l <- get ;;
    let '(result, w) :=
      requestLastBlockWithRetries (workers l) timeRequestInitialValueOfLastBlock
        maxRetriesForRequestnitialValueOfLastBlock in
    modify (set_workers w) ;;;
    record (callRequestLastBlock timeRequestInitialValueOfLastBlock
              maxRetriesForRequestnitialValueOfLastBlock result) ;;;
    match err result with
    | Some e => log logError "%v" ;;; ret (Some e)
    | None => onNewLastBlock 0 (block (Synchronizer.result result)) false ;;; ret None
    end
  else ret None.

(** [func (l *l1RollupInfoProducer) renewLastBlockOnL1IfNeeded(forced bool)]. *)
Definition renewLastBlockOnL1IfNeeded (fuel : nat) (forced : bool) : M unit :=
  l <- get ;;
  elapsed <- time_Since (timeLastBLockOnL1 l) ;;
  let ttl := ttlOfLastBlockOnL1 l in
  let oldBlock := getLastBlockOnL1 (syncStatus l) in
  if (elapsed >? ttl)%Z || forced then
    log logInfo "producer: Need a new value for Last Block On L1, doing the request" ;;;
    l <- get ;;
    let '(result, w) :=
      requestLastBlockWithRetries (workers l) timeRequestInitialValueOfLastBlock
        maxRetriesForRequestnitialValueOfLastBlock in
    modify (set_workers w) ;;;
    record (callRequestLastBlock timeRequestInitialValueOfLastBlock
              maxRetriesForRequestnitialValueOfLastBlock result) ;;;
    log logInfo "producer: Need a new value for Last Block On L1, doing the request old_block:%v -> new block:%v" ;;;
    match err result with
    | Some e => log logError "%v" ;;; ret tt
    | None => onNewLastBlock fuel (block (Synchronizer.result result)) true ;;; ret tt
    end
  else ret tt.

(** [func (l *l1RollupInfoProducer) onResponseRollupInfo(result)]. *)
Definition onResponseRollupInfo
  (result : genericResponse (responseRollupInfoByBlockRange RollupInfo)) : M unit :=
  let isOk := match err result with None => true | Some _ => false end in
  let br := response_blockRange (Synchronizer.result result) in
  modify (fun l => set_syncStatus (onFinishWorker (syncStatus l) br isOk) l) ;;;
  record (callOnFinishWorker br isOk) ;;;
  if isOk then
    modify (fun l => set_statistics (updateNumRollupInfoOk (statistics l) 1 (blockRange_len br)) l) ;;;
    l <- get ;;
    let data := newL1SyncMessageData (Synchronizer.result result) in
    let '(outgoingPackages, f) := filter_filter (filterToSendOrdererResultsToConsumer l) data in
    modify (set_filter f) ;;;
    record (callFilter data outgoingPackages) ;;;
    sendPackages outgoingPackages
  else
    modify (fun l => set_statistics (updateNumRollupInfoErrors (statistics l) 1) l) ;;;
    log logWarn "producer: Error while trying to get rollup info by block range: %v".

(** [func (l *l1RollupInfoProducer) getNextTimeout() time.Duration].  The
    [default] branch of the [switch] needs a status outside the three of the
    enumeration. *)
Definition getNextTimeout : M Duration :=
  l <- get ;;
  match getStatus (syncStatus l) with
  | syncStatusIdle => ret timeOutMainLoop
  | syncStatusWorking => ret timeOutMainLoop
  | syncStatusSynchronized =>
      since <- time_Since (timeLastBLockOnL1 l) ;;
      let nextRenewLastBlock := Duration_add since (ttlOfLastBlockOnL1 l) in
      ret (max nextRenewLastBlock Second)
  end.

(** [func (l *l1RollupInfoProducer) step(waitDuration *time.Duration) bool]:
    [c] is the case of the [select] that fired; the result carries the value
    left in [*waitDuration]. *)
Definition step (fuel : nat) (c : selectCase RollupInfo) (waitDuration : Duration) :
  M (bool * Duration) :=
  record (callSelect c) ;;;
  match c with
  | caseDone => ret (false, waitDuration)
  | _ =>
      match c with
      | caseResponse resultRollupInfo => onResponseRollupInfo resultRollupInfo
      | _ => log logDebug "producer: timeout [%s]"
      end ;;;
      l <- get ;;
      (if syncStatusEnum_eqb (getStatus (syncStatus l)) syncStatusSynchronized then
         log logDebug "producer: status==syncStatusSynchronized -> getting last block on L1" ;;;
         renewLastBlockOnL1IfNeeded fuel false
       else ret tt) ;;;
      launchWork fuel ;;;
      l <- get ;;
      since <- time_Since (lastShowUpTime (statistics l)) ;;
      (if (since >? timeForShowUpStatisticsLog)%Z then
         log logInfo "producer: Statistics:%s" ;;;
         now <- time_Now ;;
         modify (fun l => set_statistics (set_lastShowUpTime (statistics l) now) l)
       else ret tt) ;;;
      d <- getNextTimeout ;;
      log logDebug "producer: Next timeout: %s status: %s" ;;;
      ret (true, d)
  end.

(** The [for] loop of [start] over the cases the [select] fires, in order;
    it yields [true] when [step] has returned [false] (the loop is left) and
    [false] when the cases are used up while the loop still runs. *)
Fixpoint start_loop (fuel : nat) (cases : list (selectCase RollupInfo))
  (waitDuration : Duration) (previousStatus : syncStatusEnum) : M bool :=
  match cases with
  | [] => ret false
  | c :: cases' =>
      r <- step fuel c waitDuration ;;
      let '(continue, waitDuration') := r in
      if continue then
        l <- get ;;
        let newStatus := getStatus (syncStatus l) in
        (if negb (syncStatusEnum_eqb previousStatus newStatus) then
           log logInfo "producer: Status changed from [%s] to [%s]" ;;;
           if syncStatusEnum_eqb newStatus syncStatusSynchronized then
             log logInfo "producer: send a message to consumer to indicate that we are synchronized" ;;;
             sendPackages [newL1SyncMessageControl eventProducerIsFullySynced]
           else ret tt
         else ret tt) ;;;
        start_loop fuel cases' waitDuration' newStatus
      else ret true
  end.

(** [func (l *l1RollupInfoProducer) start() error]. *)
Definition start (fuel : nat) (cases : list (selectCase RollupInfo)) : M startResult :=
  let waitDuration := 0%Z in
  l <- get ;;
  let previousStatus := getStatus (syncStatus l) in
  left <- start_loop fuel cases waitDuration previousStatus ;;
  if left then
    modify (fun l => set_workers (waitFinishAllWorkers (workers l)) l) ;;;
    record callWaitFinishAllWorkers ;;;
    ret (startReturned None)
  else ret startWaiting.

(** [func newL1DataRetriever(ctx, ethermans, startingBlockNumber,
    SyncChunkSize, outgoingChannel, renewLastBlockOnL1) *l1RollupInfoProducer];
    [outgoingCap] is the capacity of the channel handed in. *)
Definition newL1DataRetriever (ethermans : list Etherman)
  (startingBlockNumber SyncChunkSize : N) (outgoingCap : nat)
  (renewLastBlockOnL1 : bool) : outcome l1RollupInfoProducer unit :=
  let warn :=
    if (outgoingCap <? List.length ethermans)%nat
    then [(logWarn, "l1RollupInfoProducer: outgoingChannel must have a capacity (%d) of at least equal to number of ether clients (%d)"%string)]
    else [] in
  let ttlOfLastBlock := ttlOfLastBlockDefault in
  let ttlOfLastBlock :=
    if negb renewLastBlockOnL1 then ttlOfLastBlockDefault else ttlOfLastBlock in
  let result :=
    mkProducer
      (newWorkers ethermans)
      (newSyncStatus startingBlockNumber SyncChunkSize ttlOfLastBlock)
      (mkChannel outgoingCap [])
      zeroTime
      ttlOfLastBlock
      (newFilterToSendOrdererResultsToConsumer startingBlockNumber)
      (newRollupInfoProducerStatistics startingBlockNumber)
      O [] warn in
  (verr <- verify false ;;
   match verr with
   | Some e => log_Fatal e
   | None => ret tt
   end) result.

(** What has become of the producer when its caller is done with it. *)
Inductive lifecycleResult : Type :=
| initializationFailed (e : error)
| started (r : startResult).

(** Modelled from the spec: the caller of the producer, which is not among
    the sources at hand; design document, sections 4.4 and 6: the lifecycle
    is "new -> init() -> start()", and when the head request of the
    initialization fails, "initialization fails; no loop is entered". *)
Definition lifecycle (fuel : nat) (cases : list (selectCase RollupInfo)) :
  M lifecycleResult :=
  ierr <- initialize ;;
  match ierr with
  | Some e => ret (initializationFailed e)
  | None => r <- start fuel cases ;; ret (started r)
  end.

(** *** A run, seen through its calls

    The sync status, the filter and the contents of the outgoing channel
    change only through the calls the producer makes, and the calls come in
    blocks. *)

Definition view : Type := (S * F * list (l1SyncMessage RollupInfo))%type.

Definition viewOf (l : l1RollupInfoProducer) : view :=
  (syncStatus l, filterToSendOrdererResultsToConsumer l, chanSent (outgoingChannel l)).

(** The blocks of the dispatch loop and of the head refresh: a round of the
    loop (no next range; a range the pool rejects; a range the pool accepts,
    recorded as started), a head request, and a new head told to the sync
    status.  They reach the sync status only. *)
Inductive tailBlock : list (call RollupInfo) -> view -> view -> Prop :=
| tail_noNextRange (s s' : S) (f : F) (sent : list (l1SyncMessage RollupInfo)) :
    getNextRange s = (None, s') ->
    tailBlock [callGetNextRange None] (s, f, sent) (s', f, sent)
| tail_rejected (br : blockRange) (s s' : S) (f : F)
    (sent : list (l1SyncMessage RollupInfo)) :
    getNextRange s = (Some br, s') ->
    tailBlock [callGetNextRange (Some br); callAsyncRequest br false]
      (s, f, sent) (s', f, sent)
| tail_accepted (br : blockRange) (s s' : S) (f : F)
    (sent : list (l1SyncMessage RollupInfo)) :
    getNextRange s = (Some br, s') ->
    tailBlock [callGetNextRange (Some br); callAsyncRequest br true;
               callOnStartedNewWorker br]
      (s, f, sent) (onStartedNewWorker s' br, f, sent)
| tail_requestLastBlock (timeout : Duration) (maxRetries : Z)
    (r : genericResponse retrieveL1LastBlockResult) (v : view) :
    tailBlock [callRequestLastBlock timeout maxRetries r] v v
| tail_onNewLastBlock (now : Time) (lastBlock : N) (resp : onNewLastBlockResponse)
    (s s' : S) (f : F) (sent : list (l1SyncMessage RollupInfo)) :
    onNewLastBlockOnL1 s now lastBlock = (resp, s') ->
    tailBlock [callOnNewLastBlockOnL1 now lastBlock] (s, f, sent) (s', f, sent).

(** The blocks that touch neither the filter nor the outgoing channel: those
    above, and the calls that leave the sync status alone as well, but for
    its [verify]. *)
Inductive quietBlock : list (call RollupInfo) -> view -> view -> Prop :=
| quiet_tail (t : list (call RollupInfo)) (v v' : view) :
    tailBlock t v v' -> quietBlock t v v'
| quiet_select (c : selectCase RollupInfo) (v : view) :
    quietBlock [callSelect c] v v
| quiet_workersVerify (a : bool) (e : option error) (v : view) :
    quietBlock [callWorkersVerify a e] v v
| quiet_syncStatusVerify (a : bool) (e : option error) (s s' : S) (f : F)
    (sent : list (l1SyncMessage RollupInfo)) :
    syncStatus_verify s a = (e, s') ->
    quietBlock [callSyncStatusVerify a e] (s, f, sent) (s', f, sent)
| quiet_workersInitialize (e : option error) (v : view) :
    quietBlock [callWorkersInitialize e] v v
| quiet_waitFinishAllWorkers (v : view) :
    quietBlock [callWaitFinishAllWorkers] v v.

(** All blocks: the quiet ones; a failed response, which only reaches the
    sync status; a chunk, which reaches the sync status, goes through the
    filter and is followed by the sends of what the filter released; and the
    control message. *)
Inductive runBlock : list (call RollupInfo) -> view -> view -> Prop :=
| block_quiet (t : list (call RollupInfo)) (v v' : view) :
    quietBlock t v v' -> runBlock t v v'
| block_failed (br : blockRange) (s : S) (f : F)
    (sent : list (l1SyncMessage RollupInfo)) :
    runBlock [callOnFinishWorker br false] (s, f, sent) (onFinishWorker s br false, f, sent)
| block_chunk (data : responseRollupInfoByBlockRange RollupInfo)
    (released : list (l1SyncMessage RollupInfo)) (s : S) (f f' : F)
    (sent : list (l1SyncMessage RollupInfo)) :
    filter_filter f (newL1SyncMessageData data) = (released, f') ->
    runBlock (callOnFinishWorker (response_blockRange data) true
             :: callFilter (newL1SyncMessageData data) released
             :: map (@callSend RollupInfo) released)
      (s, f, sent)
      (onFinishWorker s (response_blockRange data) true, f', sent ++ released)
| block_fullySynced (s : S) (f : F) (sent : list (l1SyncMessage RollupInfo)) :
    runBlock [callSend (newL1SyncMessageControl eventProducerIsFullySynced)]
      (s, f, sent) (s, f, sent ++ [newL1SyncMessageControl eventProducerIsFullySynced]).

(** A sequence of blocks of one kind. *)
Inductive segments (B : list (call RollupInfo) -> view -> view -> Prop) :
  list (call RollupInfo) -> view -> view -> Prop :=
| segments_nil (v : view) : segments B [] v v
| segments_cons (b t : list (call RollupInfo)) (v1 v2 v3 : view) :
    B b v1 v2 -> segments B t v2 v3 -> segments B (b ++ t) v1 v3.

(** From [l] the producer has come to [l'] by blocks of kind [B]. *)
Definition extendsBy (B : list (call RollupInfo) -> view -> view -> Prop)
  (l l' : l1RollupInfoProducer) : Prop :=
  exists t, calls l' = calls l ++ t /\ segments B t (viewOf l) (viewOf l').

(** The head requests among some calls, and the messages sent. *)
Definition headRequests (t : list (call RollupInfo)) :
  list (genericResponse retrieveL1LastBlockResult) :=
  flat_map (fun c => match c with
                     | callRequestLastBlock _ _ r => [r]
                     | _ => []
                     end) t.

Definition sends (t : list (call RollupInfo)) : list (l1SyncMessage RollupInfo) :=
  flat_map (fun c => match c with
                     | callSend pkg => [pkg]
                     | _ => []
                     end) t.

(** What the filter released, by the calls. *)
Definition filterReleases (t : list (call RollupInfo)) : list (l1SyncMessage RollupInfo) :=
  flat_map (fun c => match c with
                     | callFilter _ released => released
                     | _ => []
                     end) t.

(** The data messages among some messages, and their block ranges. *)
Definition dataMessages (ms : list (l1SyncMessage RollupInfo)) :
  list (l1SyncMessage RollupInfo) :=
  List.filter (fun m => match m with
                        | newL1SyncMessageData _ => true
                        | newL1SyncMessageControl _ => false
                        end) ms.

Definition dataRanges (ms : list (l1SyncMessage RollupInfo)) : list blockRange :=
  flat_map (fun m => match m with
                     | newL1SyncMessageData d => [response_blockRange d]
                     | newL1SyncMessageControl _ => []
                     end) ms.

(** The contract of the worker pool towards the producer, read off the
    calls: a chunk is delivered only for a range that the pool has accepted
    before ("every response carries the originating range").  [accepted]
    holds the ranges accepted so far. *)
Fixpoint answersAccepted (accepted : list blockRange) (t : list (call RollupInfo)) : bool :=
  match t with
  | [] => true
  | callAsyncRequest br true :: t' => answersAccepted (br :: accepted) t'
  | callOnFinishWorker br true :: t' =>
      existsb (blockRange_eqb br) accepted && answersAccepted accepted t'
  | _ :: t' => answersAccepted accepted t'
  end.

Definition poolContract (t : list (call RollupInfo)) : bool := answersAccepted [] t.

(** The timeout as the design document words it for the status
    Synchronized: max(ttl - (now - lastBlockTimestamp), 1 s). *)
Definition getNextTimeout_synchronized_as_specified (now : Time)
  (l : l1RollupInfoProducer) : Duration :=
  max (ttlOfLastBlockOnL1 l - time_Sub now (timeLastBLockOnL1 l))%Z Second.

(** The state [sendPackages] leaves: the packages are on the channel, in
    order, behind what was there; each send is recorded and logged. *)
Definition afterSend (pkgs : list (l1SyncMessage RollupInfo)) (l : l1RollupInfoProducer) :
  l1RollupInfoProducer :=
  mkProducer (workers l) (syncStatus l)
    (mkChannel (chanCap (outgoingChannel l)) (chanSent (outgoingChannel l) ++ pkgs))
    (timeLastBLockOnL1 l) (ttlOfLastBlockOnL1 l)
    (filterToSendOrdererResultsToConsumer l) (statistics l) (clockReads l)
    (calls l ++ map (@callSend RollupInfo) pkgs)
    (logs l ++ map (fun _ => (logInfo, "producer: Sending results [data] to consumer:%s: It could block channel [%d/%d]"%string)) pkgs).

(** The calls of one run of the dispatch loop and the number of ranges it
    launched: rounds that get a range and have it accepted, each recorded as
    started right away, and then one last round that gets no range, or gets
    one that the pool rejects and that is not recorded as started. *)
Inductive dispatchTrace : list (call RollupInfo) -> nat -> Prop :=
| dispatch_noNextRange :
    dispatchTrace [callGetNextRange None] 0
| dispatch_rejected (br : blockRange) :
    dispatchTrace [callGetNextRange (Some br); callAsyncRequest br false] 0
| dispatch_accepted (br : blockRange) (t : list (call RollupInfo)) (k : nat) :
    dispatchTrace t k ->
    dispatchTrace (callGetNextRange (Some br) :: callAsyncRequest br true
                     :: callOnStartedNewWorker br :: t) (Datatypes.S k).

(** What the dispatch loop leaves alone, besides the filter and the
    channel. *)
Definition dispatchFrame (l l' : l1RollupInfoProducer) : Prop :=
  chanCap (outgoingChannel l') = chanCap (outgoingChannel l) /\
  timeLastBLockOnL1 l' = timeLastBLockOnL1 l /\
  ttlOfLastBlockOnL1 l' = ttlOfLastBlockOnL1 l /\
  statistics l' = statistics l /\
  clockReads l' = clockReads l.

(** The value of [launchedWorker] after [k] increments. *)
Definition launchedCount (n : Z) (k : nat) : Z :=
  match k with
  | O => n
  | Datatypes.S _ => wrapInt64 (n + Z.of_nat k)
  end.

(** The three stretches of [step] when the case that fired is not
    [caseDone]: the [select] statement itself; the head refresh, tried when
    the status is Synchronized; and the rest, from the dispatch on. *)
Definition step_select (c : selectCase RollupInfo) : M unit :=
  record (callSelect c) ;;;
  match c with
  | caseResponse resultRollupInfo => onResponseRollupInfo resultRollupInfo
  | _ => log logDebug "producer: timeout [%s]"
  end.

Definition step_renew (fuel : nat) : M unit :=
  l <- get ;;
  if syncStatusEnum_eqb (getStatus (syncStatus l)) syncStatusSynchronized then
    log logDebug "producer: status==syncStatusSynchronized -> getting last block on L1" ;;;
    renewLastBlockOnL1IfNeeded fuel false
  else ret tt.

Definition step_finish : M (bool * Duration) :=
  l <- get ;;
  since <- time_Since (lastShowUpTime (statistics l)) ;;
  (if (since >? timeForShowUpStatisticsLog)%Z then
     log logInfo "producer: Statistics:%s" ;;;
     now <- time_Now ;;
     modify (fun l => set_statistics (set_lastShowUpTime (statistics l) now) l)
   else ret tt) ;;;
  d <- getNextTimeout ;;
  log logDebug "producer: Next timeout: %s status: %s" ;;;
  ret (true, d).

Definition step_rest (fuel : nat) : M (bool * Duration) :=
  launchWork fuel ;;; step_finish.

(** What [onResponseRollupInfo] leaves alone, besides the log. *)
Definition responseFrame (l l' : l1RollupInfoProducer) : Prop :=
  workers l' = workers l /\
  chanCap (outgoingChannel l') = chanCap (outgoingChannel l) /\
  timeLastBLockOnL1 l' = timeLastBLockOnL1 l /\
  ttlOfLastBlockOnL1 l' = ttlOfLastBlockOnL1 l /\
  clockReads l' = clockReads l.

(** The state in which [onNewLastBlock] leaves the producer before it
    launches work: the sync status has been told the head at the first
    reading of the clock, and [timeLastBLockOnL1] holds the second. *)
Definition afterNewLastBlock (lastBlock : N) (l : l1RollupInfoProducer) :
  l1RollupInfoProducer :=
  let now := clock (clockReads l) in
  let '(resp, s) := onNewLastBlockOnL1 (syncStatus l) now lastBlock in
  mkProducer (workers l) s (outgoingChannel l)
    (clock (Datatypes.S (clockReads l))) (ttlOfLastBlockOnL1 l)
    (filterToSendOrdererResultsToConsumer l)
    (updateLastBlockNumber (statistics l) (toBlock (fullRange resp)))
    (Datatypes.S (Datatypes.S (clockReads l)))
    (calls l ++ [callOnNewLastBlockOnL1 now lastBlock])
    (logs l ++ match extendedRange resp with
               | Some _ => [(logInfo, "producer: New last block on L1: %v -> %s"%string)]
               | None => []
               end).

(** The head request of [renewLastBlockOnL1IfNeeded] and the state right
    after it: the clock has been read once, the pool has been asked, and two
    lines are in the log. *)
Definition headRequest (l : l1RollupInfoProducer) :
  genericResponse retrieveL1LastBlockResult * W :=
  requestLastBlockWithRetries (workers l) timeRequestInitialValueOfLastBlock
    maxRetriesForRequestnitialValueOfLastBlock.

Definition afterHeadRequest (l : l1RollupInfoProducer) : l1RollupInfoProducer :=
  mkProducer (snd (headRequest l)) (syncStatus l) (outgoingChannel l)
    (timeLastBLockOnL1 l) (ttlOfLastBlockOnL1 l)
    (filterToSendOrdererResultsToConsumer l) (statistics l)
    (Datatypes.S (clockReads l))
    (calls l ++ [callRequestLastBlock timeRequestInitialValueOfLastBlock
                   maxRetriesForRequestnitialValueOfLastBlock (fst (headRequest l))])
    (logs l ++ [(logInfo, "producer: Need a new value for Last Block On L1, doing the request"%string);
                (logInfo, "producer: Need a new value for Last Block On L1, doing the request old_block:%v -> new block:%v"%string)]).

(** The last-block timestamp is older than the TTL at the next reading of
    the clock. *)
Definition lastBlockIsStale (l : l1RollupInfoProducer) : bool :=
  (time_Sub (clock (clockReads l)) (timeLastBLockOnL1 l) >? ttlOfLastBlockOnL1 l)%Z.

Definition isSynchronized (l : l1RollupInfoProducer) : bool :=
  syncStatusEnum_eqb (getStatus (syncStatus l)) syncStatusSynchronized.

(** What the filter releases for the case that fired: something only for a
    response without error. *)
Definition forwardedFor (c : selectCase RollupInfo) (l : l1RollupInfoProducer) :
  list (l1SyncMessage RollupInfo) :=
  match c with
  | caseResponse r =>
      match err r with
      | None => fst (filter_filter (filterToSendOrdererResultsToConsumer l)
                       (newL1SyncMessageData (result r)))
      | Some _ => []
      end
  | _ => []
  end.

(** The state in which an iteration of the loop of [start] ends when [step]
    has left the producer in [l] and the status was [previous] before: the
    change of status is logged, and a change to Synchronized is told to the
    consumer. *)
Definition afterStatusCheck (previous : syncStatusEnum) (l : l1RollupInfoProducer) :
  l1RollupInfoProducer :=
  let newStatus := getStatus (syncStatus l) in
  if negb (syncStatusEnum_eqb previous newStatus) then
    let l1 := set_logs (logs l ++ [(logInfo, "producer: Status changed from [%s] to [%s]"%string)]) l in
    if syncStatusEnum_eqb newStatus syncStatusSynchronized then
      afterSend [newL1SyncMessageControl eventProducerIsFullySynced]
        (set_logs (logs l1 ++ [(logInfo, "producer: send a message to consumer to indicate that we are synchronized"%string)]) l1)
    else l1
  else l.

(** The state in which [start] returns when the cancellation fires while the
    producer waits in [l]: the loop is left, and all workers have been
    waited for. *)
Definition afterCancel (l : l1RollupInfoProducer) : l1RollupInfoProducer :=
  mkProducer (waitFinishAllWorkers (workers l)) (syncStatus l) (outgoingChannel l)
    (timeLastBLockOnL1 l) (ttlOfLastBlockOnL1 l)
    (filterToSendOrdererResultsToConsumer l) (statistics l) (clockReads l)
    (calls l ++ [callSelect caseDone; callWaitFinishAllWorkers]) (logs l).

(** The control message [start] sends after an iteration that began in
    status [previous] and ended in status [new]. *)
Definition fullySyncedFor (previous new : syncStatusEnum) : list (l1SyncMessage RollupInfo) :=
  if negb (syncStatusEnum_eqb previous syncStatusSynchronized)
     && syncStatusEnum_eqb new syncStatusSynchronized
  then [newL1SyncMessageControl eventProducerIsFullySynced]
  else [].

End Producer.

Arguments fullySyncedFor {RollupInfo} previous new.

(** Tactics for the proofs: unfolding the monad and computing the fields of
    the state. *)

Ltac simpl_fields :=
  unfold set_workers, set_syncStatus, set_outgoingChannel, set_timeLastBLockOnL1,
    set_filter, set_statistics, set_clockReads, set_calls, set_logs in *;
  cbn [workers syncStatus outgoingChannel timeLastBLockOnL1 ttlOfLastBlockOnL1
       filterToSendOrdererResultsToConsumer statistics clockReads calls logs
       chanCap chanSent fst snd] in *.

(* For a state that is a record of variables: the projections compute. *)
Ltac unfold_setters :=
  cbv beta iota delta
    [set_workers set_syncStatus set_outgoingChannel set_timeLastBLockOnL1
     set_filter set_statistics set_clockReads set_calls set_logs
     workers syncStatus outgoingChannel timeLastBLockOnL1 ttlOfLastBlockOnL1
     filterToSendOrdererResultsToConsumer statistics clockReads calls logs
     chanCap chanSent] in *;
  cbn [fst snd] in *.

Ltac unfold_monad :=
  unfold time_Since in *;
  unfold log, record, time_Now in *;
  unfold bind, get, modify, ret in *;
  unfold_setters.


(** The ranges [rs] follow one another from block [start] on, none of them
    empty, each starting right after the one before, and the last ends right
    before block [next]: together they cover the blocks from [start] to
    [next - 1], without gap or overlap. *)
Fixpoint contiguous (start : N) (rs : list blockRange) (next : N) : Prop :=
  match rs with
  | [] => start = next
  | r :: rs' =>
      fromBlock r = start /\ (fromBlock r <= toBlock r)%N /\
      contiguous (toBlock r + 1) rs' next
  end.

(** *** The sync status of the design document *)

Module SpecSyncStatus.

(** Modelled from the spec: the sync status ([newSyncStatus] and the methods
    of [syncStatusInterface]), which is not among the sources at hand; design
    document, sections 3 and 4.2.  [lastBlockOnL1] and [lastBlockTimestamp]
    are [None] while unknown or unset. *)
Record syncStatus : Type := mkSyncStatus {
  startingBlock : N;
  chunkSize : N;
  lastBlockOnL1 : option N;
  lastBlockTimestamp : option Time;
  ttlOfLastBlock : Duration;
  nextBlockToAsk : N;
  inFlight : list blockRange
}.

(** Modelled from the spec: the mode, by invariants 3 to 5 of section 3:
    Idle iff the head is unknown; Synchronized iff [nextBlockToAsk] is past
    the head and nothing is in flight; Working otherwise. *)
Definition mode (s : syncStatus) : syncStatusEnum :=
  match lastBlockOnL1 s with
  | None => syncStatusIdle
  | Some last =>
      if (last <? nextBlockToAsk s)%N && (List.length (inFlight s) =? 0)%nat
      then syncStatusSynchronized
      else syncStatusWorking
  end.

(** Modelled from the spec: construction; dispatch starts at
    [startingBlock]. *)
Definition new (startingBlock chunkSize : N) (ttl : Duration) : syncStatus :=
  mkSyncStatus startingBlock chunkSize None None ttl startingBlock [].

(** Modelled from the spec: [verify]; the configuration asks for a chunk
    size above zero. *)
Definition verify (s : syncStatus) (allowModify : bool) : option error * syncStatus :=
  if (chunkSize s =? 0)%N
  then (Some (errors_New "syncStatus: chunk size must be greater than zero"), s)
  else (None, s).

(** Modelled from the spec: [nextRange], "returns the next [nextBlockToAsk,
    min(nextBlockToAsk+chunkSize-1, lastBlockOnL1)] and advances
    nextBlockToAsk past it; returns None if no range remains or if mode =
    Idle". *)
Definition nextRange (s : syncStatus) : option blockRange * syncStatus :=
  match lastBlockOnL1 s with
  | None => (None, s)
  | Some last =>
      if (nextBlockToAsk s <=? last)%N then
        let br := mkBlockRange (nextBlockToAsk s)
                    (N.min (nextBlockToAsk s + chunkSize s - 1) last) in
        (Some br,
         mkSyncStatus (startingBlock s) (chunkSize s) (lastBlockOnL1 s)
           (lastBlockTimestamp s) (ttlOfLastBlock s) (toBlock br + 1) (inFlight s))
      else (None, s)
  end.

(** Modelled from the spec: [onStarted], "records range in inFlight". *)
Definition onStarted (s : syncStatus) (br : blockRange) : syncStatus :=
  mkSyncStatus (startingBlock s) (chunkSize s) (lastBlockOnL1 s)
    (lastBlockTimestamp s) (ttlOfLastBlock s) (nextBlockToAsk s) (br :: inFlight s).

Fixpoint removeRange (br : blockRange) (rs : list blockRange) : list blockRange :=
  match rs with
  | [] => []
  | r :: rs' => if blockRange_eqb br r then rs' else r :: removeRange br rs'
  end.

(** Modelled from the spec: [onFinished], "removes range from inFlight; on
    failure, rewinds nextBlockToAsk to min(nextBlockToAsk, range.from)".  The
    design document makes a call for a range that is not in flight a fatal
    programming error; the method has no result to tell it, and here such a
    call finds nothing to remove. *)
Definition onFinished (s : syncStatus) (br : blockRange) (ok : bool) : syncStatus :=
  mkSyncStatus (startingBlock s) (chunkSize s) (lastBlockOnL1 s)
    (lastBlockTimestamp s) (ttlOfLastBlock s)
    (if ok then nextBlockToAsk s else N.min (nextBlockToAsk s) (fromBlock br))
    (removeRange br (inFlight s)).

(** Modelled from the spec: [onNewHead], "if block > lastBlockOnL1, widens
    the window and returns the newly-exposed sub-range (oldHead+1, block);
    otherwise a no-op.  Updates lastBlockTimestamp unconditionally."  A first
    head exposes the blocks from [startingBlock] on. *)
Definition onNewHead (s : syncStatus) (now : Time) (blk : N) :
  onNewLastBlockResponse * syncStatus :=
  let widened :=
    match lastBlockOnL1 s with
    | None => Some (mkBlockRange (startingBlock s) blk)
    | Some old => if (old <? blk)%N then Some (mkBlockRange (old + 1) blk) else None
    end in
  let last :=
    match widened with
    | Some _ => blk
    | None => match lastBlockOnL1 s with Some old => old | None => blk end
    end in
  (mkOnNewLastBlockResponse (mkBlockRange (startingBlock s) last) widened,
   mkSyncStatus (startingBlock s) (chunkSize s) (Some last) (Some now)
     (ttlOfLastBlock s) (nextBlockToAsk s) (inFlight s)).

(** Modelled from the spec: [needHeadRefresh], "true iff lastBlockTimestamp
    is unset or now - lastBlockTimestamp > ttlOfLastBlock". *)
Definition needHeadRefresh (s : syncStatus) (now : Time) : bool :=
  match lastBlockTimestamp s with
  | None => true
  | Some t => (time_Sub now t >? ttlOfLastBlock s)%Z
  end.

Definition lastBlockOrZero (s : syncStatus) : N :=
  match lastBlockOnL1 s with
  | Some last => last
  | None => 0%N
  end.

#[global] Instance ops : syncStatusInterface syncStatus := {
  newSyncStatus := new;
  syncStatus_verify := verify;
  syncStatus_toStringBrief := fun _ => "syncStatus"%string;
  getNextRange := nextRange;
  isNodeFullySynchronizedWithL1 :=
    fun s => syncStatusEnum_eqb (mode s) syncStatusSynchronized;
  needToRenewLastBlockOnL1 := needHeadRefresh;
  getStatus := mode;
  getLastBlockOnL1 := lastBlockOrZero;
  onStartedNewWorker := onStarted;
  onFinishWorker := onFinished;
  onNewLastBlockOnL1 := onNewHead
}.

End SpecSyncStatus.

(** *** The reorder filter of the design document *)

Module SpecFilter.

Section Filter.

Variable RollupInfo : Type.

Definition chunk : Type := responseRollupInfoByBlockRange RollupInfo.

(** Modelled from the spec: the reorder filter
    ([newFilterToSendOrdererResultsToConsumer] and the method [filter]),
    which is not among the sources at hand; design document, section 4.3.
    The state is [nextExpectedBlock] and a buffer of chunks ordered by, and
    keyed by, [range.from]. *)
Record filterState : Type := mkFilterState {
  nextExpectedBlock : N;
  buffer : list chunk
}.

Definition new (startingBlock : N) : filterState :=
  mkFilterState startingBlock [].

(** Insertion into the ordered buffer; a chunk with the key of a buffered one
    takes its place. *)
Fixpoint insertChunk (c : chunk) (buf : list chunk) : list chunk :=
  match buf with
  | [] => [c]
  | d :: rest =>
      if (fromBlock (response_blockRange c) <? fromBlock (response_blockRange d))%N
      then c :: buf
      else if (fromBlock (response_blockRange c) =? fromBlock (response_blockRange d))%N
      then c :: rest
      else d :: insertChunk c rest
  end.

(** Modelled from the spec: step 3, "release the longest prefix of the buffer
    where successive chunks are adjacent and the first has from =
    nextExpectedBlock; advance nextExpectedBlock past the released tail".  It
    yields the released chunks, and the state left. *)
Fixpoint release (next : N) (buf : list chunk) : list chunk * filterState :=
  match buf with
  | [] => ([], mkFilterState next [])
  | c :: rest =>
      if (fromBlock (response_blockRange c) =? next)%N then
        let '(out, st) := release (toBlock (response_blockRange c) + 1) rest in
        (c :: out, st)
      else ([], mkFilterState next buf)
  end.

(** Modelled from the spec: steps 1 and 2 for the chunk that arrives: "drop
    chunks whose to < nextExpectedBlock (already delivered)" and "insert
    chunks whose from >= nextExpectedBlock". *)
Definition acceptChunk (st : filterState) (c : chunk) : list chunk :=
  if (toBlock (response_blockRange c) <? nextExpectedBlock st)%N then buffer st
  else if (nextExpectedBlock st <=? fromBlock (response_blockRange c))%N
  then insertChunk c (buffer st)
  else buffer st.

(** Modelled from the spec: [filter(chunk)].  The design document defines the
    filter on chunks only; a control message is outside its contract and
    nothing is released for it. *)
Definition filterChunk (st : filterState) (data : l1SyncMessage RollupInfo) :
  list (l1SyncMessage RollupInfo) * filterState :=
  match data with
  | newL1SyncMessageData c =>
      let '(out, st') := release (nextExpectedBlock st) (acceptChunk st c) in
      (map (@newL1SyncMessageData RollupInfo) out, st')
  | newL1SyncMessageControl _ => ([], st)
  end.

#[global] Instance ops : filter RollupInfo filterState := {
  newFilterToSendOrdererResultsToConsumer := new;
  filter_toStringBrief := fun _ => "filter"%string;
  filter_filter := filterChunk
}.

End Filter.

End SpecFilter.

(** *** The producer with the sync status and the filter of the design
        document *)

Module SpecSystem.

Section Invariant.

Variable RollupInfo : Type.

(** A range as the sync status hands them out: not empty, and not beyond the
    head the sync status knows. *)
Definition issued (s : SpecSyncStatus.syncStatus) (br : blockRange) : Prop :=
  (fromBlock br <= toBlock br)%N /\
  exists head, SpecSyncStatus.lastBlockOnL1 s = Some head /\ (toBlock br <= head)%N.

(** The methods of the sync status keep the chunk size, and a head once
    known never goes down. *)
Definition headGrows (s s' : SpecSyncStatus.syncStatus) : Prop :=
  SpecSyncStatus.chunkSize s' = SpecSyncStatus.chunkSize s /\
  forall head, SpecSyncStatus.lastBlockOnL1 s = Some head ->
    exists head', SpecSyncStatus.lastBlockOnL1 s' = Some head' /\ (head <= head')%N.

(** What holds of the sync status, the filter and the channel throughout a
    run that started at block [startingBlock], when [accepted] are the
    ranges the pool has accepted: the chunk size is not zero; the accepted
    ranges and the ranges of the buffered chunks are as the sync status
    hands them out; the data sent covers the blocks from [startingBlock] up
    to the block the filter expects next, which is at most one past the
    head. *)
Definition runInvariant (startingBlock : N) (accepted : list blockRange)
  (v : SpecSyncStatus.syncStatus * SpecFilter.filterState RollupInfo
       * list (l1SyncMessage RollupInfo)) : Prop :=
  let '(s, f, sent) := v in
  SpecSyncStatus.chunkSize s <> 0%N /\
  (forall br, In br accepted -> issued s br) /\
  (forall c, In c (SpecFilter.buffer f) -> issued s (response_blockRange c)) /\
  contiguous startingBlock (dataRanges sent) (SpecFilter.nextExpectedBlock f) /\
  (dataRanges sent <> [] ->
   exists head, SpecSyncStatus.lastBlockOnL1 s = Some head /\
                (SpecFilter.nextExpectedBlock f <= head + 1)%N).

End Invariant.

End SpecSystem.

(** *** A scripted environment for the examples *)

Module Scripted.

(** A worker pool whose answers are fixed in advance: whether each successive
    range request finds a free worker, and what each successive head request
    brings.  [waited] tells that [waitFinishAllWorkers] has been called. *)
Record pool : Type := mkPool {
  accepts : list bool;
  heads : list (genericResponse retrieveL1LastBlockResult);
  waited : bool
}.

Definition errNoFreeWorker : error := errors_New "there are no free workers".

Definition errHeadUnavailable : error := errors_New "last block on L1 is not available".

Definition asyncRequest (w : pool) (br : blockRange) : option error * pool :=
  match accepts w with
  | true :: rest => (None, mkPool rest (heads w) (waited w))
  | false :: rest => (Some errNoFreeWorker, mkPool rest (heads w) (waited w))
  | [] => (Some errNoFreeWorker, w)
  end.

Definition requestLastBlock (w : pool) (timeout : Duration) (maxRetries : Z) :
  genericResponse retrieveL1LastBlockResult * pool :=
  match heads w with
  | r :: rest => (r, mkPool (accepts w) rest (waited w))
  | [] => (mkGenericResponse (Some errHeadUnavailable) (mkRetrieveL1LastBlockResult 0), w)
  end.

(** The L1 clients are where the answers come from: the first client handed
    to [newWorkers] brings the script. *)
#[global] Instance poolOps : workersInterface pool pool := {
  newWorkers := fun ethermans => List.hd (mkPool [] [] false) ethermans;
  workers_verify := fun w _ => (None, w);
  workers_initialize := fun w => (None, w);
  workers_finalize := fun w => (None, w);
  waitFinishAllWorkers := fun w => mkPool (accepts w) (heads w) true;
  asyncRequestRollupInfoByBlockRange := asyncRequest;
  requestLastBlockWithRetries := requestLastBlock
}.

(** Statistics that count. *)
Record stats : Type := mkStats {
  stats_lastShowUpTime : Time;
  stats_lastBlock : N;
  stats_ok : N;
  stats_errors : N
}.

#[global] Instance statsOps : statisticsInterface stats := {
  newRollupInfoProducerStatistics := fun start => mkStats 0%Z start 0 0;
  lastShowUpTime := stats_lastShowUpTime;
  set_lastShowUpTime := fun st t => mkStats t (stats_lastBlock st) (stats_ok st) (stats_errors st);
  updateLastBlockNumber := fun st b =>
    mkStats (stats_lastShowUpTime st) b (stats_ok st) (stats_errors st);
  updateNumRollupInfoOk := fun st n _ =>
    mkStats (stats_lastShowUpTime st) (stats_lastBlock st) (stats_ok st + n) (stats_errors st);
  updateNumRollupInfoErrors := fun st n =>
    mkStats (stats_lastShowUpTime st) (stats_lastBlock st) (stats_ok st) (stats_errors st + n);
  getETA := fun _ => "ETA"%string
}.

End Scripted.

(** *** Example runs *)

Module Examples.

Import Scripted.

Definition exampleProducer : Type :=
  l1RollupInfoProducer unit (W:=pool) (S:=SpecSyncStatus.syncStatus)
    (F:=SpecFilter.filterState unit) (St:=stats).

(** The state an outcome carries ([l] when it carries none). *)
Definition stateOf {A : Type} (o : outcome exampleProducer A) (l : exampleProducer) :
  exampleProducer :=
  match o with
  | Ok _ l' => l'
  | Fatal _ l' => l'
  | OutOfFuel => l
  end.

Definition okResponse (from to : N) : selectCase unit :=
  caseResponse (mkGenericResponse None (mkResponseRollupInfo (mkBlockRange from to) tt)).

Definition failedResponse (from to : N) : selectCase unit :=
  caseResponse (mkGenericResponse (Some (errors_New "range fetch failed"))
                  (mkResponseRollupInfo (mkBlockRange from to) tt)).

Definition headIs (b : N) : genericResponse retrieveL1LastBlockResult :=
  mkGenericResponse None (mkRetrieveL1LastBlockResult b).

(** A clock that advances by one millisecond with every reading. *)
Definition msClock (n : nat) : Time := (Z.of_nat n * 1000000)%Z.

(** Out-of-order completion (scenario S2 of the design document): blocks 0
    to 14 in chunks of 5, three workers, the head is 14, and the chunks come
    back in the order [5-9], [10-14], [0-4]; then the producer is
    cancelled. *)
Definition s2_pool : pool := mkPool [true; true; true] [headIs 14] false.

Definition s2_cases : list (selectCase unit) :=
  [caseTimeAfter; okResponse 5 9; okResponse 10 14; okResponse 0 4; caseDone].

Definition s2_constructed : exampleProducer :=
  stateOf (newL1DataRetriever [s2_pool] 0 5 10 true)
    (mkProducer s2_pool (SpecSyncStatus.new 0 5 0%Z) (mkChannel 0 []) 0%Z 0%Z
       (SpecFilter.new unit 0) (mkStats 0%Z 0 0 0) O [] []).

Definition s2_initialized : exampleProducer :=
  stateOf (initialize msClock s2_constructed) s2_constructed.

Definition s2_final : exampleProducer :=
  stateOf (start msClock 10 s2_cases s2_initialized) s2_initialized.

(** A producer that is synchronized at head 9, whose head was seen at time
    0, with a pool that has no head to give. *)
Definition synchronizedProducer : exampleProducer :=
  mkProducer (mkPool [] [] false)
    (SpecSyncStatus.mkSyncStatus 0 5 (Some 9%N) (Some 0%Z) ttlOfLastBlockDefault 10 [])
    (mkChannel 10 []) 0%Z ttlOfLastBlockDefault
    (SpecFilter.mkFilterState 10 []) (mkStats 0%Z 9 2 0) O [] [].

(** A clock that stands at 2 seconds, and one that stands at 10 seconds. *)
Definition clockAt2s (n : nat) : Time := (2 * Second)%Z.

Definition clockAt10s (n : nat) : Time := (10 * Second)%Z.

(** A producer that waits for its last chunk, [10-14], at head 14. *)
Definition almostSynchronizedProducer : exampleProducer :=
  mkProducer (mkPool [] [] false)
    (SpecSyncStatus.mkSyncStatus 0 5 (Some 14%N) (Some 0%Z) ttlOfLastBlockDefault 15
       [mkBlockRange 10 14])
    (mkChannel 10 []) 0%Z ttlOfLastBlockDefault
    (SpecFilter.mkFilterState 10 []) (mkStats 0%Z 14 2 0) O [] [].

(** The ranges left to hand out: what the dispatch loop of the sync status of
    the design document goes down by. *)
Definition rangesLeft (s : SpecSyncStatus.syncStatus) : nat :=
  match SpecSyncStatus.lastBlockOnL1 s with
  | Some last => N.to_nat (last + 1 - SpecSyncStatus.nextBlockToAsk s)
  | None => O
  end.

Definition chunkSizeIsPositive (s : SpecSyncStatus.syncStatus) : Prop :=
  SpecSyncStatus.chunkSize s <> 0%N.

End Examples.

End Synchronizer.

(** ** Reading a run off its calls and its log *)

Module Traces.

Import Synchronizer.

Section Calls.

Variable RollupInfo : Type.

(** The ranges the producer has handed to the pool, accepted or not. *)
Definition rangeRequests (t : list (call RollupInfo)) : list blockRange :=
  flat_map (fun c => match c with
                     | callAsyncRequest br _ => [br]
                     | _ => []
                     end) t.

(** The pool has turned a range down. *)
Definition rejectedRequest (t : list (call RollupInfo)) : bool :=
  existsb (fun c => match c with
                    | callAsyncRequest _ false => true
                    | _ => false
                    end) t.

(** The calls of the set-up: the checks, the initialization of the pool,
    the head request and the head told to the sync status. *)
Definition isSetupCall (c : call RollupInfo) : bool :=
  match c with
  | callWorkersVerify _ _ => true
  | callSyncStatusVerify _ _ => true
  | callWorkersInitialize _ => true
  | callRequestLastBlock _ _ _ => true
  | callOnNewLastBlockOnL1 _ _ => true
  | _ => false
  end.

(** The lines [launchWork] writes to the log when it has launched
    [launchedWorker] workers and [thereAreAnError] tells a rejection. *)
Definition launchWorkLog (launchedWorker : Z) (thereAreAnError : bool) : list logEntry :=
  (if (launchedWorker =? 0)%Z
   then [(logDebug, "producer: No workers launched because: %s"%string)]
   else []) ++
  (if thereAreAnError
   then [(logWarn, "producer: launched workers: %d , but there are an error: %s"%string)]
   else []).

(** The line [newL1DataRetriever] writes when the channel is smaller than
    the number of L1 clients. *)
Definition capacityWarning (outgoingCap clients : nat) : list logEntry :=
  if (outgoingCap <? clients)%nat
  then [(logWarn, "l1RollupInfoProducer: outgoingChannel must have a capacity (%d) of at least equal to number of ether clients (%d)"%string)]
  else [].

(** The line of a [log.Fatal]. *)
Definition fatalLine (e : error) : logEntry := (logFatal, error_Error e).

(** The calls by which [step] handles the case of the [select] that fired,
    when the filter is [f]: for a response without error, [onFinishWorker],
    the filter and a send for each message the filter releases; for a
    response with an error, [onFinishWorker] alone; nothing for a timeout. *)
Definition responseCalls {F : Type} {filterOps : filter RollupInfo F}
  (c : selectCase RollupInfo) (f : F) : list (call RollupInfo) :=
  match c with
  | caseResponse r =>
      let br := response_blockRange (result r) in
      match err r with
      | None =>
          let data := newL1SyncMessageData (result r) in
          let released := fst (filter_filter f data) in
          callOnFinishWorker br true :: callFilter data released
            :: map (@callSend RollupInfo) released
      | Some _ => [callOnFinishWorker br false]
      end
  | _ => []
  end.

(** The lines [onResponseRollupInfo] writes to the log for a response. *)
Definition responseLog {F : Type} {filterOps : filter RollupInfo F}
  (r : genericResponse (responseRollupInfoByBlockRange RollupInfo)) (f : F) :
  list logEntry :=
  match err r with
  | None =>
      map (fun _ => (logInfo, "producer: Sending results [data] to consumer:%s: It could block channel [%d/%d]"%string))
        (fst (filter_filter f (newL1SyncMessageData (result r))))
  | Some _ =>
      [(logWarn, "producer: Error while trying to get rollup info by block range: %v"%string)]
  end.

End Calls.

Section Dispatch.

Variables RollupInfo Etherman : Type.

Context {W S : Type}.

Context {workersOps : workersInterface Etherman W}.

Context {syncStatusOps : syncStatusInterface S}.

(** One run of the dispatch loop of [launchWork], told by what the sync
    status and the pool answer: from the pool [w] and the sync status [s] it
    makes the calls [t], launches [k] workers and leaves the pool [w'] and
    the sync status [s'].  Each round asks the sync status, in the state it
    is in, for the next range.  With no range the run ends.  A range goes to
    the pool, in the state it is in; when the pool returns an error the run
    ends, and the sync status is as [getNextRange] left it; when the pool
    accepts, the sync status is told with [onStartedNewWorker] and the next
    round starts from there. *)
Inductive dispatchRun : W -> S -> list (call RollupInfo) -> nat -> W -> S -> Prop :=
| dispatchRun_noNextRange (w : W) (s s' : S) :
    getNextRange s = (None, s') ->
    dispatchRun w s [callGetNextRange None] 0 w s'
| dispatchRun_rejected (w w' : W) (s s' : S) (br : blockRange) (e : error) :
    getNextRange s = (Some br, s') ->
    asyncRequestRollupInfoByBlockRange w br = (Some e, w') ->
    dispatchRun w s [callGetNextRange (Some br); callAsyncRequest br false] 0 w' s'
| dispatchRun_accepted (w w' w2 : W) (s s' s2 : S) (br : blockRange)
    (t : list (call RollupInfo)) (k : nat) :
    getNextRange s = (Some br, s') ->
    asyncRequestRollupInfoByBlockRange w br = (None, w') ->
    dispatchRun w' (onStartedNewWorker s' br) t k w2 s2 ->
    dispatchRun w s
      (callGetNextRange (Some br) :: callAsyncRequest br true
         :: callOnStartedNewWorker br :: t)
      (Datatypes.S k) w2 s2.

End Dispatch.

End Traces.

(** ** Backpressure: the sends that wait for the consumer

    The functions of the producer above take every send on the outgoing
    channel to complete.  In the source a send, [l.outgoingChannel <- pkg],
    completes at once while the buffer of the channel has room and otherwise
    waits until the consumer receives; when the consumer has stopped
    receiving, it waits for good.  Here are the functions that send, with
    that wait. *)

Module Backpressure.

Import Synchronizer.

(** How a call ends when its sends may have to wait: as in [outcome], or with
    the producer blocked for good in the send of [pkg], in the state [l] it
    has reached. *)
Inductive result (P Msg A : Type) : Type :=
| Returns (a : A) (l : P)
| Blocks (pkg : Msg) (l : P)
| Dies (e : error) (l : P)
| NoFuel.

Arguments Returns {P Msg A} a l.
Arguments Blocks {P Msg A} pkg l.
Arguments Dies {P Msg A} e l.
Arguments NoFuel {P Msg A}.

Section Consumer.

Variables RollupInfo Etherman : Type.

Context {W S F St : Type}.

Context {workersOps : workersInterface Etherman W}.

Context {syncStatusOps : syncStatusInterface S}.

Context {filterOps : filter RollupInfo F}.

Context {statisticsOps : statisticsInterface St}.

Variable clock : nat -> Time.

(** The consumer, which is outside the producer: the number of messages it
    is going to receive from the channel, [None] for a consumer that never
    stops receiving.  The producer is the only sender, and [chanSent] holds
    all it has sent. *)
Variable receives : option nat.

(** [n] more sends complete: with the messages sent so far they are not more
    than the consumer receives and the buffer holds.  (For a channel without
    buffer a send completes when the consumer receives the message.) *)
Definition roomFor (n : nat) (l : l1RollupInfoProducer RollupInfo (W:=W) (S:=S) (F:=F) (St:=St)) :
  bool :=
  match receives with
  | None => true
  | Some k =>
      (List.length (chanSent (outgoingChannel l)) + n <=? k + chanCap (outgoingChannel l))%nat
  end.

Definition R (A : Type) : Type :=
  l1RollupInfoProducer RollupInfo (W:=W) (S:=S) (F:=F) (St:=St) ->
  result (l1RollupInfoProducer RollupInfo (W:=W) (S:=S) (F:=F) (St:=St))
    (l1SyncMessage RollupInfo) A.

(** A call that sends nothing. *)
Definition lift {A : Type} (m : M RollupInfo A) : R A :=
  fun l =>
    match m l with
    | Ok a l' => Returns a l'
    | Fatal e l' => Dies e l'
    | OutOfFuel => NoFuel
    end.

Definition bind {A B : Type} (m : R A) (k : A -> R B) : R B :=
  fun l =>
    match m l with
    | Returns a l' => k a l'
    | Blocks pkg l' => Blocks pkg l'
    | Dies e l' => Dies e l'
    | NoFuel => NoFuel
    end.

Notation "x <- m ;; k" := (bind m (fun x => k))
  (at level 61, m at next level, right associativity).

Notation "m ;;; k" := (bind m (fun _ => k))
  (at level 61, right associativity).

(** [l.outgoingChannel <- pkg]: with room the message is on the channel;
    without, the producer waits in the send, and nothing after it happens. *)
Definition send (pkg : l1SyncMessage RollupInfo) : R unit :=
  fun l =>
    if roomFor 1 l then
      lift (Synchronizer.bind
              (modify (fun l =>
                 set_outgoingChannel
                   (mkChannel (chanCap (outgoingChannel l))
                      (chanSent (outgoingChannel l) ++ [pkg])) l))
              (fun _ => record (callSend pkg))) l
    else Blocks pkg l.

(** [func (l *l1RollupInfoProducer) sendPackages(outgoingPackages)]. *)
Fixpoint sendPackages (outgoingPackages : list (l1SyncMessage RollupInfo)) : R unit :=
  match outgoingPackages with
  | [] => lift (ret tt)
  | pkg :: rest =>
      lift (log logInfo "producer: Sending results [data] to consumer:%s: It could block channel [%d/%d]") ;;;
      send pkg ;;;
      sendPackages rest
  end.

(** [func (l *l1RollupInfoProducer) onResponseRollupInfo(result)]. *)
Definition onResponseRollupInfo
  (result : genericResponse (responseRollupInfoByBlockRange RollupInfo)) : R unit :=
  let isOk := match err result with None => true | Some _ => false end in
  let br := response_blockRange (Synchronizer.result result) in
  lift (modify (fun l => set_syncStatus (onFinishWorker (syncStatus l) br isOk) l)) ;;;
  lift (record (callOnFinishWorker br isOk)) ;;;
  if isOk then
    lift (modify (fun l =>
            set_statistics (updateNumRollupInfoOk (statistics l) 1 (blockRange_len br)) l)) ;;;
    l <- lift (@get RollupInfo W S F St) ;;
    let data := newL1SyncMessageData (Synchronizer.result result) in
    let '(outgoingPackages, f) := filter_filter (filterToSendOrdererResultsToConsumer l) data in
    lift (modify (set_filter f)) ;;;
    lift (record (callFilter data outgoingPackages)) ;;;
    sendPackages outgoingPackages
  else
    lift (modify (fun l =>
            set_statistics (updateNumRollupInfoErrors (statistics l) 1) l)) ;;;
    lift (log logWarn "producer: Error while trying to get rollup info by block range: %v").

(** [func (l *l1RollupInfoProducer) step(waitDuration *time.Duration) bool].
    The only sends of an iteration are those of [onResponseRollupInfo]. *)
Definition step (fuel : nat) (c : selectCase RollupInfo) (waitDuration : Duration) :
  R (bool * Duration) :=
  lift (record (callSelect c)) ;;;
  match c with
  | caseDone => lift (ret (false, waitDuration))
  | _ =>
      match c with
      | caseResponse resultRollupInfo => onResponseRollupInfo resultRollupInfo
      | _ => lift (log logDebug "producer: timeout [%s]")
      end ;;;
      l <- lift (@get RollupInfo W S F St) ;;
      (if syncStatusEnum_eqb (getStatus (syncStatus l)) syncStatusSynchronized then
         lift (log logDebug "producer: status==syncStatusSynchronized -> getting last block on L1") ;;;
         lift (renewLastBlockOnL1IfNeeded clock fuel false)
       else lift (ret tt)) ;;;
      lift (launchWork fuel) ;;;
      l <- lift (@get RollupInfo W S F St) ;;
      since <- lift (time_Since clock (lastShowUpTime (statistics l))) ;;
      (if (since >? timeForShowUpStatisticsLog)%Z then
         lift (log logInfo "producer: Statistics:%s") ;;;
         now <- lift (time_Now clock) ;;
         lift (modify (fun l => set_statistics (set_lastShowUpTime (statistics l) now) l))
       else lift (ret tt)) ;;;
      d <- lift (getNextTimeout clock) ;;
      lift (log logDebug "producer: Next timeout: %s status: %s") ;;;
      lift (ret (true, d))
  end.

(** The [for] loop of [start]. *)
Fixpoint start_loop (fuel : nat) (cases : list (selectCase RollupInfo))
  (waitDuration : Duration) (previousStatus : syncStatusEnum) : R bool :=
  match cases with
  | [] => lift (ret false)
  | c :: cases' =>
      r <- step fuel c waitDuration ;;
      let '(continue, waitDuration') := r in
      if continue then
        l <- lift (@get RollupInfo W S F St) ;;
        let newStatus := getStatus (syncStatus l) in
        (if negb (syncStatusEnum_eqb previousStatus newStatus) then
           lift (log logInfo "producer: Status changed from [%s] to [%s]") ;;;
           if syncStatusEnum_eqb newStatus syncStatusSynchronized then
             lift (log logInfo "producer: send a message to consumer to indicate that we are synchronized") ;;;
             sendPackages [newL1SyncMessageControl eventProducerIsFullySynced]
           else lift (ret tt)
         else lift (ret tt)) ;;;
        start_loop fuel cases' waitDuration' newStatus
      else lift (ret true)
  end.

(** [func (l *l1RollupInfoProducer) start() error]. *)
Definition start (fuel : nat) (cases : list (selectCase RollupInfo)) : R startResult :=
  let waitDuration := 0%Z in
  l <- lift (@get RollupInfo W S F St) ;;
  let previousStatus := getStatus (syncStatus l) in
  left <- start_loop fuel cases waitDuration previousStatus ;;
  if left then
    lift (modify (fun l => set_workers (waitFinishAllWorkers (workers l)) l)) ;;;
    lift (record callWaitFinishAllWorkers) ;;;
    lift (ret (startReturned None))
  else lift (ret startWaiting).

(** The state in which [sendPackages] waits when it has sent [done] and
    the next send finds no room: the line for that send is in the log. *)
Definition waitingToSend (done : list (l1SyncMessage RollupInfo))
  (l : l1RollupInfoProducer RollupInfo (W:=W) (S:=S) (F:=F) (St:=St)) :
  l1RollupInfoProducer RollupInfo (W:=W) (S:=S) (F:=F) (St:=St) :=
  set_logs (logs (afterSend done l) ++
            [(logInfo, "producer: Sending results [data] to consumer:%s: It could block channel [%d/%d]"%string)])
    (afterSend done l).

(** A call with waiting sends against the call with sends that complete:
    when it returns, dies or runs out of fuel, so does the other, in the same
    state; it can only block with a consumer that stops receiving. *)
Definition refines {A : Type} (m' : R A) (m : M RollupInfo A) : Prop :=
  forall l,
    match m' l with
    | Returns a l' => m l = Ok a l'
    | Blocks _ _ => receives <> None
    | Dies e l' => m l = Fatal e l'
    | NoFuel => m l = OutOfFuel
    end.

(** More fuel changes nothing in a call that has come to an end: to a
    result, a fatal error or a send that waits for good. *)
Definition settled {A : Type} (m m' : R A) : Prop :=
  forall l, m l <> NoFuel -> m' l = m l.

(** The state a call ends in ([l] when it gives none). *)
Definition stateAt {A : Type}
  (r : result (l1RollupInfoProducer RollupInfo (W:=W) (S:=S) (F:=F) (St:=St))
         (l1SyncMessage RollupInfo) A)
  (l : l1RollupInfoProducer RollupInfo (W:=W) (S:=S) (F:=F) (St:=St)) :
  l1RollupInfoProducer RollupInfo (W:=W) (S:=S) (F:=F) (St:=St) :=
  match r with
  | Returns _ l' => l'
  | Blocks _ l' => l'
  | Dies _ l' => l'
  | NoFuel => l
  end.

End Consumer.

(** Scenario S6 of the design document, with a consumer that has stopped:
    the producer of scenario S2 with an outgoing channel of capacity 1 and a
    consumer that receives nothing.  The chunks come back as in S2, so that
    with [0-4] three chunks are ready for the consumer; the cancellation is
    raised after them. *)
Module SlowConsumer.

Import Scripted.

Import Examples.

Definition s6_constructed : exampleProducer :=
  stateOf (newL1DataRetriever [s2_pool] 0 5 1 true)
    (mkProducer s2_pool (SpecSyncStatus.new 0 5 0%Z) (mkChannel 0 []) 0%Z 0%Z
       (SpecFilter.new unit 0) (mkStats 0%Z 0 0 0) O [] []).

Definition s6_initialized : exampleProducer :=
  stateOf (initialize msClock s6_constructed) s6_constructed.

(** Where the producer waits for good: in the send of [5-9], with [0-4] in
    the buffer of the channel. *)
Definition s6_blocked : exampleProducer :=
  stateAt (start msClock (Some O) 10 s2_cases s6_initialized) s6_initialized.

(** The cases of S2 before the cancellation. *)
Definition s2_beforeCancel : list (selectCase unit) :=
  [caseTimeAfter; okResponse 5 9; okResponse 10 14; okResponse 0 4].

(** The state in which the producer of S2 waits in the [select] when the
    cancellation is raised. *)
Definition s2_waiting : exampleProducer :=
  stateOf (Synchronizer.start msClock 10 s2_beforeCancel s2_initialized) s2_initialized.

End SlowConsumer.

End Backpressure.

(** * Part II: properties *)

(** ** Errors *)

Lemma error_eqb_refl (e : error) : error_eqb e e = true.
Proof.
  induction e as [m | w IH r]; simpl.
  - apply String.eqb_refl.
  - rewrite IH, String.eqb_refl. reflexivity.
Qed.

Lemma errors_Is_wrap (e : error) (rest : string) :
  errors_Is (Errorf_w e rest) e = true.
Proof.
  cbn [errors_Is]. destruct e; cbn [errors_Is]; rewrite error_eqb_refl;
    apply orb_true_r.
Qed.

Lemma wrapUint64_sub_small (a b : Z) :
  isUint64 a -> isUint64 b -> (b <= a)%Z -> wrapUint64 (a - b) = (a - b)%Z.
Proof.
  unfold isUint64, wrapUint64. intros Ha Hb Hle.
  apply Z.mod_small. lia.
Qed.

Lemma wrapInt64_idem_add (a b : Z) :
  wrapInt64 (wrapInt64 a + b) = wrapInt64 (a + b).
Proof.
  unfold wrapInt64. f_equal.
  replace ((a + 2 ^ 63) mod 2 ^ 64 - 2 ^ 63 + b + 2 ^ 63)%Z
    with ((a + 2 ^ 63) mod 2 ^ 64 + b)%Z by lia.
  rewrite Zplus_mod_idemp_l. f_equal. lia.
Qed.

(** ** The sequencer's [batchResources.sub] *)

Section BatchResourcesFacts.

Import Sequencer.

Variable ZKCounters : Type.
Variable ZKCounters_Sub : ZKCounters -> ZKCounters -> ZKCounters * option error.
Variable ErrBatchRemainingResourcesUnderflow : error.

(** C10. Whenever [r.sub(other)] returns an error, which happens exactly
    when [other.bytes] exceeds [r.bytes] or the ZK-counter subtraction fails,
    [r.bytes] is what it was before the call and the error wraps
    [ErrBatchRemainingResourcesUnderflow]; when it returns nil, [r.bytes] has
    decreased by exactly [other.bytes]. *)
Theorem sub_bytes_restored_on_error (r other : batchResources ZKCounters) :
  isUint64 (bytes r) -> isUint64 (bytes other) ->
  let zkFails := exists zk e,
    ZKCounters_Sub (zKCounters r) (zKCounters other) = (zk, Some e) in
  match sub ZKCounters_Sub ErrBatchRemainingResourcesUnderflow r other with
  | (r', Some e) =>
      bytes r' = bytes r /\
      errors_Is e ErrBatchRemainingResourcesUnderflow = true /\
      ((bytes other > bytes r)%Z \/ zkFails)
  | (r', None) =>
      bytes r' = (bytes r - bytes other)%Z /\
      (bytes other <= bytes r)%Z /\ ~ zkFails
  end.
Proof.
  intros Hr Ho zkFails. unfold sub.
  destruct (bytes other >? bytes r)%Z eqn:Hgt.
  - split; [reflexivity | split].
    + apply errors_Is_wrap.
    + left. apply Z.gtb_lt in Hgt. lia.
  - assert (Hle : (bytes other <= bytes r)%Z).
    { rewrite Z.gtb_ltb in Hgt. apply Z.ltb_ge in Hgt. exact Hgt. }
    cbn [zKCounters bytes].
    destruct (ZKCounters_Sub (zKCounters r) (zKCounters other)) as [zk [e|]] eqn:Hzk;
      cbn [zKCounters bytes].
    + split; [reflexivity | split].
      * apply errors_Is_wrap.
      * right. exists zk, e. reflexivity.
    + split; [apply wrapUint64_sub_small; assumption | split; [exact Hle|]].
      intros (zk' & e' & Habs). discriminate Habs.
Qed.

End BatchResourcesFacts.


(** ** The producer, for every instance of its interfaces *)

Module ProducerFacts.

Import Synchronizer.

Section Generic.

Variables RollupInfo Etherman : Type.

Context {W S F St : Type}.

Context {workersOps : workersInterface Etherman W}.

Context {syncStatusOps : syncStatusInterface S}.

Context {filterOps : filter RollupInfo F}.

Context {statisticsOps : statisticsInterface St}.

Variable clock : nat -> Time.

Local Abbreviation producer :=
  (l1RollupInfoProducer RollupInfo (W:=W) (S:=S) (F:=F) (St:=St)).

Local Abbreviation message := (l1SyncMessage RollupInfo).

Local Abbreviation calls_t := (list (call RollupInfo)).

Local Abbreviation view_t := (view RollupInfo (S:=S) (F:=F)).

(** *** The monad *)

Lemma bind_Ok {A B : Type} (m : M RollupInfo A) (k : A -> M RollupInfo B)
  (l : producer) (b : B) (l' : producer) :
  bind m k l = Ok b l' ->
  exists a l1, m l = Ok a l1 /\ k a l1 = Ok b l'.
Proof.
  unfold bind. destruct (m l) as [a l1| |]; try discriminate.
  intros H. exists a, l1. auto.
Qed.

(** *** Sequences of blocks *)

Lemma segments_app (B : calls_t -> view_t -> view_t -> Prop)
  (t1 t2 : calls_t) (v1 v2 v3 : view_t) :
  segments B t1 v1 v2 -> segments B t2 v2 v3 -> segments B (t1 ++ t2) v1 v3.
Proof.
  induction 1 as [v | b t va vb vc Hb Ht IH]; intros H2; [exact H2|].
  rewrite <- app_assoc. econstructor; [exact Hb | apply IH; exact H2].
Qed.

Lemma segments_one (B : calls_t -> view_t -> view_t -> Prop)
  (b : calls_t) (v1 v2 : view_t) :
  B b v1 v2 -> segments B b v1 v2.
Proof.
  intros H. rewrite <- (app_nil_r b). econstructor; [exact H | constructor].
Qed.

Lemma segments_mono (B B' : calls_t -> view_t -> view_t -> Prop) :
  (forall b v v', B b v v' -> B' b v v') ->
  forall t v v', segments B t v v' -> segments B' t v v'.
Proof.
  intros Hsub t v v'. induction 1; econstructor; eauto.
Qed.

Lemma extendsBy_refl (B : calls_t -> view_t -> view_t -> Prop) (l : producer) :
  extendsBy B l l.
Proof. exists []. rewrite app_nil_r. split; [reflexivity | constructor]. Qed.

Lemma extendsBy_same (B : calls_t -> view_t -> view_t -> Prop) (l l' : producer) :
  calls l' = calls l -> viewOf l' = viewOf l -> extendsBy B l l'.
Proof.
  intros Hc Hv. exists []. rewrite app_nil_r, Hv. split; [exact Hc | constructor].
Qed.

Lemma extendsBy_trans (B : calls_t -> view_t -> view_t -> Prop) (l1 l2 l3 : producer) :
  extendsBy B l1 l2 -> extendsBy B l2 l3 -> extendsBy B l1 l3.
Proof.
  intros (t1 & Hc1 & H1) (t2 & Hc2 & H2). exists (t1 ++ t2).
  split; [rewrite Hc2, Hc1, app_assoc; reflexivity|].
  eapply segments_app; eassumption.
Qed.

Lemma extendsBy_mono (B B' : calls_t -> view_t -> view_t -> Prop) (l l' : producer) :
  (forall b v v', B b v v' -> B' b v v') -> extendsBy B l l' -> extendsBy B' l l'.
Proof.
  intros Hsub (t & Hc & Ht). exists t. split; [exact Hc|].
  eapply segments_mono; eassumption.
Qed.

Lemma extendsBy_block (B : calls_t -> view_t -> view_t -> Prop) (b : calls_t)
  (l l' : producer) :
  calls l' = calls l ++ b -> B b (viewOf l) (viewOf l') -> extendsBy B l l'.
Proof.
  intros Hc Hb. exists b. split; [exact Hc | apply segments_one; exact Hb].
Qed.

Lemma tail_is_quiet (b : calls_t) (v v' : view_t) :
  tailBlock b v v' -> quietBlock b v v'.
Proof. apply quiet_tail. Qed.

Lemma quiet_is_run (b : calls_t) (v v' : view_t) :
  quietBlock b v v' -> runBlock b v v'.
Proof. apply block_quiet. Qed.

Lemma tail_is_run (b : calls_t) (v v' : view_t) :
  tailBlock b v v' -> runBlock b v v'.
Proof. intros H. apply block_quiet, quiet_tail, H. Qed.

(** Quiet blocks leave the filter and the channel as they are. *)
Lemma quiet_segments_frame (t : calls_t) (v v' : view_t) :
  segments (@quietBlock RollupInfo S F _) t v v' ->
  snd (fst v') = snd (fst v) /\ snd v' = snd v /\ sends t = [].
Proof.
  induction 1 as [v | b t v1 v2 v3 Hb Ht (IHf & IHs & IHn)]; [auto|].
  unfold sends in *. rewrite flat_map_app, IHf, IHs, IHn, app_nil_r.
  destruct Hb as [b v v' Hb| | | | |]; [destruct Hb|..]; cbn; auto.
Qed.

(** The channel only grows, by what the calls say was sent. *)
Lemma run_segments_sent (t : calls_t) (v v' : view_t) :
  segments (@runBlock RollupInfo S F _ _) t v v' ->
  snd v' = snd v ++ sends t.
Proof.
  induction 1 as [v | b t v1 v2 v3 Hb Ht IH]; [cbn; rewrite app_nil_r; reflexivity|].
  unfold sends in *. rewrite flat_map_app, IH.
  destruct Hb as [b v v' Hb| | |].
  - destruct (quiet_segments_frame (@segments_one _ b v v' Hb)) as (_ & Hs & Hn).
    unfold sends in Hn. rewrite Hs, Hn. reflexivity.
  - cbn. reflexivity.
  - cbn. rewrite <- app_assoc. f_equal. f_equal.
    clear. induction released as [|m ms IH]; cbn; [reflexivity | f_equal; exact IH].
  - cbn. rewrite <- app_assoc. reflexivity.
Qed.

(** *** [sendPackages] *)

Lemma sendPackages_ok (pkgs : list message) (l : producer) :
  sendPackages pkgs l = Ok tt (afterSend pkgs l).
Proof.
  revert l. induction pkgs as [|pkg rest IH]; intros [w s [cap sent] tl ttl f st n cs ls].
  - unfold afterSend. cbn. rewrite !app_nil_r. reflexivity.
  - cbn [sendPackages]. unfold bind, log, record, modify. cbn.
    rewrite IH. unfold afterSend. cbn. rewrite <- !app_assoc. reflexivity.
Qed.

(** *** [onResponseRollupInfo] *)


Lemma onResponseRollupInfo_block
  (r : genericResponse (responseRollupInfoByBlockRange RollupInfo)) (l : producer) :
  exists l' b,
    onResponseRollupInfo r l = Ok tt l' /\
    calls l' = calls l ++ b /\
    runBlock b (viewOf l) (viewOf l') /\
    sends b = forwardedFor (caseResponse r) l /\
    headRequests b = [] /\
    responseFrame l l'.
Proof.
  unfold onResponseRollupInfo, forwardedFor, viewOf, responseFrame.
  destruct (err r) as [e|] eqn:Herr.
  - eexists _, [_]. split; [reflexivity|]. cbn.
    repeat split; try reflexivity. apply block_failed.
  - unfold bind, modify, record, get. cbn.
    destruct (filter_filter (filterToSendOrdererResultsToConsumer l)
                (newL1SyncMessageData (result r))) as [released f] eqn:Hf.
    cbn. rewrite sendPackages_ok.
    eexists _, _. split; [reflexivity|]. cbn.
    split; [rewrite <- !app_assoc; cbn; reflexivity|].
    split; [apply block_chunk; exact Hf|].
    repeat split; try reflexivity.
    + clear. induction released as [|m ms IH]; cbn; [reflexivity | f_equal; exact IH].
    + clear. induction released as [|m ms IH]; cbn; [reflexivity | exact IH].
Qed.

(** *** [launchWork] *)

Lemma dispatchFrame_refl (l : producer) : dispatchFrame l l.
Proof. unfold dispatchFrame. auto 10. Qed.

Lemma dispatchFrame_trans (l1 l2 l3 : producer) :
  dispatchFrame l1 l2 -> dispatchFrame l2 l3 -> dispatchFrame l1 l3.
Proof.
  unfold dispatchFrame. intros (a & b & c & d & e) (a' & b' & c' & d' & e').
  repeat split; congruence.
Qed.

Lemma launchedCount_S (n : Z) (k : nat) :
  launchedCount (wrapInt64 (n + 1)) k = wrapInt64 (n + Z.of_nat (Datatypes.S k)).
Proof.
  destruct k as [|k]; cbn [launchedCount].
  - f_equal.
  - rewrite wrapInt64_idem_add. f_equal. lia.
Qed.

Lemma dispatchTrace_no_headRequests (t : calls_t) (k : nat) :
  dispatchTrace t k -> headRequests t = [].
Proof. induction 1; cbn; auto. Qed.

Lemma launchWork_loop_calls (fuel : nat) :
  forall (n : Z) (l : producer) (r : Z * bool) (l' : producer),
    launchWork_loop fuel n l = Ok r l' ->
    exists t k,
      calls l' = calls l ++ t /\ dispatchTrace t k /\
      segments (@tailBlock RollupInfo S F _) t (viewOf l) (viewOf l') /\
      fst r = launchedCount n k /\ logs l' = logs l /\ dispatchFrame l l'.
Proof.
  induction fuel as [|fuel IH]; intros n l r l' Hrun; [discriminate Hrun|].
  cbn [launchWork_loop] in Hrun. unfold bind, get, modify, record, ret in Hrun.
  destruct (getNextRange (syncStatus l)) as [[br|] s] eqn:Hnext; cbn in Hrun.
  - destruct (asyncRequestRollupInfoByBlockRange (workers l) br) as [[e|] w] eqn:Hreq;
      cbn in Hrun.
    + inversion Hrun; subst r l'; clear Hrun. cbn.
      exists [callGetNextRange (Some br); callAsyncRequest br false], O.
      rewrite <- app_assoc. split; [reflexivity|]. split; [constructor|].
      split; [apply segments_one; apply tail_rejected; exact Hnext|].
      repeat split; reflexivity.
    + match type of Hrun with launchWork_loop _ _ ?l1 = _ =>
        destruct (IH _ l1 r l' Hrun) as (t & k & Hc & Ht & Hseg & Hn & Hl & Hf) end.
      cbn in Hc, Hl, Hseg.
      exists (callGetNextRange (Some br) :: callAsyncRequest br true
                :: callOnStartedNewWorker br :: t), (Datatypes.S k).
      split; [rewrite Hc, <- !app_assoc; reflexivity|].
      split; [constructor; exact Ht|].
      split.
      { change (callGetNextRange (Some br) :: callAsyncRequest br true
                  :: callOnStartedNewWorker br :: t)
          with ([callGetNextRange (Some br); callAsyncRequest br true;
                 callOnStartedNewWorker br] ++ t).
        econstructor; [|exact Hseg]. unfold viewOf. apply tail_accepted. exact Hnext. }
      split; [rewrite Hn; apply launchedCount_S|].
      split; [exact Hl|].
      unfold dispatchFrame in *. cbn in Hf. exact Hf.
  - inversion Hrun; subst r l'; clear Hrun. cbn.
    exists [callGetNextRange None], O.
    split; [reflexivity|]. split; [constructor|].
    split; [apply segments_one; apply tail_noNextRange; exact Hnext|].
    repeat split; reflexivity.
Qed.

Lemma launchWork_loop_not_Fatal (fuel : nat) :
  forall (n : Z) (l : producer) (e : error) (l' : producer),
    launchWork_loop fuel n l <> Fatal e l'.
Proof.
  induction fuel as [|fuel IH]; intros n l e l' Hrun; [discriminate Hrun|].
  cbn [launchWork_loop] in Hrun. unfold bind, get, modify, record, ret in Hrun.
  destruct (getNextRange (syncStatus l)) as [[br|] s]; cbn in Hrun; [|discriminate].
  destruct (asyncRequestRollupInfoByBlockRange (workers l) br) as [[e'|] w];
    cbn in Hrun; [discriminate|].
  eapply IH; eassumption.
Qed.

Lemma launchWork_calls (fuel : nat) (l : producer) (n : Z) (l' : producer) :
  launchWork fuel l = Ok n l' ->
  exists t k,
    calls l' = calls l ++ t /\ dispatchTrace t k /\
    segments (@tailBlock RollupInfo S F _) t (viewOf l) (viewOf l') /\
    n = wrapInt64 (Z.of_nat k) /\ dispatchFrame l l'.
Proof.
  unfold launchWork, bind. intros Hrun.
  destruct (launchWork_loop fuel 0 l) as [[n0 b] l1| |] eqn:Hloop; try discriminate.
  destruct (launchWork_loop_calls _ _ _ Hloop) as (t & k & Hc & Ht & Hseg & Hn & Hl & Hf).
  cbn in Hn.
  assert (Hcalls : calls l' = calls l1 /\ viewOf l' = viewOf l1 /\
                   dispatchFrame l1 l' /\ n = n0).
  { destruct (n0 =? 0)%Z, b; cbn in Hrun; inversion Hrun; subst; cbn;
      repeat split; reflexivity. }
  destruct Hcalls as (Hc' & Hv' & Hf' & ->).
  exists t, k. split; [congruence|]. split; [exact Ht|].
  split; [rewrite Hv'; exact Hseg|].
  split; [|eapply dispatchFrame_trans; eassumption].
  rewrite Hn. destruct k; reflexivity.
Qed.

Lemma launchWork_not_Fatal (fuel : nat) (l : producer) (e : error) (l' : producer) :
  launchWork fuel l <> Fatal e l'.
Proof.
  unfold launchWork, bind. intros Hrun.
  destruct (launchWork_loop fuel 0 l) as [[n0 b] l1| |] eqn:Hloop.
  - destruct (n0 =? 0)%Z, b; cbn in Hrun; discriminate.
  - eapply launchWork_loop_not_Fatal; eassumption.
  - discriminate.
Qed.

Lemma launchWork_loop_run (fuel : nat) :
  forall (n : Z) (l : producer) (r : Z * bool) (l' : producer),
    launchWork_loop fuel n l = Ok r l' ->
    exists t k,
      calls l' = calls l ++ t /\ dispatchTrace t k /\
      Traces.dispatchRun (workers l) (syncStatus l) t k (workers l') (syncStatus l') /\
      fst r = launchedCount n k /\
      outgoingChannel l' = outgoingChannel l /\
      filterToSendOrdererResultsToConsumer l' = filterToSendOrdererResultsToConsumer l /\
      dispatchFrame l l'.
Proof.
  induction fuel as [|fuel IH]; intros n l r l' Hrun; [discriminate Hrun|].
  cbn [launchWork_loop] in Hrun. unfold bind, get, modify, record, ret in Hrun.
  destruct (getNextRange (syncStatus l)) as [[br|] s] eqn:Hnext; cbn in Hrun.
  - destruct (asyncRequestRollupInfoByBlockRange (workers l) br) as [[e|] w] eqn:Hreq;
      cbn in Hrun.
    + inversion Hrun; subst r l'; clear Hrun. cbn.
      exists [callGetNextRange (Some br); callAsyncRequest br false], O.
      rewrite <- app_assoc. split; [reflexivity|]. split; [constructor|].
      split; [eapply Traces.dispatchRun_rejected; eassumption|].
      repeat split; reflexivity.
    + match type of Hrun with launchWork_loop _ _ ?l1 = _ =>
        destruct (IH _ l1 r l' Hrun) as (t & k & Hc & Ht & Hdr & Hn & Hch & Hfl & Hf) end.
      cbn in Hc, Hdr, Hch, Hfl.
      exists (callGetNextRange (Some br) :: callAsyncRequest br true
                :: callOnStartedNewWorker br :: t), (Datatypes.S k).
      split; [rewrite Hc, <- !app_assoc; reflexivity|].
      split; [constructor; exact Ht|].
      split; [eapply Traces.dispatchRun_accepted; eassumption|].
      split; [rewrite Hn; apply launchedCount_S|].
      split; [exact Hch|]. split; [exact Hfl|].
      unfold dispatchFrame in *. cbn in Hf. exact Hf.
  - inversion Hrun; subst r l'; clear Hrun. cbn.
    exists [callGetNextRange None], O.
    split; [reflexivity|]. split; [constructor|].
    split; [apply Traces.dispatchRun_noNextRange; exact Hnext|].
    repeat split; reflexivity.
Qed.

Lemma launchWork_run (fuel : nat) (l : producer) (n : Z) (l' : producer) :
  launchWork fuel l = Ok n l' ->
  exists t k,
    calls l' = calls l ++ t /\ dispatchTrace t k /\
    Traces.dispatchRun (workers l) (syncStatus l) t k (workers l') (syncStatus l') /\
    n = wrapInt64 (Z.of_nat k) /\
    outgoingChannel l' = outgoingChannel l /\
    filterToSendOrdererResultsToConsumer l' = filterToSendOrdererResultsToConsumer l /\
    dispatchFrame l l'.
Proof.
  unfold launchWork, bind. intros Hrun.
  destruct (launchWork_loop fuel 0 l) as [[n0 b] l1| |] eqn:Hloop; try discriminate.
  destruct (launchWork_loop_run _ _ _ Hloop)
    as (t & k & Hc & Ht & Hdr & Hn & Hch & Hfl & Hf).
  cbn in Hn.
  assert (Hlast : calls l' = calls l1 /\ workers l' = workers l1 /\
                  syncStatus l' = syncStatus l1 /\
                  outgoingChannel l' = outgoingChannel l1 /\
                  filterToSendOrdererResultsToConsumer l' =
                    filterToSendOrdererResultsToConsumer l1 /\
                  dispatchFrame l1 l' /\ n = n0).
  { destruct (n0 =? 0)%Z, b; cbn in Hrun; inversion Hrun; subst; cbn;
      repeat split; reflexivity. }
  destruct Hlast as (Hc' & Hw' & Hs' & Hch' & Hfl' & Hf' & ->).
  exists t, k. split; [congruence|]. split; [exact Ht|].
  split; [rewrite Hw', Hs'; exact Hdr|].
  split; [rewrite Hn; destruct k; reflexivity|].
  split; [congruence|]. split; [congruence|].
  eapply dispatchFrame_trans; eassumption.
Qed.

Section Termination.

(** The dispatch loop ends when the sync status runs out of ranges: a
    property [Inv] that its methods keep, and a measure that goes down with
    every range handed out and started. *)
Variable Inv : S -> Prop.

Variable measure : S -> nat.

Hypothesis Inv_getNextRange :
  forall s br s', Inv s -> getNextRange s = (br, s') -> Inv s'.

Hypothesis Inv_onStartedNewWorker :
  forall s br, Inv s -> Inv (onStartedNewWorker s br).

Hypothesis measure_decreases :
  forall s br s', Inv s -> getNextRange s = (Some br, s') ->
    measure (onStartedNewWorker s' br) < measure s.

Lemma launchWork_loop_total (fuel : nat) :
  forall (n : Z) (l : producer),
    Inv (syncStatus l) -> measure (syncStatus l) < fuel ->
    exists r l', launchWork_loop fuel n l = Ok r l'.
Proof.
  induction fuel as [|fuel IH]; intros n l HI Hm; [lia|].
  cbn [launchWork_loop]. unfold bind, get, modify, record, ret.
  destruct (getNextRange (syncStatus l)) as [[br|] s] eqn:Hnext; cbn.
  - destruct (asyncRequestRollupInfoByBlockRange (workers l) br) as [[e|] w] eqn:Hreq;
      cbn.
    + eexists _, _. reflexivity.
    + apply IH; cbn.
      * apply Inv_onStartedNewWorker. eapply Inv_getNextRange; eassumption.
      * pose proof (measure_decreases HI Hnext). lia.
  - eexists _, _. reflexivity.
Qed.

(** C7. The dispatch step asks the sync status, in the state it is in, for
    the next range and hands the range it gets to the pool, again and again.
    It calls [onStartedNewWorker] once for each range the pool accepts, right
    after the pool accepts it and before it asks for the next range, and it
    stops with the first round in which the sync status has no next range or
    the pool returns an error for the range, which is then not recorded as
    started.  The ranges are the ones [getNextRange] returns, the verdicts
    the ones of the pool, and the sync status and the pool are left as these
    calls leave them; it returns the number of ranges launched, and the
    channel, the filter, the timestamp, the TTL, the statistics and the clock
    are not touched.  With a sync status that runs out of ranges the loop
    does stop. *)
Theorem launchWork_dispatches_until_none_or_rejected (l : producer) :
  Inv (syncStatus l) ->
  (exists n l', launchWork (Datatypes.S (measure (syncStatus l))) l = Ok n l') /\
  (forall fuel n l', launchWork fuel l = Ok n l' ->
     exists t k,
       calls l' = calls l ++ t /\ dispatchTrace t k /\ n = wrapInt64 (Z.of_nat k) /\
       Traces.dispatchRun (workers l) (syncStatus l) t k (workers l') (syncStatus l') /\
       outgoingChannel l' = outgoingChannel l /\
       filterToSendOrdererResultsToConsumer l' = filterToSendOrdererResultsToConsumer l /\
       dispatchFrame l l').
Proof.
  intros HI. split.
  - destruct (@launchWork_loop_total (Datatypes.S (measure (syncStatus l))) 0%Z l HI)
      as ([n0 b] & l1 & Hloop); [lia|].
    unfold launchWork, bind. rewrite Hloop.
    destruct (n0 =? 0)%Z, b; cbn; eexists _, _; reflexivity.
  - intros fuel n l' Hrun.
    destruct (launchWork_run _ _ Hrun) as (t & k & Hc & Ht & Hdr & Hn & Hch & Hfl & Hf).
    exists t, k. auto 10.
Qed.

End Termination.

(** *** [verify] *)

Lemma verify_spec (allowModify : bool) (l : producer) :
  exists e l',
    verify allowModify l = Ok e l' /\
    extendsBy (@quietBlock RollupInfo S F _) l l' /\
    ttlOfLastBlockOnL1 l' = ttlOfLastBlockOnL1 l /\
    timeLastBLockOnL1 l' = timeLastBLockOnL1 l /\
    clockReads l' = clockReads l /\
    (forall c, In (callSelect c) (calls l') -> In (callSelect c) (calls l)).
Proof.
  unfold verify, bind, get, modify, record, ret.
  destruct (workers_verify (workers l) allowModify) as [[e|] w] eqn:Hw; cbn.
  - eexists _, _. split; [reflexivity|]. cbn.
    split; [|repeat split; try reflexivity].
    + eapply extendsBy_block; [reflexivity|]. apply quiet_workersVerify.
    + intros c Hin. apply in_app_or in Hin. destruct Hin as [Hin|[Hin|[]]];
        [exact Hin | discriminate].
  - destruct (syncStatus_verify (syncStatus l) allowModify) as [e s] eqn:Hs; cbn.
    assert (Hgoal : forall l', 
      l' = mkProducer w s (outgoingChannel l) (timeLastBLockOnL1 l)
             (ttlOfLastBlockOnL1 l) (filterToSendOrdererResultsToConsumer l)
             (statistics l) (clockReads l)
             ((calls l ++ [callWorkersVerify allowModify None])
                ++ [callSyncStatusVerify allowModify e]) (logs l) ->
      extendsBy (@quietBlock RollupInfo S F _) l l' /\
      ttlOfLastBlockOnL1 l' = ttlOfLastBlockOnL1 l /\
      timeLastBLockOnL1 l' = timeLastBLockOnL1 l /\
      clockReads l' = clockReads l /\
      (forall c, In (callSelect c) (calls l') -> In (callSelect c) (calls l))).
    { intros l' ->. cbn. split; [|repeat split; try reflexivity].
      - exists ([callWorkersVerify allowModify None] ++ [callSyncStatusVerify allowModify e]).
        split; [cbn; rewrite <- app_assoc; reflexivity|].
        econstructor; [apply quiet_workersVerify|].
        apply segments_one. unfold viewOf. cbn. apply quiet_syncStatusVerify. exact Hs.
      - intros c Hin. apply in_app_or in Hin. destruct Hin as [Hin|[Hin|[]]];
          [|discriminate].
        apply in_app_or in Hin. destruct Hin as [Hin|[Hin|[]]];
          [exact Hin | discriminate]. }
    destruct e as [e|]; eexists _, _; (split; [reflexivity|]); apply Hgoal; reflexivity.
Qed.

(** *** [onNewLastBlock] *)

Lemma onNewLastBlock_unfold (fuel : nat) (lastBlock : N) (launch : bool) (l : producer) :
  onNewLastBlock clock fuel lastBlock launch l =
  let resp := fst (onNewLastBlockOnL1 (syncStatus l) (clock (clockReads l)) lastBlock) in
  if launch
  then match launchWork fuel (afterNewLastBlock clock lastBlock l) with
       | Ok _ l' => Ok resp l'
       | Fatal e l' => Fatal e l'
       | OutOfFuel => OutOfFuel
       end
  else Ok resp (afterNewLastBlock clock lastBlock l).
Proof.
  destruct l as [w s0 ch tl ttl f st n cs ls].
  unfold onNewLastBlock, afterNewLastBlock. unfold_monad.
  destruct (onNewLastBlockOnL1 s0 (clock n) lastBlock) as [resp s] eqn:Hhead.
  unfold_monad.
  destruct (extendedRange resp) as [ext|]; unfold_monad; destruct launch; unfold_monad;
    rewrite ?app_nil_r;
    try reflexivity;
    match goal with
    | |- context [launchWork fuel ?x] => destruct (launchWork fuel x); reflexivity
    end.
Qed.

Lemma afterNewLastBlock_tail (lastBlock : N) (l : producer) :
  extendsBy (@tailBlock RollupInfo S F _) l (afterNewLastBlock clock lastBlock l) /\
  ttlOfLastBlockOnL1 (afterNewLastBlock clock lastBlock l) = ttlOfLastBlockOnL1 l /\
  headRequests (calls (afterNewLastBlock clock lastBlock l)) = headRequests (calls l).
Proof.
  unfold afterNewLastBlock.
  destruct (onNewLastBlockOnL1 (syncStatus l) (clock (clockReads l)) lastBlock)
    as [resp s] eqn:Hhead.
  cbn. split; [|split; [reflexivity|]].
  - eapply extendsBy_block; [reflexivity|]. unfold viewOf. cbn.
    eapply tail_onNewLastBlock. exact Hhead.
  - unfold headRequests. rewrite flat_map_app. cbn. apply app_nil_r.
Qed.

Lemma onNewLastBlock_spec (fuel : nat) (lastBlock : N) (launch : bool)
  (l : producer) (resp : onNewLastBlockResponse) (l' : producer) :
  onNewLastBlock clock fuel lastBlock launch l = Ok resp l' ->
  extendsBy (@tailBlock RollupInfo S F _) l l' /\
  ttlOfLastBlockOnL1 l' = ttlOfLastBlockOnL1 l /\
  headRequests (calls l') = headRequests (calls l).
Proof.
  rewrite onNewLastBlock_unfold. cbv zeta.
  destruct (afterNewLastBlock_tail lastBlock l) as (Hext & Httl & Hreq).
  destruct launch.
  - destruct (launchWork fuel (afterNewLastBlock clock lastBlock l)) as [n l1| |] eqn:Hlw;
      try discriminate.
    intros Heq. inversion Heq; subst resp l1; clear Heq.
    destruct (launchWork_calls _ _ Hlw) as (t & k & Hc & Ht & Hseg & _ & Hf).
    split; [|split].
    + eapply extendsBy_trans; [exact Hext|]. exists t. auto.
    + destruct Hf as (_ & _ & Hf & _). congruence.
    + rewrite Hc. unfold headRequests in *. rewrite flat_map_app, Hreq.
      fold (headRequests t). rewrite (dispatchTrace_no_headRequests Ht).
      apply app_nil_r.
  - intros Heq. inversion Heq; subst. auto.
Qed.

Lemma onNewLastBlock_not_Fatal (fuel : nat) (lastBlock : N) (launch : bool)
  (l : producer) (e : error) (l' : producer) :
  onNewLastBlock clock fuel lastBlock launch l <> Fatal e l'.
Proof.
  rewrite onNewLastBlock_unfold. cbv zeta. destruct launch; [|discriminate].
  destruct (launchWork fuel (afterNewLastBlock clock lastBlock l)) as [n l1|e1 l1|] eqn:Hlw;
    try discriminate.
  exfalso. eapply launchWork_not_Fatal; eassumption.
Qed.

(** *** [renewLastBlockOnL1IfNeeded] *)

Lemma renewLastBlockOnL1IfNeeded_unfold (fuel : nat) (forced : bool) (l : producer) :
  renewLastBlockOnL1IfNeeded clock fuel forced l =
  if lastBlockIsStale clock l || forced then
    match err (fst (headRequest l)) with
    | Some e =>
        Ok tt (set_logs (logs (afterHeadRequest l) ++ [(logError, "%v"%string)])
                 (afterHeadRequest l))
    | None =>
        match onNewLastBlock clock fuel (block (result (fst (headRequest l)))) true
                (afterHeadRequest l) with
        | Ok _ l' => Ok tt l'
        | Fatal e l' => Fatal e l'
        | OutOfFuel => OutOfFuel
        end
    end
  else Ok tt (set_clockReads (Datatypes.S (clockReads l)) l).
Proof.
  destruct l as [w s0 ch tl ttl f st n cs ls].
  unfold renewLastBlockOnL1IfNeeded, lastBlockIsStale, afterHeadRequest, headRequest.
  unfold_monad.
  destruct ((time_Sub (clock n) tl >? ttl)%Z || forced); [|reflexivity].
  destruct (requestLastBlockWithRetries w timeRequestInitialValueOfLastBlock
              maxRetriesForRequestnitialValueOfLastBlock) as [q w'] eqn:Hq.
  unfold_monad.
  destruct (err q) as [e|]; rewrite <- ?app_assoc; cbn [app]; reflexivity.
Qed.

Lemma afterHeadRequest_tail (l : producer) :
  extendsBy (@tailBlock RollupInfo S F _) l (afterHeadRequest l) /\
  ttlOfLastBlockOnL1 (afterHeadRequest l) = ttlOfLastBlockOnL1 l /\
  headRequests (calls (afterHeadRequest l)) = headRequests (calls l) ++ [fst (headRequest l)].
Proof.
  unfold afterHeadRequest. cbn. split; [|split; [reflexivity|]].
  - eapply extendsBy_block; [reflexivity|]. apply tail_requestLastBlock.
  - unfold headRequests. rewrite flat_map_app. reflexivity.
Qed.

Lemma renewLastBlockOnL1IfNeeded_spec (fuel : nat) (forced : bool)
  (l l' : producer) :
  renewLastBlockOnL1IfNeeded clock fuel forced l = Ok tt l' ->
  extendsBy (@tailBlock RollupInfo S F _) l l' /\
  ttlOfLastBlockOnL1 l' = ttlOfLastBlockOnL1 l /\
  headRequests (calls l') =
    headRequests (calls l) ++
    (if lastBlockIsStale clock l || forced then [fst (headRequest l)] else []).
Proof.
  rewrite renewLastBlockOnL1IfNeeded_unfold.
  destruct (lastBlockIsStale clock l || forced).
  - destruct (afterHeadRequest_tail l) as (Hext & Httl & Hreq).
    destruct (err (fst (headRequest l))) as [e|].
    + intros Heq. inversion Heq; subst l'; clear Heq. cbn.
      split; [|split; [exact Httl | exact Hreq]].
      eapply extendsBy_trans; [exact Hext|]. apply extendsBy_same; reflexivity.
    + destruct (onNewLastBlock clock fuel (block (result (fst (headRequest l)))) true
                  (afterHeadRequest l)) as [resp l1| |] eqn:Hnew; try discriminate.
      intros Heq. inversion Heq; subst l1; clear Heq.
      destruct (onNewLastBlock_spec _ _ _ _ Hnew) as (Hext' & Httl' & Hreq').
      split; [eapply extendsBy_trans; eassumption|].
      split; congruence.
  - intros Heq. inversion Heq; subst l'; clear Heq. cbn.
    rewrite app_nil_r. split; [|auto].
    apply extendsBy_same; reflexivity.
Qed.

Lemma renewLastBlockOnL1IfNeeded_not_Fatal (fuel : nat) (forced : bool)
  (l : producer) (e : error) (l' : producer) :
  renewLastBlockOnL1IfNeeded clock fuel forced l <> Fatal e l'.
Proof.
  rewrite renewLastBlockOnL1IfNeeded_unfold.
  destruct (lastBlockIsStale clock l || forced); [|discriminate].
  destruct (err (fst (headRequest l))) as [e1|]; [discriminate|].
  destruct (onNewLastBlock clock fuel (block (result (fst (headRequest l)))) true
              (afterHeadRequest l)) as [resp l1|e1 l1|] eqn:Hnew; try discriminate.
  exfalso. eapply onNewLastBlock_not_Fatal; eassumption.
Qed.

(** *** [getNextTimeout] *)

Lemma getNextTimeout_unfold (l : producer) :
  getNextTimeout clock l =
  match getStatus (syncStatus l) with
  | syncStatusSynchronized =>
      Ok (max (Duration_add (time_Sub (clock (clockReads l)) (timeLastBLockOnL1 l))
                 (ttlOfLastBlockOnL1 l)) Second)
         (set_clockReads (Datatypes.S (clockReads l)) l)
  | _ => Ok timeOutMainLoop l
  end.
Proof.
  unfold getNextTimeout. unfold bind, get, ret, time_Since, time_Now.
  destruct (getStatus (syncStatus l)); reflexivity.
Qed.

(** *** [step] *)

Lemma step_done (fuel : nat) (waitDuration : Duration) (l : producer) :
  step clock fuel caseDone waitDuration l =
  Ok (false, waitDuration) (set_calls (calls l ++ [callSelect caseDone]) l).
Proof. reflexivity. Qed.

Lemma step_select_spec (c : selectCase RollupInfo) (l : producer) :
  exists l0 b,
    step_select c l = Ok tt l0 /\
    calls l0 = calls l ++ callSelect c :: b /\
    segments (@runBlock RollupInfo S F _ _) (callSelect c :: b) (viewOf l) (viewOf l0) /\
    sends b = forwardedFor c l /\
    headRequests b = [] /\
    responseFrame l l0.
Proof.
  destruct c as [| |r].
  1,2: eexists _, []; split; [reflexivity|];
       unfold viewOf, responseFrame; unfold_setters;
       split; [reflexivity|];
       split; [apply segments_one, block_quiet, quiet_select|];
       cbn; auto 10.
  unfold step_select, bind, record, modify.
  match goal with
  | |- context [onResponseRollupInfo r ?x] =>
      destruct (onResponseRollupInfo_block r x) as (l0 & b & Hrun & Hc & Hb & Hs & Hh & Hf)
  end.
  rewrite Hrun. exists l0, b. split; [reflexivity|].
  cbn in Hc. rewrite Hc, <- app_assoc. split; [reflexivity|].
  split.
  - change (callSelect (caseResponse r) :: b) with ([callSelect (caseResponse r)] ++ b).
    econstructor; [apply block_quiet, quiet_select|].
    apply segments_one. exact Hb.
  - split; [exact Hs|]. split; [exact Hh|]. exact Hf.
Qed.

Lemma step_renew_spec (fuel : nat) (l0 l1 : producer) :
  step_renew clock fuel l0 = Ok tt l1 ->
  extendsBy (@tailBlock RollupInfo S F _) l0 l1 /\
  ttlOfLastBlockOnL1 l1 = ttlOfLastBlockOnL1 l0 /\
  headRequests (calls l1) =
    headRequests (calls l0) ++
    (if isSynchronized l0 && lastBlockIsStale clock l0 then [fst (headRequest l0)] else []).
Proof.
  unfold step_renew, isSynchronized, bind, get, log, modify, ret.
  destruct (syncStatusEnum_eqb (getStatus (syncStatus l0)) syncStatusSynchronized).
  - intros Hrun.
    apply renewLastBlockOnL1IfNeeded_spec in Hrun.
    rewrite orb_false_r in Hrun. exact Hrun.
  - intros Heq. inversion Heq; subst l1. cbn. rewrite app_nil_r.
    split; [apply extendsBy_refl | auto].
Qed.

Lemma step_renew_not_Fatal (fuel : nat) (l0 : producer) (e : error) (l1 : producer) :
  step_renew clock fuel l0 <> Fatal e l1.
Proof.
  unfold step_renew, bind, get, log, modify, ret.
  destruct (syncStatusEnum_eqb (getStatus (syncStatus l0)) syncStatusSynchronized);
    [|discriminate].
  apply renewLastBlockOnL1IfNeeded_not_Fatal.
Qed.

Lemma step_finish_spec (l : producer) :
  exists d l',
    step_finish clock l = Ok (true, d) l' /\
    calls l' = calls l /\ viewOf l' = viewOf l /\
    workers l' = workers l /\
    ttlOfLastBlockOnL1 l' = ttlOfLastBlockOnL1 l /\
    timeLastBLockOnL1 l' = timeLastBLockOnL1 l.
Proof.
  destruct l as [w s ch tl ttl f st n cs ls].
  unfold step_finish. unfold_monad.
  destruct (time_Sub (clock n) (lastShowUpTime st) >? timeForShowUpStatisticsLog)%Z;
    unfold_monad; rewrite getNextTimeout_unfold; unfold_setters;
    destruct (getStatus s); unfold_setters;
    eexists _, _; (split; [reflexivity|]); cbn; auto 10.
Qed.

Lemma step_rest_spec (fuel : nat) (l1 : producer) (b : bool) (d : Duration) (l' : producer) :
  step_rest clock fuel l1 = Ok (b, d) l' ->
  b = true /\
  ttlOfLastBlockOnL1 l' = ttlOfLastBlockOnL1 l1 /\
  exists t k,
    calls l' = calls l1 ++ t /\ dispatchTrace t k /\
    segments (@tailBlock RollupInfo S F _) t (viewOf l1) (viewOf l').
Proof.
  unfold step_rest. intros Hrun. apply bind_Ok in Hrun.
  destruct Hrun as (n & l2 & Hlw & Hfin).
  destruct (step_finish_spec l2) as (d' & l3 & Hfin' & Hc & Hv & _ & Httl & _).
  rewrite Hfin' in Hfin. inversion Hfin; subst d' l3; clear Hfin.
  destruct (launchWork_calls _ _ Hlw) as (t & k & Hc' & Ht & Hseg & _ & Hf).
  split; [congruence|].
  split; [destruct Hf as (_ & _ & Hf & _); congruence|].
  exists t, k. rewrite Hc, Hv. auto.
Qed.

Lemma step_rest_not_Fatal (fuel : nat) (l1 : producer) (e : error) (l' : producer) :
  step_rest clock fuel l1 <> Fatal e l'.
Proof.
  unfold step_rest, bind. intros Hrun.
  destruct (launchWork fuel l1) as [n l2|e2 l2|] eqn:Hlw; try discriminate.
  - destruct (step_finish_spec l2) as (d' & l3 & Hfin' & _).
    rewrite Hfin' in Hrun. discriminate.
  - eapply launchWork_not_Fatal; eassumption.
Qed.

Lemma step_unfold (fuel : nat) (c : selectCase RollupInfo) (waitDuration : Duration)
  (l : producer) :
  c <> caseDone ->
  step clock fuel c waitDuration l =
  match step_select c l with
  | Ok _ l0 =>
      match step_renew clock fuel l0 with
      | Ok _ l1 => step_rest clock fuel l1
      | Fatal e l1 => Fatal e l1
      | OutOfFuel => OutOfFuel
      end
  | Fatal e l0 => Fatal e l0
  | OutOfFuel => OutOfFuel
  end.
Proof.
  intros Hc. destruct c as [| |r]; [congruence | reflexivity | reflexivity].
Qed.

Lemma step_spec (fuel : nat) (c : selectCase RollupInfo) (waitDuration : Duration)
  (l : producer) :
  c <> caseDone ->
  step clock fuel c waitDuration l <> OutOfFuel ->
  exists l0 l1 d l',
    step_select c l = Ok tt l0 /\
    step_renew clock fuel l0 = Ok tt l1 /\
    step_rest clock fuel l1 = Ok (true, d) l' /\
    step clock fuel c waitDuration l = Ok (true, d) l'.
Proof.
  intros Hc Hfuel. rewrite (step_unfold fuel waitDuration l Hc) in *.
  destruct (step_select_spec c l) as (l0 & b & Hsel & _).
  rewrite Hsel in *.
  destruct (step_renew clock fuel l0) as [[] l1|e l1|] eqn:Hrenew;
    [|exfalso; eapply step_renew_not_Fatal; eassumption|congruence].
  destruct (step_rest clock fuel l1) as [[b' d] l'|e l'|] eqn:Hrest;
    [|exfalso; eapply step_rest_not_Fatal; eassumption|congruence].
  destruct (step_rest_spec _ _ Hrest) as (-> & _).
  exists l0, l1, d, l'. auto.
Qed.

(** C4. In an iteration of the main loop, a head request is made exactly
    when, after the case of the [select] has been handled, the status is
    Synchronized and the last-block timestamp is older than the TTL: at most
    one request, and none otherwise.  When that request fails, the error is
    logged and nothing else happens to the producer: the sync status (and so
    the head it holds), the timestamp, the channel, the filter and the
    statistics are what they were; the iteration goes on to the dispatch and
    [step] returns true, so the loop continues. *)
Theorem step_refreshes_head_only_when_synchronized_and_stale
  (fuel : nat) (c : selectCase RollupInfo) (waitDuration : Duration) (l : producer) :
  c <> caseDone ->
  step clock fuel c waitDuration l <> OutOfFuel ->
  exists l0 l1 d l',
    step clock fuel c waitDuration l = Ok (true, d) l' /\
    step_select c l = Ok tt l0 /\
    step_renew clock fuel l0 = Ok tt l1 /\
    step_rest clock fuel l1 = Ok (true, d) l' /\
    let refresh := isSynchronized l0 && lastBlockIsStale clock l0 in
    headRequests (calls l0) = headRequests (calls l) /\
    headRequests (calls l1) =
      headRequests (calls l0) ++ (if refresh then [fst (headRequest l0)] else []) /\
    headRequests (calls l') = headRequests (calls l1) /\
    (refresh = true -> err (fst (headRequest l0)) <> None ->
     syncStatus l1 = syncStatus l0 /\
     timeLastBLockOnL1 l1 = timeLastBLockOnL1 l0 /\
     ttlOfLastBlockOnL1 l1 = ttlOfLastBlockOnL1 l0 /\
     outgoingChannel l1 = outgoingChannel l0 /\
     filterToSendOrdererResultsToConsumer l1 = filterToSendOrdererResultsToConsumer l0 /\
     statistics l1 = statistics l0 /\
     calls l1 = calls l0 ++ [callRequestLastBlock timeRequestInitialValueOfLastBlock
                               maxRetriesForRequestnitialValueOfLastBlock
                               (fst (headRequest l0))] /\
     logs l1 = logs l0 ++
       [(logDebug, "producer: status==syncStatusSynchronized -> getting last block on L1"%string);
        (logInfo, "producer: Need a new value for Last Block On L1, doing the request"%string);
        (logInfo, "producer: Need a new value for Last Block On L1, doing the request old_block:%v -> new block:%v"%string);
        (logError, "%v"%string)]).
Proof.
  intros Hc Hfuel.
  destruct (step_spec fuel waitDuration l Hc Hfuel) as (l0 & l1 & d & l' & Hsel & Hren & Hrest & Hstep).
  exists l0, l1, d, l'. repeat (split; [assumption|]).
  cbv zeta.
  destruct (step_select_spec c l) as (l0' & b & Hsel' & Hcalls & _ & _ & Hhead & _).
  rewrite Hsel in Hsel'. inversion Hsel'; subst l0'; clear Hsel'.
  destruct (step_renew_spec _ _ Hren) as (_ & _ & Hreq).
  destruct (step_rest_spec _ _ Hrest) as (_ & _ & t & k & Hct & Ht & _).
  split; [|split; [exact Hreq|split]].
  - rewrite Hcalls. unfold headRequests in *. rewrite flat_map_app. cbn.
    rewrite Hhead. apply app_nil_r.
  - rewrite Hct. unfold headRequests. rewrite flat_map_app.
    fold (headRequests t). rewrite (dispatchTrace_no_headRequests Ht). apply app_nil_r.
  - intros Hrefresh Herr. apply andb_prop in Hrefresh. destruct Hrefresh as (Hsync & Hstale).
    unfold isSynchronized in Hsync.
    unfold step_renew, bind, get, log, modify in Hren. rewrite Hsync in Hren.
    rewrite renewLastBlockOnL1IfNeeded_unfold in Hren.
    unfold lastBlockIsStale, headRequest, afterHeadRequest in *.
    simpl_fields. rewrite Hstale in Hren. cbn [orb] in Hren.
    destruct (err (fst (requestLastBlockWithRetries (workers l0)
                          timeRequestInitialValueOfLastBlock
                          maxRetriesForRequestnitialValueOfLastBlock))) as [e|];
      [|congruence].
    inversion Hren; subst l1; clear Hren. cbn.
    rewrite <- !app_assoc. cbn. auto 10.
Qed.

Lemma step_extends (fuel : nat) (c : selectCase RollupInfo) (waitDuration : Duration)
  (l : producer) (b : bool) (d : Duration) (l' : producer) :
  step clock fuel c waitDuration l = Ok (b, d) l' ->
  extendsBy (@runBlock RollupInfo S F _ _) l l' /\
  ttlOfLastBlockOnL1 l' = ttlOfLastBlockOnL1 l /\
  chanSent (outgoingChannel l') = chanSent (outgoingChannel l) ++ forwardedFor c l /\
  (b = true <-> c <> caseDone).
Proof.
  intros Hrun.
  assert (Hdone : c = caseDone \/ c <> caseDone)
    by (destruct c; [left; reflexivity | right; discriminate | right; discriminate]).
  destruct Hdone as [-> | Hc].
  - rewrite step_done in Hrun. inversion Hrun; subst b d l'; clear Hrun.
    cbn. rewrite app_nil_r. split; [|split; [reflexivity|split; [reflexivity|]]].
    + eapply extendsBy_block; [reflexivity|]. apply block_quiet, quiet_select.
    + split; [discriminate | intros H; congruence].
  - assert (Hfuel : step clock fuel c waitDuration l <> OutOfFuel) by congruence.
    destruct (step_spec fuel waitDuration l Hc Hfuel)
      as (l0 & l1 & d' & l'' & Hsel & Hren & Hrest & Hstep).
    rewrite Hstep in Hrun. inversion Hrun; subst b d' l''; clear Hrun.
    destruct (step_select_spec c l) as (l0' & bs & Hsel' & Hcs & Hsegs & Hsends & _ & Hfs).
    rewrite Hsel in Hsel'. inversion Hsel'; subst l0'; clear Hsel'.
    destruct (step_renew_spec _ _ Hren) as ((tr & Hcr & Hsegr) & Httlr & _).
    destruct (step_rest_spec _ _ Hrest) as (_ & Httlt & tt' & k & Hct & _ & Hsegt).
    assert (Hall : segments (@runBlock RollupInfo S F _ _)
                     ((callSelect c :: bs) ++ tr ++ tt') (viewOf l) (viewOf l')).
    { eapply segments_app; [exact Hsegs|].
      eapply segments_app; eapply segments_mono; try eassumption; apply tail_is_run. }
    split; [|split; [|split]].
    + exists ((callSelect c :: bs) ++ tr ++ tt'). split; [|exact Hall].
      rewrite Hct, Hcr, Hcs, <- !app_assoc. reflexivity.
    + destruct Hfs as (_ & _ & _ & Hfs & _). congruence.
    + pose proof (run_segments_sent Hall) as Hsent. cbn [viewOf snd] in Hsent.
      unfold viewOf in Hsent. cbn [snd] in Hsent. rewrite Hsent. f_equal.
      unfold sends in *. rewrite !flat_map_app. cbn [flat_map app].
      rewrite Hsends.
      assert (Hqr : segments (@quietBlock RollupInfo S F _) tr (viewOf l0) (viewOf l1))
        by (eapply segments_mono; [apply tail_is_quiet | exact Hsegr]).
      assert (Hqt : segments (@quietBlock RollupInfo S F _) tt' (viewOf l1) (viewOf l'))
        by (eapply segments_mono; [apply tail_is_quiet | exact Hsegt]).
      destruct (quiet_segments_frame Hqr) as (_ & _ & Hnr).
      destruct (quiet_segments_frame Hqt) as (_ & _ & Hnt).
      unfold sends in Hnr, Hnt. rewrite Hnr, Hnt, !app_nil_r. reflexivity.
    + split; [intros _; exact Hc | reflexivity].
Qed.

(** *** [start] *)

Lemma fullySynced_condition (previous new : syncStatusEnum) :
  negb (syncStatusEnum_eqb previous new) && syncStatusEnum_eqb new syncStatusSynchronized =
  negb (syncStatusEnum_eqb previous syncStatusSynchronized)
  && syncStatusEnum_eqb new syncStatusSynchronized.
Proof. destruct previous, new; reflexivity. Qed.

Lemma afterStatusCheck_spec (previous : syncStatusEnum) (l : producer) :
  extendsBy (@runBlock RollupInfo S F _ _) l (afterStatusCheck previous l) /\
  chanSent (outgoingChannel (afterStatusCheck previous l)) =
    chanSent (outgoingChannel l) ++ fullySyncedFor previous (getStatus (syncStatus l)) /\
  syncStatus (afterStatusCheck previous l) = syncStatus l /\
  filterToSendOrdererResultsToConsumer (afterStatusCheck previous l) =
    filterToSendOrdererResultsToConsumer l /\
  workers (afterStatusCheck previous l) = workers l /\
  ttlOfLastBlockOnL1 (afterStatusCheck previous l) = ttlOfLastBlockOnL1 l.
Proof.
  unfold afterStatusCheck, fullySyncedFor. cbv zeta.
  rewrite <- fullySynced_condition.
  destruct (negb (syncStatusEnum_eqb previous (getStatus (syncStatus l)))); cbn [andb].
  - destruct (syncStatusEnum_eqb (getStatus (syncStatus l)) syncStatusSynchronized); cbn.
    + split; [|auto 10].
      eapply extendsBy_block; [reflexivity|]. unfold viewOf. cbn. apply block_fullySynced.
    + rewrite app_nil_r. split; [apply extendsBy_same; reflexivity | auto 10].
  - rewrite app_nil_r. split; [apply extendsBy_refl | auto 10].
Qed.

Lemma start_loop_cons (fuel : nat) (c : selectCase RollupInfo)
  (cases : list (selectCase RollupInfo)) (waitDuration : Duration)
  (previous : syncStatusEnum) (l : producer) :
  start_loop clock fuel (c :: cases) waitDuration previous l =
  match step clock fuel c waitDuration l with
  | Ok (true, d) l1 =>
      start_loop clock fuel cases d (getStatus (syncStatus l1)) (afterStatusCheck previous l1)
  | Ok (false, _) l1 => Ok true l1
  | Fatal e l1 => Fatal e l1
  | OutOfFuel => OutOfFuel
  end.
Proof.
  cbn [start_loop]. unfold bind at 1.
  destruct (step clock fuel c waitDuration l) as [[[|] d] l1|e l1|]; try reflexivity.
  unfold afterStatusCheck. cbv zeta.
  unfold bind, get, log, modify, ret.
  destruct (negb (syncStatusEnum_eqb previous (getStatus (syncStatus l1)))); [|reflexivity].
  destruct (syncStatusEnum_eqb (getStatus (syncStatus l1)) syncStatusSynchronized);
    [|reflexivity].
  rewrite sendPackages_ok. reflexivity.
Qed.

Lemma start_loop_extends (fuel : nat) (cases : list (selectCase RollupInfo)) :
  forall (waitDuration : Duration) (previous : syncStatusEnum) (l : producer)
         (b : bool) (l' : producer),
    start_loop clock fuel cases waitDuration previous l = Ok b l' ->
    extendsBy (@runBlock RollupInfo S F _ _) l l' /\
    ttlOfLastBlockOnL1 l' = ttlOfLastBlockOnL1 l.
Proof.
  induction cases as [|c cases IH]; intros wd prev l b l' Hrun.
  - inversion Hrun; subst. split; [apply extendsBy_refl | reflexivity].
  - rewrite start_loop_cons in Hrun.
    destruct (step clock fuel c wd l) as [[[|] d] l1|e l1|] eqn:Hstep; try discriminate.
    + destruct (step_extends _ _ _ _ Hstep) as (Hext & Httl & _).
      destruct (afterStatusCheck_spec prev l1) as (Hext' & _ & _ & _ & _ & Httl').
      destruct (IH _ _ _ _ _ Hrun) as (Hext'' & Httl'').
      split; [|congruence].
      eapply extendsBy_trans; [exact Hext|].
      eapply extendsBy_trans; [exact Hext' | exact Hext''].
    + inversion Hrun; subst b l'; clear Hrun.
      destruct (step_extends _ _ _ _ Hstep) as (Hext & Httl & _). auto.
Qed.

(** C3. In an iteration of the main loop that starts in status [previous]
    and whose [step] leaves the status Synchronized, with [previous] not
    Synchronized, the producer sends exactly one FullySynced control message;
    otherwise it sends none.  On the outgoing channel the message comes right
    after the chunks forwarded in this iteration, which come after all that
    was sent before, and everything the later iterations send comes after
    it. *)
Theorem fullySynced_sent_once_after_transition
  (fuel : nat) (c : selectCase RollupInfo) (cases : list (selectCase RollupInfo))
  (waitDuration : Duration) (previous : syncStatusEnum) (l : producer)
  (b : bool) (l2 : producer) :
  c <> caseDone ->
  start_loop clock fuel (c :: cases) waitDuration previous l = Ok b l2 ->
  exists d l1 later,
    step clock fuel c waitDuration l = Ok (true, d) l1 /\
    let new := getStatus (syncStatus l1) in
    let lmid := afterStatusCheck previous l1 in
    chanSent (outgoingChannel l1) = chanSent (outgoingChannel l) ++ forwardedFor c l /\
    chanSent (outgoingChannel lmid) =
      chanSent (outgoingChannel l) ++ forwardedFor c l ++ fullySyncedFor previous new /\
    @fullySyncedFor RollupInfo previous new =
      (if negb (syncStatusEnum_eqb previous syncStatusSynchronized)
          && syncStatusEnum_eqb new syncStatusSynchronized
       then [newL1SyncMessageControl eventProducerIsFullySynced] else []) /\
    getStatus (syncStatus lmid) = new /\
    start_loop clock fuel cases d new lmid = Ok b l2 /\
    chanSent (outgoingChannel l2) = chanSent (outgoingChannel lmid) ++ later.
Proof.
  intros Hc Hrun. rewrite start_loop_cons in Hrun.
  destruct (step clock fuel c waitDuration l) as [[[|] d] l1|e l1|] eqn:Hstep;
    try discriminate.
  - destruct (step_extends _ _ _ _ Hstep) as (_ & _ & Hsent & _).
    destruct (afterStatusCheck_spec previous l1) as (_ & Hsent' & Hs & _).
    destruct (start_loop_extends _ _ _ _ _ Hrun) as ((t & _ & Hseg) & _).
    pose proof (run_segments_sent Hseg) as Hlater. unfold viewOf in Hlater.
    cbn [snd] in Hlater.
    exists d, l1, (sends t). cbv zeta.
    split; [reflexivity|]. split; [exact Hsent|].
    split; [rewrite Hsent', Hsent, <- app_assoc; reflexivity|].
    split; [reflexivity|]. split; [rewrite Hs; reflexivity|].
    split; [exact Hrun | exact Hlater].
  - destruct (step_extends _ _ _ _ Hstep) as (_ & _ & _ & Hb).
    exfalso. assert (false = true) by (apply Hb; exact Hc). discriminate.
Qed.

Lemma start_unfold (fuel : nat) (cases : list (selectCase RollupInfo)) (l : producer) :
  start clock fuel cases l =
  match start_loop clock fuel cases 0%Z (getStatus (syncStatus l)) l with
  | Ok true l1 =>
      Ok (startReturned None)
        (mkProducer (waitFinishAllWorkers (workers l1)) (syncStatus l1) (outgoingChannel l1)
           (timeLastBLockOnL1 l1) (ttlOfLastBlockOnL1 l1)
           (filterToSendOrdererResultsToConsumer l1) (statistics l1) (clockReads l1)
           (calls l1 ++ [callWaitFinishAllWorkers]) (logs l1))
  | Ok false l1 => Ok startWaiting l1
  | Fatal e l1 => Fatal e l1
  | OutOfFuel => OutOfFuel
  end.
Proof.
  unfold start, bind, get.
  destruct (start_loop clock fuel cases 0%Z (getStatus (syncStatus l)) l) as [[|] l1|e l1|];
    reflexivity.
Qed.

(** While no cancellation has fired the loop runs; when it fires the loop is
    left at once, whatever the loop variables hold. *)
Lemma start_loop_waiting_no_cancel (fuel : nat) (cases : list (selectCase RollupInfo)) :
  forall (waitDuration : Duration) (previous : syncStatusEnum) (l l' : producer),
    start_loop clock fuel cases waitDuration previous l = Ok false l' ->
    ~ In caseDone cases.
Proof.
  induction cases as [|c cases IH]; intros wd prev l l' Hrun; [intros []|].
  rewrite start_loop_cons in Hrun.
  destruct (step clock fuel c wd l) as [[[|] d] l1|e l1|] eqn:Hstep; try discriminate.
  destruct (step_extends _ _ _ _ Hstep) as (_ & _ & _ & Hb).
  intros [Hin | Hin].
  - apply Hb; [reflexivity | congruence].
  - eapply IH; eassumption.
Qed.

Lemma start_loop_cancelled (fuel : nat) (before after : list (selectCase RollupInfo)) :
  forall (waitDuration : Duration) (previous : syncStatusEnum) (l l1 : producer),
    start_loop clock fuel before waitDuration previous l = Ok false l1 ->
    start_loop clock fuel (before ++ caseDone :: after) waitDuration previous l =
    Ok true (set_calls (calls l1 ++ [callSelect caseDone]) l1).
Proof.
  induction before as [|c before IH]; intros wd prev l l1 Hrun.
  - inversion Hrun; subst l1. reflexivity.
  - rewrite start_loop_cons in Hrun. cbn [app]. rewrite start_loop_cons.
    destruct (step clock fuel c wd l) as [[[|] d] l2|e l2|] eqn:Hstep; try discriminate.
    apply IH. exact Hrun.
Qed.

Lemma start_loop_left (fuel : nat) (cases : list (selectCase RollupInfo)) :
  forall (waitDuration : Duration) (previous : syncStatusEnum) (l l' : producer),
    start_loop clock fuel cases waitDuration previous l = Ok true l' ->
    exists before after l1,
      cases = before ++ caseDone :: after /\
      start_loop clock fuel before waitDuration previous l = Ok false l1 /\
      l' = set_calls (calls l1 ++ [callSelect caseDone]) l1.
Proof.
  induction cases as [|c cases IH]; intros wd prev l l' Hrun; [discriminate Hrun|].
  rewrite start_loop_cons in Hrun.
  destruct (step clock fuel c wd l) as [[[|] d] l1|e l1|] eqn:Hstep; try discriminate.
  - destruct (IH _ _ _ _ Hrun) as (before & after & l2 & -> & Hbefore & ->).
    exists (c :: before), after, l2. split; [reflexivity|]. split; [|reflexivity].
    rewrite start_loop_cons, Hstep. exact Hbefore.
  - inversion Hrun; subst l'; clear Hrun.
    destruct (step_extends _ _ _ _ Hstep) as (_ & _ & _ & Hb).
    assert (Hc : c = caseDone).
    { destruct c; [reflexivity| |]; exfalso;
        assert (false = true) by (apply Hb; discriminate); discriminate. }
    subst c. rewrite step_done in Hstep. inversion Hstep; subst d l1; clear Hstep.
    exists [], cases, l. auto.
Qed.

Lemma start_extends (fuel : nat) (cases : list (selectCase RollupInfo)) (l : producer)
  (r : startResult) (l' : producer) :
  start clock fuel cases l = Ok r l' ->
  extendsBy (@runBlock RollupInfo S F _ _) l l'.
Proof.
  rewrite start_unfold.
  destruct (start_loop clock fuel cases 0%Z (getStatus (syncStatus l)) l)
    as [[|] l1|e1 l1|] eqn:Hloop; try discriminate;
    destruct (start_loop_extends _ _ _ _ _ Hloop) as (Hext & _);
    intros Heq; inversion Heq; subst; clear Heq; [|exact Hext].
  eapply extendsBy_trans; [exact Hext|].
  eapply extendsBy_block; [reflexivity|].
  apply block_quiet, quiet_waitFinishAllWorkers.
Qed.

(** *** [initialize] *)

(** C5. When [verify] and the initialization of the workers pass and the
    last block needs to be renewed, [initialize] makes the head request.  If
    the request fails, [initialize] returns that error: the sync status is
    told no head, the timestamp is not set, and no case of the [select] has
    been handled; a caller that follows the lifecycle of the design document
    stops there and never enters the main loop.  If the request succeeds, the
    new last block is given to the sync status through [onNewLastBlock]
    (without launching work), the timestamp is set, and then [initialize]
    returns nil. *)
Theorem initialize_fails_or_applies_new_last_block
  (l l1 : producer) (w2 : W) :
  verify true l = Ok None l1 ->
  workers_initialize (workers l1) = (None, w2) ->
  needToRenewLastBlockOnL1 (syncStatus l1) (clock (clockReads l1)) = true ->
  let q := requestLastBlockWithRetries w2 timeRequestInitialValueOfLastBlock
             maxRetriesForRequestnitialValueOfLastBlock in
  let request := callRequestLastBlock timeRequestInitialValueOfLastBlock
                   maxRetriesForRequestnitialValueOfLastBlock (fst q) in
  exists l',
    match err (fst q) with
    | Some e =>
        initialize clock l = Ok (Some e) l' /\
        (forall fuel cases, lifecycle clock fuel cases l = Ok (initializationFailed e) l') /\
        calls l' = calls l1 ++ [callWorkersInitialize None; request] /\
        syncStatus l' = syncStatus l1 /\
        timeLastBLockOnL1 l' = timeLastBLockOnL1 l1 /\
        outgoingChannel l' = outgoingChannel l1
    | None =>
        let now := clock (Datatypes.S (clockReads l1)) in
        let lastBlock := block (result (fst q)) in
        initialize clock l = Ok None l' /\
        calls l' = calls l1 ++ [callWorkersInitialize None; request;
                                callOnNewLastBlockOnL1 now lastBlock] /\
        syncStatus l' = snd (onNewLastBlockOnL1 (syncStatus l1) now lastBlock) /\
        timeLastBLockOnL1 l' = clock (Datatypes.S (Datatypes.S (clockReads l1))) /\
        outgoingChannel l' = outgoingChannel l1
    end.
Proof.
  intros Hverify Hinit Hneed q request.
  assert (Hgoal : exists l',
    initialize clock l =
      match err (fst q) with
      | Some e => Ok (Some e) l'
      | None => Ok None l'
      end /\
    match err (fst q) with
    | Some e =>
        calls l' = calls l1 ++ [callWorkersInitialize None; request] /\
        syncStatus l' = syncStatus l1 /\
        timeLastBLockOnL1 l' = timeLastBLockOnL1 l1 /\
        outgoingChannel l' = outgoingChannel l1
    | None =>
        let now := clock (Datatypes.S (clockReads l1)) in
        let lastBlock := block (result (fst q)) in
        calls l' = calls l1 ++ [callWorkersInitialize None; request;
                                callOnNewLastBlockOnL1 now lastBlock] /\
        syncStatus l' = snd (onNewLastBlockOnL1 (syncStatus l1) now lastBlock) /\
        timeLastBLockOnL1 l' = clock (Datatypes.S (Datatypes.S (clockReads l1))) /\
        outgoingChannel l' = outgoingChannel l1
    end).
  { unfold initialize. unfold bind at 1. rewrite Hverify.
    destruct l1 as [w s ch tl ttl f st n cs ls]. cbn in Hinit, Hneed.
    unfold_monad. rewrite Hinit. unfold_monad. rewrite Hneed. unfold_monad.
    subst request q.
    destruct (requestLastBlockWithRetries w2 timeRequestInitialValueOfLastBlock
                maxRetriesForRequestnitialValueOfLastBlock) as [q w3] eqn:Hq.
    unfold_monad. destruct (err q) as [e|] eqn:Herr.
    - eexists. split; [reflexivity|]. cbn. rewrite <- !app_assoc. auto.
    - rewrite onNewLastBlock_unfold. unfold afterNewLastBlock. unfold_setters.
      destruct (onNewLastBlockOnL1 s (clock (Datatypes.S n)) (block (result q)))
        as [resp s'] eqn:Hhead.
      unfold_setters. eexists. split; [reflexivity|]. cbn.
      rewrite <- !app_assoc. auto. }
  destruct Hgoal as (l' & Hrun & Hfacts). exists l'.
  destruct (err (fst q)) as [e|].
  - split; [exact Hrun|]. split; [|exact Hfacts].
    intros fuel cases. unfold lifecycle, bind. rewrite Hrun. reflexivity.
  - cbv zeta in *. split; [exact Hrun | exact Hfacts].
Qed.

Lemma initialize_extends (l : producer) (e : option error) (l' : producer) :
  initialize clock l = Ok e l' ->
  extendsBy (@runBlock RollupInfo S F _ _) l l'.
Proof.
  unfold initialize. intros Hrun.
  apply bind_Ok in Hrun. destruct Hrun as (verr & l1 & Hverify & Hrun).
  destruct (verify_spec true l) as (verr' & l1' & Hv & Hext1 & _).
  rewrite Hverify in Hv. inversion Hv; subst verr' l1'; clear Hv.
  eapply extendsBy_trans; [eapply extendsBy_mono; [apply quiet_is_run | exact Hext1]|].
  clear Hext1 Hverify.
  destruct verr as [ve|]; [discriminate Hrun|].
  destruct l1 as [w s ch tl ttl f st n cs ls].
  unfold_monad.
  destruct (workers_initialize w) as [[ie|] w2]; unfold_monad; [discriminate Hrun|].
  eapply extendsBy_trans.
  { eapply (@extendsBy_block _ [callWorkersInitialize None]
              _ (mkProducer w2 s ch tl ttl f st (Datatypes.S n)
                   (cs ++ [callWorkersInitialize None]) ls)); [reflexivity|].
    apply block_quiet, quiet_workersInitialize. }
  destruct (needToRenewLastBlockOnL1 s (clock n)); unfold_monad.
  - destruct (requestLastBlockWithRetries w2 timeRequestInitialValueOfLastBlock
                maxRetriesForRequestnitialValueOfLastBlock) as [q w3].
    unfold_monad.
    eapply extendsBy_trans.
    { eapply (@extendsBy_block _ [callRequestLastBlock timeRequestInitialValueOfLastBlock
                                    maxRetriesForRequestnitialValueOfLastBlock q]
                _ (mkProducer w3 s ch tl ttl f st (Datatypes.S n)
                     ((cs ++ [callWorkersInitialize None]) ++
                      [callRequestLastBlock timeRequestInitialValueOfLastBlock
                         maxRetriesForRequestnitialValueOfLastBlock q]) ls));
        [reflexivity|].
      apply tail_is_run, tail_requestLastBlock. }
    destruct (err q) as [qe|].
    + inversion Hrun; subst. apply extendsBy_same; reflexivity.
    + match type of Hrun with
      | match onNewLastBlock clock 0 ?b false ?x with _ => _ end = _ =>
          destruct (onNewLastBlock clock 0 b false x) as [resp l2| |] eqn:Hnew;
            try discriminate;
            destruct (onNewLastBlock_spec _ _ _ _ Hnew) as (Hext & _)
      end.
      inversion Hrun; subst l2.
      eapply extendsBy_trans; [apply extendsBy_same; reflexivity|].
      eapply extendsBy_mono; [apply tail_is_run | exact Hext].
  - inversion Hrun; subst. apply extendsBy_same; reflexivity.
Qed.

(** *** [newL1DataRetriever] *)

Lemma newL1DataRetriever_Ok (ethermans : list Etherman)
  (startingBlockNumber SyncChunkSize : N) (outgoingCap : nat)
  (renewLastBlockOnL1 : bool) (l : producer) :
  newL1DataRetriever ethermans startingBlockNumber SyncChunkSize outgoingCap
    renewLastBlockOnL1 = Ok tt l ->
  syncStatus_verify
    (newSyncStatus startingBlockNumber SyncChunkSize ttlOfLastBlockDefault) false =
    (None, syncStatus l) /\
  filterToSendOrdererResultsToConsumer l =
    newFilterToSendOrdererResultsToConsumer startingBlockNumber /\
  chanSent (outgoingChannel l) = [] /\
  calls l = [callWorkersVerify false None; callSyncStatusVerify false None].
Proof.
  unfold newL1DataRetriever. cbv zeta.
  replace (if negb renewLastBlockOnL1 then ttlOfLastBlockDefault else ttlOfLastBlockDefault)
    with ttlOfLastBlockDefault by (destruct renewLastBlockOnL1; reflexivity).
  intros Hrun. apply bind_Ok in Hrun. destruct Hrun as (verr & l1 & Hverify & Hrun).
  destruct verr as [e|]; [discriminate Hrun|].
  inversion Hrun; subst l1; clear Hrun.
  unfold verify in Hverify. unfold_monad.
  destruct (workers_verify (newWorkers ethermans) false) as [[we|] w]; unfold_monad;
    [discriminate Hverify|].
  destruct (syncStatus_verify
              (newSyncStatus startingBlockNumber SyncChunkSize ttlOfLastBlockDefault) false)
    as [[se|] s] eqn:Hs; unfold_monad; [discriminate Hverify|].
  inversion Hverify; subst l; clear Hverify. cbn. auto.
Qed.

(** C9. The producer that [newL1DataRetriever] builds does not depend on the
    flag [renewLastBlockOnL1]: with the flag set or not the call ends the same
    way, with the same producer, whose TTL of the last block is the default
    of 5 seconds, the TTL its sync status was made with as well. *)
Theorem newL1DataRetriever_ignores_renewLastBlockOnL1
  (ethermans : list Etherman) (startingBlockNumber SyncChunkSize : N)
  (outgoingCap : nat) (renewLastBlockOnL1 : bool) :
  newL1DataRetriever ethermans startingBlockNumber SyncChunkSize outgoingCap
    renewLastBlockOnL1 =
  newL1DataRetriever ethermans startingBlockNumber SyncChunkSize outgoingCap
    (negb renewLastBlockOnL1) /\
  (exists warn,
     newL1DataRetriever ethermans startingBlockNumber SyncChunkSize outgoingCap
       renewLastBlockOnL1 =
     bind (verify false)
       (fun verr => match verr with
                    | Some e => log_Fatal e
                    | None => ret tt
                    end)
       (mkProducer (newWorkers ethermans)
          (newSyncStatus startingBlockNumber SyncChunkSize 5000000000%Z)
          (mkChannel outgoingCap []) zeroTime 5000000000%Z
          (newFilterToSendOrdererResultsToConsumer startingBlockNumber)
          (newRollupInfoProducerStatistics startingBlockNumber) O [] warn)) /\
  match newL1DataRetriever ethermans startingBlockNumber SyncChunkSize outgoingCap
          renewLastBlockOnL1 with
  | Ok _ l => ttlOfLastBlockOnL1 l = (5 * Second)%Z
  | Fatal _ l => ttlOfLastBlockOnL1 l = (5 * Second)%Z
  | OutOfFuel => False
  end.
Proof.
  split; [destruct renewLastBlockOnL1; reflexivity|].
  split; [destruct renewLastBlockOnL1; eexists; reflexivity|].
  unfold newL1DataRetriever. cbv zeta.
  replace (if negb renewLastBlockOnL1 then ttlOfLastBlockDefault else ttlOfLastBlockDefault)
    with ttlOfLastBlockDefault by (destruct renewLastBlockOnL1; reflexivity).
  unfold bind.
  match goal with
  | |- context [verify false ?x] =>
      destruct (verify_spec false x) as (e & l' & Hv & _ & Httl & _); rewrite Hv
  end.
  cbn in Httl. destruct e as [e|]; cbn; exact Httl.
Qed.

(** *** Enough fuel

    The fuel only bounds the dispatch loop: more fuel changes no result, and
    with a sync status that runs out of ranges [step] and [start] come to an
    end for some fuel, whatever cases fire. *)

Lemma launchWork_loop_more_fuel (fuel : nat) :
  forall (fuel' : nat) (n : Z) (l : producer) (r : Z * bool) (l' : producer),
    launchWork_loop fuel n l = Ok r l' -> fuel <= fuel' ->
    launchWork_loop fuel' n l = Ok r l'.
Proof.
  induction fuel as [|fuel IH]; intros fuel' n l r l' Hrun Hle; [discriminate Hrun|].
  destruct fuel' as [|fuel']; [lia|].
  cbn [launchWork_loop] in *. unfold bind, get, modify, record, ret in *.
  destruct (getNextRange (syncStatus l)) as [[br|] s]; cbn in *; [|exact Hrun].
  destruct (asyncRequestRollupInfoByBlockRange (workers l) br) as [[e|] w]; cbn in *;
    [exact Hrun|].
  apply IH; [exact Hrun | lia].
Qed.

Lemma launchWork_more_fuel (fuel fuel' : nat) (l : producer) (n : Z) (l' : producer) :
  launchWork fuel l = Ok n l' -> fuel <= fuel' -> launchWork fuel' l = Ok n l'.
Proof.
  unfold launchWork, bind. intros Hrun Hle.
  destruct (launchWork_loop fuel 0 l) as [r l1| |] eqn:Hloop; try discriminate.
  assert (H' : launchWork_loop fuel' 0 l = Ok r l1)
    by (eapply launchWork_loop_more_fuel; eassumption).
  rewrite H'. exact Hrun.
Qed.

Lemma onNewLastBlock_more_fuel (fuel fuel' : nat) (lastBlock : N) (launch : bool)
  (l : producer) (resp : onNewLastBlockResponse) (l' : producer) :
  onNewLastBlock clock fuel lastBlock launch l = Ok resp l' -> fuel <= fuel' ->
  onNewLastBlock clock fuel' lastBlock launch l = Ok resp l'.
Proof.
  rewrite !onNewLastBlock_unfold. cbv zeta. destruct launch; [|auto].
  intros Hrun Hle.
  destruct (launchWork fuel (afterNewLastBlock clock lastBlock l)) as [n l1| |] eqn:Hlw;
    try discriminate.
  assert (H' : launchWork fuel' (afterNewLastBlock clock lastBlock l) = Ok n l1)
    by (eapply launchWork_more_fuel; eassumption).
  rewrite H'. exact Hrun.
Qed.

Lemma renewLastBlockOnL1IfNeeded_more_fuel (fuel fuel' : nat) (forced : bool)
  (l l' : producer) :
  renewLastBlockOnL1IfNeeded clock fuel forced l = Ok tt l' -> fuel <= fuel' ->
  renewLastBlockOnL1IfNeeded clock fuel' forced l = Ok tt l'.
Proof.
  rewrite !renewLastBlockOnL1IfNeeded_unfold.
  destruct (lastBlockIsStale clock l || forced); [|auto].
  destruct (err (fst (headRequest l))); [auto|].
  intros Hrun Hle.
  destruct (onNewLastBlock clock fuel (block (result (fst (headRequest l)))) true
              (afterHeadRequest l)) as [resp l1| |] eqn:Hnew; try discriminate.
  assert (H' : onNewLastBlock clock fuel' (block (result (fst (headRequest l)))) true
                 (afterHeadRequest l) = Ok resp l1)
    by (eapply onNewLastBlock_more_fuel; eassumption).
  rewrite H'. exact Hrun.
Qed.

Lemma step_renew_more_fuel (fuel fuel' : nat) (l l' : producer) :
  step_renew clock fuel l = Ok tt l' -> fuel <= fuel' ->
  step_renew clock fuel' l = Ok tt l'.
Proof.
  unfold step_renew, bind, get, log, modify, ret.
  destruct (syncStatusEnum_eqb (getStatus (syncStatus l)) syncStatusSynchronized); [|auto].
  apply renewLastBlockOnL1IfNeeded_more_fuel.
Qed.

Lemma step_rest_more_fuel (fuel fuel' : nat) (l : producer) (r : bool * Duration)
  (l' : producer) :
  step_rest clock fuel l = Ok r l' -> fuel <= fuel' -> step_rest clock fuel' l = Ok r l'.
Proof.
  unfold step_rest, bind. intros Hrun Hle.
  destruct (launchWork fuel l) as [n l1| |] eqn:Hlw; try discriminate.
  assert (H' : launchWork fuel' l = Ok n l1)
    by (eapply launchWork_more_fuel; eassumption).
  rewrite H'. exact Hrun.
Qed.

Lemma step_more_fuel (fuel fuel' : nat) (c : selectCase RollupInfo)
  (waitDuration : Duration) (l : producer) (r : bool * Duration) (l' : producer) :
  step clock fuel c waitDuration l = Ok r l' -> fuel <= fuel' ->
  step clock fuel' c waitDuration l = Ok r l'.
Proof.
  assert (Hdone : c = caseDone \/ c <> caseDone)
    by (destruct c; [left; reflexivity | right; discriminate | right; discriminate]).
  destruct Hdone as [-> | Hc]; [rewrite !step_done; auto|].
  rewrite !(step_unfold _ waitDuration l Hc).
  destruct (step_select c l) as [[] l0| |]; try discriminate.
  intros Hrun Hle.
  destruct (step_renew clock fuel l0) as [[] l1| |] eqn:Hren; try discriminate.
  assert (H' : step_renew clock fuel' l0 = Ok tt l1)
    by (eapply step_renew_more_fuel; eassumption).
  rewrite H'. eapply step_rest_more_fuel; eassumption.
Qed.

Lemma start_loop_more_fuel (fuel fuel' : nat) (cases : list (selectCase RollupInfo)) :
  forall (waitDuration : Duration) (previous : syncStatusEnum) (l : producer)
         (b : bool) (l' : producer),
    start_loop clock fuel cases waitDuration previous l = Ok b l' -> fuel <= fuel' ->
    start_loop clock fuel' cases waitDuration previous l = Ok b l'.
Proof.
  induction cases as [|c cases IH]; intros wd prev l b l' Hrun Hle; [exact Hrun|].
  rewrite start_loop_cons in *.
  destruct (step clock fuel c wd l) as [[b0 d] l1| |] eqn:Hstep; try discriminate.
  assert (H' : step clock fuel' c wd l = Ok (b0, d) l1)
    by (eapply step_more_fuel; eassumption).
  rewrite H'. destruct b0; [apply IH; assumption | exact Hrun].
Qed.

Lemma start_more_fuel (fuel fuel' : nat) (cases : list (selectCase RollupInfo))
  (l : producer) (r : startResult) (l' : producer) :
  start clock fuel cases l = Ok r l' -> fuel <= fuel' ->
  start clock fuel' cases l = Ok r l'.
Proof.
  rewrite !start_unfold. intros Hrun Hle.
  destruct (start_loop clock fuel cases 0%Z (getStatus (syncStatus l)) l)
    as [b l1| |] eqn:Hloop; try discriminate.
  assert (H' : start_loop clock fuel' cases 0%Z (getStatus (syncStatus l)) l = Ok b l1)
    by (eapply start_loop_more_fuel; eassumption).
  rewrite H'. exact Hrun.
Qed.

Section EnoughFuel.

Variable Inv : S -> Prop.

Variable measure : S -> nat.

Hypothesis Inv_verify :
  forall s a e s', Inv s -> syncStatus_verify s a = (e, s') -> Inv s'.

Hypothesis Inv_getNextRange :
  forall s br s', Inv s -> getNextRange s = (br, s') -> Inv s'.

Hypothesis Inv_onStartedNewWorker :
  forall s br, Inv s -> Inv (onStartedNewWorker s br).

Hypothesis Inv_onFinishWorker :
  forall s br ok, Inv s -> Inv (onFinishWorker s br ok).

Hypothesis Inv_onNewLastBlockOnL1 :
  forall s now b resp s', Inv s -> onNewLastBlockOnL1 s now b = (resp, s') -> Inv s'.

Hypothesis measure_decreases :
  forall s br s', Inv s -> getNextRange s = (Some br, s') ->
    measure (onStartedNewWorker s' br) < measure s.

Lemma Inv_segments (t : calls_t) (v v' : view_t) :
  segments (@runBlock RollupInfo S F _ _) t v v' ->
  Inv (fst (fst v)) -> Inv (fst (fst v')).
Proof.
  induction 1 as [v | b t v1 v2 v3 Hb Ht IH]; [auto|].
  intros HI. apply IH. clear IH Ht.
  destruct Hb as [b v v' Hb | br s f sent | data released s f f' sent Hfilter | s f sent];
    cbn in *; eauto.
  destruct Hb as [b v v' Hb | c v | a e v | a e s s' f sent Hverify | e v | v];
    cbn in *; eauto.
  destruct Hb as [s s' f sent Hnext | br s s' f sent Hnext | br s s' f sent Hnext
                 | timeout n r v | now blk resp s s' f sent Hhead]; cbn in *; eauto.
Qed.

Lemma Inv_extendsBy (l l' : producer) :
  extendsBy (@runBlock RollupInfo S F _ _) l l' ->
  Inv (syncStatus l) -> Inv (syncStatus l').
Proof. intros (t & _ & Hseg). apply (Inv_segments Hseg). Qed.

Lemma launchWork_enough_fuel (fuel : nat) (l : producer) :
  Inv (syncStatus l) -> measure (syncStatus l) < fuel ->
  exists n l', launchWork fuel l = Ok n l'.
Proof.
  intros HI Hm.
  destruct (launchWork_loop_total Inv measure Inv_getNextRange Inv_onStartedNewWorker
              measure_decreases 0%Z l HI Hm) as ([n0 b] & l1 & Hloop).
  unfold launchWork, bind. rewrite Hloop.
  destruct (n0 =? 0)%Z, b; cbn; eexists _, _; reflexivity.
Qed.

Lemma step_renew_enough_fuel (l : producer) :
  Inv (syncStatus l) -> exists fuel l', step_renew clock fuel l = Ok tt l'.
Proof.
  intros HI. unfold step_renew, bind, get, log, modify, ret.
  destruct (syncStatusEnum_eqb (getStatus (syncStatus l)) syncStatusSynchronized);
    [|exists O; eexists; reflexivity].
  match goal with
  | |- exists fuel l', renewLastBlockOnL1IfNeeded clock fuel false ?x = _ =>
      set (l0 := x); assert (HI0 : Inv (syncStatus l0)) by exact HI
  end.
  clearbody l0.
  assert (Hgoal : exists fuel l',
            renewLastBlockOnL1IfNeeded clock fuel false l0 = Ok tt l').
  { destruct (lastBlockIsStale clock l0 || false) eqn:Hstale.
    - destruct (err (fst (headRequest l0))) as [e|] eqn:Herr.
      + exists O. rewrite renewLastBlockOnL1IfNeeded_unfold, Hstale, Herr.
        eexists. reflexivity.
      + set (l1 := afterNewLastBlock clock (block (result (fst (headRequest l0))))
                     (afterHeadRequest l0)).
        assert (HI1 : Inv (syncStatus l1)).
        { eapply Inv_extendsBy; [|exact HI0].
          eapply extendsBy_mono; [apply tail_is_run|].
          eapply extendsBy_trans; [apply afterHeadRequest_tail|].
          apply afterNewLastBlock_tail. }
        destruct (@launchWork_enough_fuel (Datatypes.S (measure (syncStatus l1))) l1 HI1
                    (Nat.lt_succ_diag_r _)) as (n & l2 & Hlw).
        exists (Datatypes.S (measure (syncStatus l1))), l2.
        rewrite renewLastBlockOnL1IfNeeded_unfold, Hstale, Herr, onNewLastBlock_unfold.
        cbv zeta. fold l1. rewrite Hlw. reflexivity.
    - exists O. rewrite renewLastBlockOnL1IfNeeded_unfold, Hstale. eexists. reflexivity. }
  exact Hgoal.
Qed.

Lemma step_enough_fuel (c : selectCase RollupInfo) (waitDuration : Duration)
  (l : producer) :
  Inv (syncStatus l) ->
  exists fuel r l',
    step clock fuel c waitDuration l = Ok r l' /\ Inv (syncStatus l').
Proof.
  intros HI.
  assert (Hdone : c = caseDone \/ c <> caseDone)
    by (destruct c; [left; reflexivity | right; discriminate | right; discriminate]).
  destruct Hdone as [-> | Hc].
  - exists O. rewrite step_done. eexists _, _. split; [reflexivity | exact HI].
  - destruct (step_select_spec c l) as (l0 & bs & Hsel & Hcs & Hsegs & _).
    assert (HI0 : Inv (syncStatus l0)) by (apply (Inv_segments Hsegs); exact HI).
    destruct (@step_renew_enough_fuel l0 HI0) as (fuel1 & l1 & Hren).
    assert (HI1 : Inv (syncStatus l1)).
    { destruct (step_renew_spec _ _ Hren) as (Hext & _).
      eapply Inv_extendsBy; [|exact HI0].
      eapply extendsBy_mono; [apply tail_is_run | exact Hext]. }
    destruct (@launchWork_enough_fuel (Datatypes.S (measure (syncStatus l1))) l1 HI1
                (Nat.lt_succ_diag_r _)) as (n & l2 & Hlw).
    destruct (step_finish_spec l2) as (d & l3 & Hfin & _ & Hv & _).
    set (fuel2 := Datatypes.S (measure (syncStatus l1))) in *.
    exists (Nat.max fuel1 fuel2), (true, d), l3.
    rewrite (step_unfold _ waitDuration l Hc), Hsel.
    assert (Hren' : step_renew clock (Nat.max fuel1 fuel2) l0 = Ok tt l1)
      by (eapply step_renew_more_fuel; [exact Hren | apply Nat.le_max_l]).
    assert (Hlw' : launchWork (Nat.max fuel1 fuel2) l1 = Ok n l2)
      by (eapply launchWork_more_fuel; [exact Hlw | apply Nat.le_max_r]).
    rewrite Hren'. unfold step_rest, bind. rewrite Hlw'.
    split; [exact Hfin|].
    destruct (launchWork_calls _ _ Hlw) as (t & k & _ & _ & Hseg & _).
    assert (HI2 : Inv (syncStatus l2)).
    { assert (Hrun : segments (@runBlock RollupInfo S F _ _) t (viewOf l1) (viewOf l2))
        by (eapply segments_mono; [apply tail_is_run | exact Hseg]).
      apply (Inv_segments Hrun). exact HI1. }
    unfold viewOf in Hv. inversion Hv. congruence.
Qed.

Lemma start_loop_enough_fuel (cases : list (selectCase RollupInfo)) :
  forall (waitDuration : Duration) (previous : syncStatusEnum) (l : producer),
    Inv (syncStatus l) ->
    exists fuel b l', start_loop clock fuel cases waitDuration previous l = Ok b l'.
Proof.
  induction cases as [|c cases IH]; intros wd prev l HI.
  - exists O. eexists _, _. reflexivity.
  - destruct (@step_enough_fuel c wd l HI) as (fuel1 & [b d] & l1 & Hstep & HI1).
    destruct b.
    + destruct (afterStatusCheck_spec prev l1) as (_ & _ & Hs & _).
      destruct (IH d (getStatus (syncStatus l1)) (afterStatusCheck prev l1))
        as (fuel2 & b & l2 & Hloop); [rewrite Hs; exact HI1|].
      exists (Nat.max fuel1 fuel2), b, l2.
      assert (Hstep' : step clock (Nat.max fuel1 fuel2) c wd l = Ok (true, d) l1)
        by (eapply step_more_fuel; [exact Hstep | apply Nat.le_max_l]).
      rewrite start_loop_cons, Hstep'.
      eapply start_loop_more_fuel; [exact Hloop | apply Nat.le_max_r].
    + exists fuel1, true, l1. rewrite start_loop_cons, Hstep. reflexivity.
Qed.

(** With such a sync status [start] comes to a result for every list of
    cases, given enough fuel. *)
Lemma start_enough_fuel (cases : list (selectCase RollupInfo)) (l : producer) :
  Inv (syncStatus l) ->
  exists fuel r l', start clock fuel cases l = Ok r l'.
Proof.
  intros HI.
  destruct (@start_loop_enough_fuel cases 0%Z (getStatus (syncStatus l)) l HI)
    as (fuel & b & l1 & Hloop).
  exists fuel. rewrite start_unfold, Hloop. destruct b; eexists _, _; reflexivity.
Qed.

End EnoughFuel.

(** *** What is sent as data has been released by the filter *)

Lemma quietBlock_no_filter (b : calls_t) (v v' : view_t) :
  quietBlock b v v' -> filterReleases b = [].
Proof. intros H. destruct H as [b v v' H| | | | |]; [destruct H|..]; reflexivity. Qed.

Lemma dataMessages_app (xs ys : list message) :
  dataMessages (xs ++ ys) = dataMessages xs ++ dataMessages ys.
Proof. unfold dataMessages. apply filter_app. Qed.

Lemma dataRanges_app (xs ys : list message) :
  dataRanges (xs ++ ys) = dataRanges xs ++ dataRanges ys.
Proof. unfold dataRanges. apply flat_map_app. Qed.

Lemma sends_map_callSend (ms : list message) :
  sends (map (@callSend RollupInfo) ms) = ms.
Proof. induction ms as [|m ms IH]; cbn; [reflexivity | f_equal; exact IH]. Qed.

Lemma filterReleases_map_callSend (ms : list message) :
  filterReleases (map (@callSend RollupInfo) ms) = [].
Proof. induction ms as [|m ms IH]; cbn; [reflexivity | exact IH]. Qed.

Lemma run_segments_data (t : calls_t) (v v' : view_t) :
  segments (@runBlock RollupInfo S F _ _) t v v' ->
  dataMessages (sends t) = dataMessages (filterReleases t).
Proof.
  induction 1 as [v | b t v1 v2 v3 Hb Ht IH]; [reflexivity|].
  unfold sends, filterReleases in *. rewrite !flat_map_app, !dataMessages_app, IH.
  f_equal. fold (sends b). fold (filterReleases b).
  destruct Hb as [b v v' Hb| | |].
  - destruct (quiet_segments_frame (@segments_one _ b v v' Hb)) as (_ & _ & Hn).
    rewrite Hn, (quietBlock_no_filter Hb). reflexivity.
  - reflexivity.
  - cbn. fold (sends (map (@callSend RollupInfo) released)).
    fold (filterReleases (map (@callSend RollupInfo) released)).
    rewrite sends_map_callSend, filterReleases_map_callSend, app_nil_r. reflexivity.
  - reflexivity.
Qed.

End Generic.

End ProducerFacts.

(** ** The producer with the sync status and the filter of the design
       document *)

Module SpecRun.

Import Synchronizer.

Import ProducerFacts.

Import SpecSystem.

(** *** The sync status *)

Lemma headGrows_refl (s : SpecSyncStatus.syncStatus) : headGrows s s.
Proof. split; [reflexivity|]. intros head H. exists head. split; [exact H | lia]. Qed.

Lemma issued_headGrows (s s' : SpecSyncStatus.syncStatus) (br : blockRange) :
  headGrows s s' -> issued s br -> issued s' br.
Proof.
  intros (_ & Hgrow) (Hwf & head & Hlast & Hle).
  destruct (Hgrow head Hlast) as (head' & Hlast' & Hle').
  split; [exact Hwf|]. exists head'. split; [exact Hlast' | lia].
Qed.

Lemma verify_same (s s' : SpecSyncStatus.syncStatus) (a : bool) (e : option error) :
  SpecSyncStatus.verify s a = (e, s') ->
  s' = s /\ (e = None -> SpecSyncStatus.chunkSize s <> 0%N).
Proof.
  unfold SpecSyncStatus.verify.
  destruct (SpecSyncStatus.chunkSize s =? 0)%N eqn:Hz; intros H; inversion H; subst.
  - split; [reflexivity | discriminate].
  - split; [reflexivity|]. intros _. apply N.eqb_neq. exact Hz.
Qed.

Lemma nextRange_None (s s' : SpecSyncStatus.syncStatus) :
  SpecSyncStatus.nextRange s = (None, s') -> s' = s.
Proof.
  unfold SpecSyncStatus.nextRange.
  destruct (SpecSyncStatus.lastBlockOnL1 s) as [last|]; [|intros H; inversion H; reflexivity].
  destruct (SpecSyncStatus.nextBlockToAsk s <=? last)%N; intros H; inversion H; reflexivity.
Qed.

Lemma nextRange_Some (s s' : SpecSyncStatus.syncStatus) (br : blockRange) :
  SpecSyncStatus.nextRange s = (Some br, s') ->
  SpecSyncStatus.chunkSize s <> 0%N ->
  issued s br /\ headGrows s s' /\
  fromBlock br = SpecSyncStatus.nextBlockToAsk s /\
  (SpecSyncStatus.nextBlockToAsk s < SpecSyncStatus.nextBlockToAsk s')%N /\
  SpecSyncStatus.lastBlockOnL1 s' = SpecSyncStatus.lastBlockOnL1 s /\
  exists last, SpecSyncStatus.lastBlockOnL1 s = Some last /\
               (SpecSyncStatus.nextBlockToAsk s' <= last + 1)%N.
Proof.
  unfold SpecSyncStatus.nextRange. intros H Hchunk.
  destruct (SpecSyncStatus.lastBlockOnL1 s) as [last|] eqn:Hlast; [|discriminate H].
  destruct (SpecSyncStatus.nextBlockToAsk s <=? last)%N eqn:Hle; [|discriminate H].
  apply N.leb_le in Hle. inversion H; subst br s'; clear H.
  unfold issued, headGrows. cbn.
  repeat split; try reflexivity; try lia.
  - exists last. split; [exact Hlast | lia].
  - intros head Hh. exists last. split; [reflexivity|]. rewrite Hlast in Hh.
    inversion Hh. lia.
  - exists last. split; [reflexivity | lia].
Qed.

Lemma onStarted_headGrows (s : SpecSyncStatus.syncStatus) (br : blockRange) :
  headGrows s (SpecSyncStatus.onStarted s br).
Proof.
  split; [reflexivity|]. intros head H. exists head. cbn. split; [exact H | lia].
Qed.

Lemma onFinished_headGrows (s : SpecSyncStatus.syncStatus) (br : blockRange) (ok : bool) :
  headGrows s (SpecSyncStatus.onFinished s br ok).
Proof.
  split; [reflexivity|]. intros head H. exists head. cbn. split; [exact H | lia].
Qed.

Lemma onNewHead_headGrows (s s' : SpecSyncStatus.syncStatus) (now : Time) (blk : N)
  (resp : onNewLastBlockResponse) :
  SpecSyncStatus.onNewHead s now blk = (resp, s') -> headGrows s s'.
Proof.
  unfold SpecSyncStatus.onNewHead. intros H. inversion H; subst resp s'; clear H.
  split; [reflexivity|]. intros head Hh. rewrite Hh. cbn.
  destruct (head <? blk)%N eqn:Hlt.
  - apply N.ltb_lt in Hlt. exists blk. split; [reflexivity | lia].
  - exists head. split; [reflexivity | lia].
Qed.

(** The dispatch loop ends with this sync status: the ranges left go down
    with every range handed out, as long as the chunk size is not zero. *)
Lemma chunkSizeIsPositive_getNextRange (s : SpecSyncStatus.syncStatus)
  (br : option blockRange) (s' : SpecSyncStatus.syncStatus) :
  Examples.chunkSizeIsPositive s -> getNextRange s = (br, s') ->
  Examples.chunkSizeIsPositive s'.
Proof.
  unfold Examples.chunkSizeIsPositive. intros Hchunk Hnext. cbn in Hnext.
  destruct br as [br|].
  - destruct (nextRange_Some _ Hnext Hchunk) as (_ & (Heq & _) & _). congruence.
  - apply nextRange_None in Hnext. subst s'. exact Hchunk.
Qed.

Lemma chunkSizeIsPositive_onStartedNewWorker (s : SpecSyncStatus.syncStatus)
  (br : blockRange) :
  Examples.chunkSizeIsPositive s -> Examples.chunkSizeIsPositive (onStartedNewWorker s br).
Proof. intros H. exact H. Qed.

Lemma rangesLeft_decreases (s : SpecSyncStatus.syncStatus) (br : blockRange)
  (s' : SpecSyncStatus.syncStatus) :
  Examples.chunkSizeIsPositive s -> getNextRange s = (Some br, s') ->
  Examples.rangesLeft (onStartedNewWorker s' br) < Examples.rangesLeft s.
Proof.
  unfold Examples.chunkSizeIsPositive, Examples.rangesLeft. intros Hchunk Hnext.
  cbn in Hnext.
  destruct (nextRange_Some _ Hnext Hchunk) as (_ & _ & _ & Hlt & Hlast & last & Hl & Hle).
  cbn. rewrite Hlast, Hl. lia.
Qed.

Lemma chunkSizeIsPositive_verify (s : SpecSyncStatus.syncStatus) (a : bool)
  (e : option error) (s' : SpecSyncStatus.syncStatus) :
  Examples.chunkSizeIsPositive s -> syncStatus_verify s a = (e, s') ->
  Examples.chunkSizeIsPositive s'.
Proof.
  intros H Hv. cbn in Hv. apply verify_same in Hv. destruct Hv as (-> & _). exact H.
Qed.

Lemma chunkSizeIsPositive_onFinishWorker (s : SpecSyncStatus.syncStatus)
  (br : blockRange) (ok : bool) :
  Examples.chunkSizeIsPositive s -> Examples.chunkSizeIsPositive (onFinishWorker s br ok).
Proof. intros H. exact H. Qed.

Lemma chunkSizeIsPositive_onNewLastBlockOnL1 (s : SpecSyncStatus.syncStatus)
  (now : Time) (b : N) (resp : onNewLastBlockResponse) (s' : SpecSyncStatus.syncStatus) :
  Examples.chunkSizeIsPositive s -> onNewLastBlockOnL1 s now b = (resp, s') ->
  Examples.chunkSizeIsPositive s'.
Proof.
  unfold Examples.chunkSizeIsPositive. intros H Hh. cbn in Hh.
  apply onNewHead_headGrows in Hh. destruct Hh as (Heq & _). congruence.
Qed.

(** After a failed fetch of a range the sync status hands out a range again
    that starts at that range or before it: the dispatch that follows in the
    same iteration asks for its blocks again. *)
Lemma failed_range_is_handed_out_again (s : SpecSyncStatus.syncStatus) (br : blockRange) :
  issued s br ->
  exists br' s',
    getNextRange (onFinishWorker s br false) = (Some br', s') /\
    (fromBlock br' <= fromBlock br)%N.
Proof.
  intros (Hwf & head & Hlast & Hle). cbn.
  unfold SpecSyncStatus.nextRange, SpecSyncStatus.onFinished. cbn. rewrite Hlast.
  assert (Hnext : (N.min (SpecSyncStatus.nextBlockToAsk s) (fromBlock br) <=? head)%N = true)
    by (apply N.leb_le; lia).
  rewrite Hnext. eexists _, _. split; [reflexivity|]. cbn. lia.
Qed.

(** *** The filter *)

Section FilterFacts.

Variable RollupInfo : Type.

Local Abbreviation chunk := (responseRollupInfoByBlockRange RollupInfo).

Lemma insertChunk_In (c x : chunk) (buf : list chunk) :
  In x (SpecFilter.insertChunk c buf) -> x = c \/ In x buf.
Proof.
  induction buf as [|d rest IH]; cbn.
  - intros [H|[]]; auto.
  - destruct (fromBlock (response_blockRange c) <? fromBlock (response_blockRange d))%N.
    + intros [H|H]; auto.
    + destruct (fromBlock (response_blockRange c) =? fromBlock (response_blockRange d))%N.
      * intros [H|H]; auto.
      * intros [H|H]; [auto|]. destruct (IH H); auto.
Qed.

Lemma acceptChunk_In (st : SpecFilter.filterState RollupInfo) (c x : chunk) :
  In x (SpecFilter.acceptChunk st c) -> x = c \/ In x (SpecFilter.buffer st).
Proof.
  unfold SpecFilter.acceptChunk.
  destruct (toBlock (response_blockRange c) <? SpecFilter.nextExpectedBlock st)%N; [auto|].
  destruct (SpecFilter.nextExpectedBlock st <=? fromBlock (response_blockRange c))%N;
    [apply insertChunk_In | auto].
Qed.

Lemma contiguous_last (rs : list blockRange) :
  forall (start next : N),
    rs <> [] -> contiguous start rs next ->
    exists r, In r rs /\ next = (toBlock r + 1)%N.
Proof.
  induction rs as [|r rs IH]; intros start next Hne Hc; [congruence|].
  cbn in Hc. destruct Hc as (_ & _ & Hc).
  destruct rs as [|r' rs'].
  - cbn in Hc. exists r. split; [left; reflexivity | symmetry; exact Hc].
  - destruct (IH _ _ ltac:(discriminate) Hc) as (x & Hin & Heq).
    exists x. split; [right; exact Hin | exact Heq].
Qed.

Lemma contiguous_app (rs1 rs2 : list blockRange) :
  forall (start mid next : N),
    contiguous start rs1 mid -> contiguous mid rs2 next ->
    contiguous start (rs1 ++ rs2) next.
Proof.
  induction rs1 as [|r rs1 IH]; intros start mid next H1 H2; cbn in *.
  - subst mid. exact H2.
  - destruct H1 as (Hf & Hwf & H1). split; [exact Hf|]. split; [exact Hwf|].
    eapply IH; eassumption.
Qed.

(** What [release] gives out starts at the expected block and is contiguous;
    the filter then expects the block after the last one released. *)
Lemma release_contiguous (buf : list chunk) :
  forall (next : N) (out : list chunk) (st : SpecFilter.filterState RollupInfo),
    SpecFilter.release next buf = (out, st) ->
    (forall c, In c buf ->
       (fromBlock (response_blockRange c) <= toBlock (response_blockRange c))%N) ->
    contiguous next (map (@response_blockRange RollupInfo) out)
      (SpecFilter.nextExpectedBlock st) /\
    (forall c, In c out -> In c buf) /\
    (forall c, In c (SpecFilter.buffer st) -> In c buf).
Proof.
  induction buf as [|c rest IH]; intros next out st Hrel Hwf; cbn in Hrel.
  - inversion Hrel; subst out st. cbn. repeat split; auto; intros c [].
  - destruct (fromBlock (response_blockRange c) =? next)%N eqn:Hfrom.
    + apply N.eqb_eq in Hfrom.
      destruct (SpecFilter.release (toBlock (response_blockRange c) + 1) rest)
        as [out' st'] eqn:Hrest.
      inversion Hrel; subst out st; clear Hrel.
      destruct (IH _ _ _ Hrest) as (Hc & Hout & Hbuf).
      { intros x Hx. apply Hwf. right. exact Hx. }
      cbn. split; [|split].
      * split; [exact Hfrom|]. split; [apply Hwf; left; reflexivity | exact Hc].
      * intros x [Hx|Hx]; [left; exact Hx | right; apply Hout; exact Hx].
      * intros x Hx. right. apply Hbuf. exact Hx.
    + inversion Hrel; subst out st; clear Hrel. cbn.
      repeat split; auto; intros x [].
Qed.

End FilterFacts.

(** *** The invariant of a run *)

Section RunFacts.

Variables RollupInfo Etherman : Type.

Context {W St : Type}.

Context {workersOps : workersInterface Etherman W}.

Context {statisticsOps : statisticsInterface St}.

Variable clock : nat -> Time.

Variable startingBlock : N.

Local Abbreviation producer :=
  (l1RollupInfoProducer RollupInfo (W:=W) (S:=SpecSyncStatus.syncStatus)
     (F:=SpecFilter.filterState RollupInfo) (St:=St)).

Local Abbreviation view_t :=
  (view RollupInfo (S:=SpecSyncStatus.syncStatus) (F:=SpecFilter.filterState RollupInfo)).

Local Abbreviation calls_t := (list (call RollupInfo)).

Local Abbreviation message := (l1SyncMessage RollupInfo).

Lemma answersAccepted_sends (accepted : list blockRange) (ms : list message) (t : calls_t) :
  answersAccepted accepted (map (@callSend RollupInfo) ms ++ t) = answersAccepted accepted t.
Proof. induction ms as [|m ms IH]; cbn; [reflexivity | exact IH]. Qed.

Lemma blockRange_eqb_eq (a b : blockRange) : blockRange_eqb a b = true -> a = b.
Proof.
  destruct a as [fa ta], b as [fb tb]. unfold blockRange_eqb. cbn.
  intros H. apply andb_prop in H. destruct H as (Hf & Ht).
  apply N.eqb_eq in Hf, Ht. congruence.
Qed.

Lemma runInvariant_headGrows (accepted : list blockRange)
  (s s' : SpecSyncStatus.syncStatus) (f : SpecFilter.filterState RollupInfo)
  (sent : list message) :
  headGrows s s' ->
  runInvariant startingBlock accepted (s, f, sent) ->
  runInvariant startingBlock accepted (s', f, sent).
Proof.
  intros Hgrow (Hchunk & Hacc & Hbuf & Hcont & Hhead).
  split; [destruct Hgrow as (-> & _); exact Hchunk|].
  split; [intros br Hin; eapply issued_headGrows; eauto|].
  split; [intros c Hin; eapply issued_headGrows; eauto|].
  split; [exact Hcont|].
  intros Hne. destruct (Hhead Hne) as (head & Hlast & Hle).
  destruct Hgrow as (_ & Hgrow). destruct (Hgrow head Hlast) as (head' & Hlast' & Hle').
  exists head'. split; [exact Hlast' | lia].
Qed.

Lemma tailBlock_invariant (b : calls_t) (v v' : view_t) :
  tailBlock b v v' ->
  forall (accepted : list blockRange) (t : calls_t),
    runInvariant startingBlock accepted v ->
    answersAccepted accepted (b ++ t) = true ->
    exists accepted',
      runInvariant startingBlock accepted' v' /\ answersAccepted accepted' t = true.
Proof.
  intros Hb accepted t Hinv Hans.
  destruct Hb as [s s' f sent Hnext | br s s' f sent Hnext | br s s' f sent Hnext
                 | timeout n r v | now blk resp s s' f sent Hhead].
  - apply nextRange_None in Hnext. subst s'. exists accepted. auto.
  - assert (Hchunk : SpecSyncStatus.chunkSize s <> 0%N) by apply Hinv.
    destruct (nextRange_Some _ Hnext Hchunk) as (_ & Hgrow & _).
    exists accepted. split; [eapply runInvariant_headGrows; eassumption | exact Hans].
  - assert (Hchunk : SpecSyncStatus.chunkSize s <> 0%N) by apply Hinv.
    destruct (nextRange_Some _ Hnext Hchunk) as (Hissued & Hgrow & _).
    exists (br :: accepted). split; [|exact Hans].
    apply runInvariant_headGrows with (s := s').
    { apply onStarted_headGrows. }
    apply (runInvariant_headGrows Hgrow) in Hinv.
    destruct Hinv as (Hc & Hacc & Hrest).
    split; [exact Hc|]. split; [|exact Hrest].
    intros x [<- | Hin]; [eapply issued_headGrows; eassumption | apply Hacc; exact Hin].
  - exists accepted. auto.
  - apply onNewHead_headGrows in Hhead.
    exists accepted. split; [eapply runInvariant_headGrows; eassumption | exact Hans].
Qed.

Lemma quietBlock_invariant (b : calls_t) (v v' : view_t) :
  quietBlock b v v' ->
  forall (accepted : list blockRange) (t : calls_t),
    runInvariant startingBlock accepted v ->
    answersAccepted accepted (b ++ t) = true ->
    exists accepted',
      runInvariant startingBlock accepted' v' /\ answersAccepted accepted' t = true.
Proof.
  intros Hb accepted t Hinv Hans.
  destruct Hb as [b v v' Hb | c v | a e v | a e s s' f sent Hverify | e v | v].
  - eapply tailBlock_invariant; eassumption.
  - exists accepted. auto.
  - exists accepted. auto.
  - apply verify_same in Hverify. destruct Hverify as (-> & _). exists accepted. auto.
  - exists accepted. auto.
  - exists accepted. auto.
Qed.

Lemma filterChunk_invariant (accepted : list blockRange)
  (s : SpecSyncStatus.syncStatus) (f f' : SpecFilter.filterState RollupInfo)
  (sent released : list message) (data : responseRollupInfoByBlockRange RollupInfo) :
  SpecFilter.filterChunk f (newL1SyncMessageData data) = (released, f') ->
  issued s (response_blockRange data) ->
  runInvariant startingBlock accepted (s, f, sent) ->
  runInvariant startingBlock accepted (s, f', sent ++ released) /\
  dataMessages released = released.
Proof.
  unfold SpecFilter.filterChunk. intros Hfilter Hissued (Hchunk & Hacc & Hbuf & Hcont & Hhead).
  destruct (SpecFilter.release (SpecFilter.nextExpectedBlock f) (SpecFilter.acceptChunk f data))
    as [out st] eqn:Hrel.
  inversion Hfilter; subst released f'; clear Hfilter.
  assert (Hin : forall c, In c (SpecFilter.acceptChunk f data) ->
                          issued s (response_blockRange c)).
  { intros c Hc. apply acceptChunk_In in Hc. destruct Hc as [-> | Hc]; auto. }
  destruct (release_contiguous _ _ Hrel) as (Hout & Hsub & Hrest).
  { intros c Hc. apply Hin. exact Hc. }
  assert (Hranges : dataRanges (map (@newL1SyncMessageData RollupInfo) out) =
                    map (@response_blockRange RollupInfo) out).
  { clear. induction out as [|o out IH]; cbn; [reflexivity | f_equal; exact IH]. }
  split.
  - split; [exact Hchunk|]. split; [exact Hacc|].
    split; [intros c Hc; apply Hin, Hrest, Hc|].
    rewrite dataRanges_app, Hranges.
    split; [eapply contiguous_app; eassumption|].
    intros Hne.
    destruct out as [|o out'].
    + cbn in Hout. rewrite <- Hout. apply Hhead. rewrite app_nil_r in Hne. exact Hne.
    + destruct (@contiguous_last (map (@response_blockRange RollupInfo) (o :: out'))
                  _ _ ltac:(discriminate) Hout) as (r & Hr & Heq).
      apply in_map_iff in Hr. destruct Hr as (c & <- & Hc).
      destruct (Hin c (Hsub c Hc)) as (_ & head & Hlast & Hle).
      exists head. split; [exact Hlast | lia].
  - clear. induction out as [|o out IH]; cbn; [reflexivity | f_equal; exact IH].
Qed.

Lemma runBlock_invariant (b : calls_t) (v v' : view_t) :
  runBlock b v v' ->
  forall (accepted : list blockRange) (t : calls_t),
    runInvariant startingBlock accepted v ->
    answersAccepted accepted (b ++ t) = true ->
    exists accepted',
      runInvariant startingBlock accepted' v' /\ answersAccepted accepted' t = true.
Proof.
  intros Hb accepted t Hinv Hans.
  destruct Hb as [b v v' Hb | br s f sent | data released s f f' sent Hfilter | s f sent].
  - eapply quietBlock_invariant; eassumption.
  - exists accepted. split; [|exact Hans].
    eapply runInvariant_headGrows; [apply onFinished_headGrows | exact Hinv].
  - cbn [app answersAccepted] in Hans. apply andb_prop in Hans. destruct Hans as (Hex & Hans).
    rewrite answersAccepted_sends in Hans.
    apply existsb_exists in Hex. destruct Hex as (br & Hbr & Heq).
    apply blockRange_eqb_eq in Heq. subst br.
    assert (Hissued : issued s (response_blockRange data)).
    { pose proof Hinv as (_ & Hacc0 & _). apply Hacc0. exact Hbr. }
    destruct (@filterChunk_invariant accepted s f f' sent released data
                Hfilter Hissued Hinv) as (Hinv' & _).
    exists accepted. split; [|exact Hans].
    eapply runInvariant_headGrows; [apply onFinished_headGrows | exact Hinv'].
  - exists accepted. split; [|exact Hans].
    destruct Hinv as (Hc & Hacc & Hbuf & Hcont & Hhead).
    unfold runInvariant, dataRanges in *. rewrite flat_map_app. cbn. rewrite app_nil_r.
    auto.
Qed.

Lemma run_invariant (t : calls_t) (v v' : view_t) :
  segments (@runBlock RollupInfo _ _ _ _) t v v' ->
  forall (accepted : list blockRange),
    runInvariant startingBlock accepted v ->
    answersAccepted accepted t = true ->
    exists accepted', runInvariant startingBlock accepted' v'.
Proof.
  induction 1 as [v | b t v1 v2 v3 Hb Ht IH]; intros accepted Hinv Hans.
  - exists accepted. exact Hinv.
  - destruct (runBlock_invariant Hb _ _ Hinv Hans) as (accepted' & Hinv' & Hans').
    eapply IH; eassumption.
Qed.

Lemma filterReleases_are_data (t : calls_t) (v v' : view_t) :
  segments (@runBlock RollupInfo _ _ _ _) t v v' ->
  dataMessages (filterReleases t) = filterReleases t.
Proof.
  induction 1 as [v | b t v1 v2 v3 Hb Ht IH]; [reflexivity|].
  unfold filterReleases in *. rewrite flat_map_app, dataMessages_app, IH. f_equal.
  fold (filterReleases b).
  destruct Hb as [b v v' Hb | br s f sent | data released s f f' sent Hfilter | s f sent].
  - rewrite (quietBlock_no_filter Hb). reflexivity.
  - reflexivity.
  - cbn. fold (filterReleases (map (@callSend RollupInfo) released)).
    rewrite filterReleases_map_callSend, app_nil_r.
    cbn in Hfilter. unfold SpecFilter.filterChunk in Hfilter.
    destruct (SpecFilter.release (SpecFilter.nextExpectedBlock f)
                (SpecFilter.acceptChunk f data)) as [out st].
    inversion Hfilter; subst released f'.
    clear. induction out as [|o out IH]; cbn; [reflexivity | f_equal; exact IH].
  - reflexivity.
Qed.

(** The runs of C1 exist: every list of cases is handled with enough fuel. *)
Lemma run_enough_fuel
  (ethermans : list Etherman) (SyncChunkSize : N) (outgoingCap : nat)
  (renewLastBlockOnL1 : bool) (cases : list (selectCase RollupInfo))
  (l0 l1 : producer) :
  newL1DataRetriever ethermans startingBlock SyncChunkSize outgoingCap
    renewLastBlockOnL1 = Ok tt l0 ->
  initialize clock l0 = Ok None l1 ->
  exists fuel r l2, start clock fuel cases l1 = Ok r l2.
Proof.
  intros Hnew Hinit.
  destruct (newL1DataRetriever_Ok _ _ _ _ _ Hnew) as (Hverify & _).
  apply verify_same in Hverify. destruct Hverify as (Hs0 & Hchunk).
  specialize (Hchunk eq_refl).
  assert (H0 : Examples.chunkSizeIsPositive (syncStatus l0))
    by (rewrite Hs0; exact Hchunk).
  assert (H1 : Examples.chunkSizeIsPositive (syncStatus l1)).
  { eapply (@Inv_extendsBy RollupInfo _ _ _ _ _ _ Examples.chunkSizeIsPositive);
      [apply chunkSizeIsPositive_verify | apply chunkSizeIsPositive_getNextRange
      | apply chunkSizeIsPositive_onStartedNewWorker
      | apply chunkSizeIsPositive_onFinishWorker
      | apply chunkSizeIsPositive_onNewLastBlockOnL1
      | eapply initialize_extends; exact Hinit | exact H0]. }
  eapply (@start_enough_fuel RollupInfo Etherman _ _ _ _ _ _ _ _ clock
            Examples.chunkSizeIsPositive Examples.rangesLeft);
    [apply chunkSizeIsPositive_verify | apply chunkSizeIsPositive_getNextRange
    | apply chunkSizeIsPositive_onStartedNewWorker
    | apply chunkSizeIsPositive_onFinishWorker
    | apply chunkSizeIsPositive_onNewLastBlockOnL1
    | apply rangesLeft_decreases | exact H1].
Qed.

(** C1. In every run of the producer (construction, initialization, the
    main loop over any cases of the [select]) in which the pool delivers
    chunks only for ranges it has accepted, the data chunks sent on the
    outgoing channel follow one another from [startingBlock] on: none is
    empty, each starts right after the one before, so they are strictly
    ascending and cover the blocks from [startingBlock] to some block X
    without gap or overlap, and X is not beyond the head the sync status
    knows at the end.  The data messages sent are exactly what the filter
    released, in the order in which it released them. *)
Theorem data_chunks_contiguous_from_startingBlock
  (ethermans : list Etherman) (SyncChunkSize : N) (outgoingCap : nat)
  (renewLastBlockOnL1 : bool) (fuel : nat) (cases : list (selectCase RollupInfo))
  (l0 l1 l2 : producer) (r : startResult) :
  newL1DataRetriever ethermans startingBlock SyncChunkSize outgoingCap
    renewLastBlockOnL1 = Ok tt l0 ->
  initialize clock l0 = Ok None l1 ->
  start clock fuel cases l1 = Ok r l2 ->
  poolContract (calls l2) = true ->
  let sent := chanSent (outgoingChannel l2) in
  let next := SpecFilter.nextExpectedBlock (filterToSendOrdererResultsToConsumer l2) in
  contiguous startingBlock (dataRanges sent) next /\
  (dataRanges sent <> [] ->
   exists head, SpecSyncStatus.lastBlockOnL1 (syncStatus l2) = Some head /\
                (next <= head + 1)%N) /\
  dataMessages sent = filterReleases (calls l2).
Proof.
  intros Hnew Hinit Hstart Hpool sent next.
  destruct (newL1DataRetriever_Ok _ _ _ _ _ Hnew) as (Hverify & Hfilter & Hsent0 & Hcalls0).
  apply verify_same in Hverify. destruct Hverify as (Hs0 & Hchunk).
  specialize (Hchunk eq_refl).
  assert (Hext : extendsBy (@runBlock RollupInfo _ _ _ _) l0 l2).
  { eapply extendsBy_trans; [eapply initialize_extends | eapply start_extends];
      eassumption. }
  destruct Hext as (t & Hcalls & Hseg).
  assert (Hans : answersAccepted [] t = true).
  { unfold poolContract in Hpool. rewrite Hcalls, Hcalls0 in Hpool. exact Hpool. }
  assert (Hinv0 : runInvariant startingBlock [] (viewOf l0)).
  { unfold viewOf. rewrite Hfilter, Hsent0, Hs0. cbn.
    split; [exact Hchunk|]. split; [intros br []|]. split; [intros c []|].
    split; [reflexivity | congruence]. }
  destruct (run_invariant Hseg [] Hinv0 Hans) as (accepted & Hinv).
  unfold viewOf in Hinv. destruct Hinv as (_ & _ & _ & Hcont & Hhead).
  split; [exact Hcont|]. split; [exact Hhead|].
  pose proof (run_segments_sent Hseg) as Hsent. unfold viewOf in Hsent. cbn [snd] in Hsent.
  rewrite Hsent0 in Hsent. cbn [app] in Hsent.
  subst sent. rewrite Hsent, (run_segments_data Hseg), (filterReleases_are_data Hseg).
  rewrite Hcalls, Hcalls0. reflexivity.
Qed.

End RunFacts.

End SpecRun.

(** ** Example runs *)

Module ExampleFacts.

Import Synchronizer.

Import Examples.

Import ProducerFacts.

(** C2. With the status Synchronized, a TTL of 5 s and the last block seen
    2 s ago, [getNextTimeout] returns 7 s, the time since the last block plus
    the TTL, where the timeout as specified, the TTL minus the time since the
    last block and at least 1 s, is 3 s. *)
Theorem getNextTimeout_synchronized_adds_elapsed :
  getNextTimeout clockAt2s synchronizedProducer =
    Ok (7 * Second)%Z (set_clockReads 1 synchronizedProducer) /\
  getNextTimeout_synchronized_as_specified (clockAt2s 0) synchronizedProducer =
    (3 * Second)%Z /\
  (7 * Second <> 3 * Second)%Z.
Proof.
  split; [vm_compute; reflexivity|]. split; [vm_compute; reflexivity|].
  vm_compute. discriminate.
Qed.

(** The bytes fit (40 of 100) but the counter does not (11 of 10): the call
    fails and the bytes are back at 100. *)
Lemma sub_bytes_restored_on_error_witness :
  isUint64 100 /\ isUint64 40 /\
  match Sequencer.sub Sequencer.gasCounter_Sub Sequencer.errUnderflow
          (Sequencer.mkBatchResources 10%Z 100%Z)
          (Sequencer.mkBatchResources 11%Z 40%Z) with
  | (r', Some e) =>
      Sequencer.bytes r' = 100%Z /\ errors_Is e Sequencer.errUnderflow = true
  | (r', None) => False
  end.
Proof.
  assert (H100 : isUint64 100) by (unfold isUint64; lia).
  assert (H40 : isUint64 40) by (unfold isUint64; lia).
  split; [exact H100 | split; [exact H40 |]].
  pose proof (sub_bytes_restored_on_error Sequencer.gasCounter_Sub
                Sequencer.errUnderflow
                (Sequencer.mkBatchResources 10%Z 100%Z)
                (Sequencer.mkBatchResources 11%Z 40%Z) H100 H40) as H.
  cbv zeta in H.
  destruct (Sequencer.sub _ _ _ _) as [r' [e|]].
  - destruct H as (Hb & He & _). split; [exact Hb | exact He].
  - destruct H as (_ & _ & Hno). apply Hno.
    exists 10%Z, (errors_New "underflow: CumulativeGasUsed"). reflexivity.
Defined.

(** Scenario S2: the pool keeps its contract, and the data sent is the three
    chunks in block order, up to the head 14. *)
Lemma data_chunks_contiguous_from_startingBlock_witness :
  poolContract (calls s2_final) = true /\
  dataRanges (chanSent (outgoingChannel s2_final)) =
    [mkBlockRange 0 4; mkBlockRange 5 9; mkBlockRange 10 14] /\
  contiguous 0 (dataRanges (chanSent (outgoingChannel s2_final))) 15 /\
  dataMessages (chanSent (outgoingChannel s2_final)) = filterReleases (calls s2_final).
Proof.
  assert (Hnew : newL1DataRetriever [s2_pool] 0 5 10 true = Ok tt s2_constructed)
    by (vm_compute; reflexivity).
  assert (Hinit : initialize msClock s2_constructed = Ok None s2_initialized)
    by (vm_compute; reflexivity).
  assert (Hstart : start msClock 10 s2_cases s2_initialized
                   = Ok (startReturned None) s2_final)
    by (vm_compute; reflexivity).
  assert (Hpool : poolContract (calls s2_final) = true) by (vm_compute; reflexivity).
  destruct (SpecRun.data_chunks_contiguous_from_startingBlock
              msClock 0 [s2_pool] 5 10 true 10 s2_cases Hnew Hinit Hstart Hpool)
    as (Hcont & _ & Hdata).
  split; [exact Hpool|]. split; [vm_compute; reflexivity|].
  split; [exact Hcont | exact Hdata].
Defined.

(** The last chunk arrives while the status is Working: the status becomes
    Synchronized, and FullySynced goes out behind the chunk. *)
Lemma fullySynced_sent_once_after_transition_witness :
  exists l2,
    start_loop msClock 10 [okResponse 10 14; caseDone] 0%Z syncStatusWorking
      almostSynchronizedProducer = Ok true l2 /\
    chanSent (outgoingChannel l2) =
      [newL1SyncMessageData (mkResponseRollupInfo (mkBlockRange 10 14) tt);
       newL1SyncMessageControl eventProducerIsFullySynced].
Proof.
  assert (Hc : okResponse 10 14 <> caseDone) by discriminate.
  assert (Hrun : start_loop msClock 10 [okResponse 10 14; caseDone] 0%Z syncStatusWorking
                   almostSynchronizedProducer
                 = Ok true (stateOf (start_loop msClock 10 [okResponse 10 14; caseDone] 0%Z
                                       syncStatusWorking almostSynchronizedProducer)
                              almostSynchronizedProducer))
    by (vm_compute; reflexivity).
  destruct (fullySynced_sent_once_after_transition msClock 10 [caseDone] 0%Z
              syncStatusWorking almostSynchronizedProducer Hc Hrun)
    as (d & l1 & later & _ & _ & _ & _ & _ & _ & _).
  eexists. split; [exact Hrun|]. vm_compute. reflexivity.
Defined.

(** Synchronized, the head seen 10 s ago, and the pool has no head to give:
    one request, it fails, and the sync status stays as it is. *)
Lemma step_refreshes_head_only_when_synchronized_and_stale_witness :
  exists l',
    step clockAt10s 10 caseTimeAfter 0%Z synchronizedProducer
      = Ok (true, (15 * Second)%Z) l' /\
    headRequests (calls l') =
      [mkGenericResponse (Some Scripted.errHeadUnavailable) (mkRetrieveL1LastBlockResult 0)] /\
    syncStatus l' = syncStatus synchronizedProducer.
Proof.
  assert (Hc : @caseTimeAfter unit <> caseDone) by discriminate.
  assert (Hfuel : step clockAt10s 10 caseTimeAfter 0%Z synchronizedProducer <> OutOfFuel)
    by (vm_compute; discriminate).
  destruct (step_refreshes_head_only_when_synchronized_and_stale clockAt10s 10 0%Z
              synchronizedProducer Hc Hfuel)
    as (l0 & l1 & d & l' & Hstep & _).
  exists l'. vm_compute in Hstep. inversion Hstep; subst d l'.
  split; [vm_compute; reflexivity|]. split; vm_compute; reflexivity.
Defined.

(** The constructed producer of scenario S2: both checks pass, the head is
    needed and the pool gives 14, which reaches the sync status. *)
Lemma initialize_fails_or_applies_new_last_block_witness :
  initialize msClock s2_constructed = Ok None s2_initialized /\
  SpecSyncStatus.lastBlockOnL1 (syncStatus s2_initialized) = Some 14%N.
Proof.
  assert (Hverify : verify true s2_constructed
                    = Ok None (stateOf (verify true s2_constructed) s2_constructed))
    by (vm_compute; reflexivity).
  assert (Hinit : workers_initialize
                    (workers (stateOf (verify true s2_constructed) s2_constructed))
                  = (None, s2_pool))
    by (vm_compute; reflexivity).
  assert (Hneed : needToRenewLastBlockOnL1
                    (syncStatus (stateOf (verify true s2_constructed) s2_constructed))
                    (msClock (clockReads (stateOf (verify true s2_constructed)
                                            s2_constructed))) = true)
    by (vm_compute; reflexivity).
  destruct (initialize_fails_or_applies_new_last_block msClock s2_constructed
              Hverify Hinit Hneed) as (l' & _).
  split; vm_compute; reflexivity.
Defined.

(** The initialized producer of scenario S2: the head is 14 and nothing has
    been asked yet, so three ranges are left and the loop ends within four
    rounds.  The pool accepts the three ranges, which are then in flight, and
    the fourth round finds no range. *)
Lemma launchWork_dispatches_until_none_or_rejected_witness :
  chunkSizeIsPositive (syncStatus s2_initialized) /\
  exists l',
    launchWork 16 s2_initialized = Ok 3%Z l' /\
    SpecSyncStatus.inFlight (syncStatus l') =
      [mkBlockRange 10 14; mkBlockRange 5 9; mkBlockRange 0 4] /\
    Scripted.accepts (workers l') = [] /\
    calls l' = calls s2_initialized ++
      [callGetNextRange (Some (mkBlockRange 0 4)); callAsyncRequest (mkBlockRange 0 4) true;
       callOnStartedNewWorker (mkBlockRange 0 4);
       callGetNextRange (Some (mkBlockRange 5 9)); callAsyncRequest (mkBlockRange 5 9) true;
       callOnStartedNewWorker (mkBlockRange 5 9);
       callGetNextRange (Some (mkBlockRange 10 14)); callAsyncRequest (mkBlockRange 10 14) true;
       callOnStartedNewWorker (mkBlockRange 10 14);
       callGetNextRange None].
Proof.
  assert (Hchunk : chunkSizeIsPositive (syncStatus s2_initialized))
    by (vm_compute; discriminate).
  split; [exact Hchunk|].
  destruct (launchWork_dispatches_until_none_or_rejected
              chunkSizeIsPositive rangesLeft
              SpecRun.chunkSizeIsPositive_getNextRange
              SpecRun.chunkSizeIsPositive_onStartedNewWorker
              SpecRun.rangesLeft_decreases s2_initialized Hchunk)
    as ((n & l' & Hrun) & _).
  vm_compute in Hrun. inversion Hrun; subst n l'; clear Hrun.
  eexists. split; [vm_compute; reflexivity|].
  split; [reflexivity|]. split; reflexivity.
Defined.

End ExampleFacts.

(** ** More on [batchResources.sub] *)

Module SequencerFacts.

Import Sequencer.

Section Sub.

Variable ZKCounters : Type.

Variable ZKCounters_Sub : ZKCounters -> ZKCounters -> ZKCounters * option error.

Variable ErrBatchRemainingResourcesUnderflow : error.

Local Abbreviation sub :=
  (Sequencer.sub ZKCounters_Sub ErrBatchRemainingResourcesUnderflow).

(** X1. The error of [r.sub(other)] tells which resource ran short.  When
    the bytes do not suffice, the message is the sentinel's followed by
    [". Resource: Bytes"], and the receiver is left as a whole as it was: the
    counters are not touched.  When the bytes suffice and the counters'
    [Sub] fails, the message is the sentinel's, [". "] and the message of
    that failure; the receiver then holds the counters as [Sub] left them
    (only the bytes are put back).  Without error the counters are those
    [Sub] left. *)
Theorem sub_error_names_the_resource (r other : batchResources ZKCounters) :
  let counters := ZKCounters_Sub (zKCounters r) (zKCounters other) in
  match sub r other with
  | (r', Some e) =>
      if (bytes other >? bytes r)%Z
      then r' = r /\
           error_Error e =
             (error_Error ErrBatchRemainingResourcesUnderflow ++ ". Resource: Bytes")%string
      else exists e0,
             snd counters = Some e0 /\
             zKCounters r' = fst counters /\
             error_Error e =
               (error_Error ErrBatchRemainingResourcesUnderflow ++ ". " ++ error_Error e0)%string
  | (r', None) =>
      (bytes other >? bytes r)%Z = false /\
      snd counters = None /\ zKCounters r' = fst counters
  end.
Proof.
  intros counters. subst counters. unfold Sequencer.sub.
  destruct (bytes other >? bytes r)%Z eqn:Hgt.
  - split; reflexivity.
  - cbn [zKCounters bytes].
    destruct (ZKCounters_Sub (zKCounters r) (zKCounters other)) as [zk [e0|]];
      cbn [zKCounters bytes fst snd].
    + exists e0. repeat split; reflexivity.
    + repeat split; reflexivity.
Qed.

(** X2. The bytes of a batch never grow and never wrap around: after
    [r.sub(a)] and then [r.sub(b)], whatever the two calls return, the bytes
    are between 0 and what they were; when both calls return nil the bytes
    have gone down by [a.bytes + b.bytes]; and when [a.bytes + b.bytes]
    exceeds the bytes of [r], one of the two calls returns an error. *)
Theorem sub_twice_never_overdraws (r a b : batchResources ZKCounters) :
  isUint64 (bytes r) -> isUint64 (bytes a) -> isUint64 (bytes b) ->
  let first := sub r a in
  let second := sub (fst first) b in
  (0 <= bytes (fst second) <= bytes (fst first))%Z /\
  (bytes (fst first) <= bytes r)%Z /\
  (snd first = None -> snd second = None ->
   bytes (fst second) = (bytes r - (bytes a + bytes b))%Z) /\
  ((bytes a + bytes b > bytes r)%Z -> snd first <> None \/ snd second <> None).
Proof.
  intros Hr Ha Hb first second.
  assert (Hstep : forall x y : batchResources ZKCounters,
             isUint64 (bytes x) -> isUint64 (bytes y) ->
             match sub x y with
             | (x', Some _) => bytes x' = bytes x
             | (x', None) => bytes x' = (bytes x - bytes y)%Z /\ (bytes y <= bytes x)%Z
             end).
  { intros x y Hx Hy. unfold Sequencer.sub.
    destruct (bytes y >? bytes x)%Z eqn:Hgt; [reflexivity|].
    assert (Hle : (bytes y <= bytes x)%Z).
    { rewrite Z.gtb_ltb in Hgt. apply Z.ltb_ge in Hgt. exact Hgt. }
    cbn [zKCounters bytes].
    destruct (ZKCounters_Sub (zKCounters x) (zKCounters y)) as [zk [e0|]];
      cbn [zKCounters bytes]; [reflexivity|].
    split; [apply wrapUint64_sub_small; assumption | exact Hle]. }
  pose proof (Hstep r a Hr Ha) as H1.
  assert (Hr1 : isUint64 (bytes (fst first))).
  { subst first. destruct (sub r a) as [r1 [e1|]]; cbn [fst].
    - rewrite H1. exact Hr.
    - destruct H1 as (-> & Hle). unfold isUint64 in *. lia. }
  pose proof (Hstep (fst first) b Hr1 Hb) as H2.
  subst second. subst first.
  destruct (sub r a) as [r1 [e1|]]; cbn [fst snd] in *;
    destruct (sub r1 b) as [r2 [e2|]]; cbn [fst snd] in *;
    unfold isUint64 in *.
  - repeat split; try lia; try discriminate. left. discriminate.
  - repeat split; try lia; try discriminate. left. discriminate.
  - repeat split; try lia; try discriminate. right. discriminate.
  - destruct H1 as (H1 & Hle1). destruct H2 as (H2 & Hle2).
    repeat split; try lia.
Qed.

End Sub.

End SequencerFacts.

(** ** More on the producer, for every instance of its interfaces *)

Module LoopFacts.

Import Synchronizer.

Import Traces.

Import ProducerFacts.

Section Generic.

Variables RollupInfo Etherman : Type.

Context {W S F St : Type}.

Context {workersOps : workersInterface Etherman W}.

Context {syncStatusOps : syncStatusInterface S}.

Context {filterOps : filter RollupInfo F}.

Context {statisticsOps : statisticsInterface St}.

Variable clock : nat -> Time.

Local Abbreviation producer :=
  (l1RollupInfoProducer RollupInfo (W:=W) (S:=S) (F:=F) (St:=St)).

Local Abbreviation message := (l1SyncMessage RollupInfo).

Local Abbreviation calls_t := (list (call RollupInfo)).

(** *** [verify] *)

Lemma verify_unfold (allowModify : bool) (l : producer) :
  verify allowModify l =
  let wv := workers_verify (workers l) allowModify in
  let l1 := set_calls (calls l ++ [callWorkersVerify allowModify (fst wv)])
              (set_workers (snd wv) l) in
  match fst wv with
  | Some e => Ok (Some e) l1
  | None =>
      let sv := syncStatus_verify (syncStatus l) allowModify in
      Ok (fst sv)
         (set_calls (calls l1 ++ [callSyncStatusVerify allowModify (fst sv)])
            (set_syncStatus (snd sv) l1))
  end.
Proof.
  unfold verify, bind, get, modify, record, ret.
  destruct (workers_verify (workers l) allowModify) as [[e|] w]; cbn; [reflexivity|].
  destruct (syncStatus_verify (syncStatus l) allowModify) as [[e|] s]; reflexivity.
Qed.

Lemma verify_Ok (allowModify : bool) (l : producer) :
  exists e l', verify allowModify l = Ok e l'.
Proof.
  rewrite verify_unfold. cbv zeta.
  destruct (fst (workers_verify (workers l) allowModify)); eexists _, _; reflexivity.
Qed.

(** X4. [verify] asks the workers first and the sync status only when the
    workers have no complaint: it returns the workers' error if there is
    one, else what the sync status returns, so it returns nil exactly when
    both checks pass.  Both are called with the caller's [allowModify]; the
    channel, the filter and the clock are not touched. *)
Theorem verify_returns_first_error (allowModify : bool) (l : producer) :
  let wv := workers_verify (workers l) allowModify in
  let sv := syncStatus_verify (syncStatus l) allowModify in
  exists e l',
    verify allowModify l = Ok e l' /\
    e = match fst wv with Some we => Some we | None => fst sv end /\
    (e = None <-> fst wv = None /\ fst sv = None) /\
    workers l' = snd wv /\
    syncStatus l' = match fst wv with Some _ => syncStatus l | None => snd sv end /\
    calls l' = calls l ++ callWorkersVerify allowModify (fst wv) ::
                 match fst wv with
                 | Some _ => []
                 | None => [callSyncStatusVerify allowModify (fst sv)]
                 end /\
    outgoingChannel l' = outgoingChannel l /\
    filterToSendOrdererResultsToConsumer l' = filterToSendOrdererResultsToConsumer l /\
    clockReads l' = clockReads l /\
    logs l' = logs l.
Proof.
  intros wv sv. rewrite verify_unfold. fold wv. fold sv. cbv zeta.
  destruct (fst wv) as [we|] eqn:Hwv.
  - eexists _, _. split; [reflexivity|]. cbn.
    repeat split; try reflexivity; try discriminate.
    intros (Habs & _). discriminate Habs.
  - eexists _, _. split; [reflexivity|]. cbn.
    repeat split; try reflexivity; try tauto.
    rewrite <- app_assoc. reflexivity.
Qed.

(** *** [newL1DataRetriever] *)

Lemma newL1DataRetriever_unfold
  (ethermans : list Etherman) (startingBlockNumber SyncChunkSize : N)
  (outgoingCap : nat) (renewLastBlockOnL1 : bool) :
  newL1DataRetriever ethermans startingBlockNumber SyncChunkSize outgoingCap
    renewLastBlockOnL1 =
  let wv := workers_verify (newWorkers ethermans) false in
  let sv := syncStatus_verify
              (newSyncStatus startingBlockNumber SyncChunkSize ttlOfLastBlockDefault) false in
  let warn := capacityWarning outgoingCap (List.length ethermans) in
  let made (s : S) (cs : calls_t) (ls : list logEntry) : producer :=
    mkProducer (snd wv) s (mkChannel outgoingCap []) zeroTime ttlOfLastBlockDefault
      (newFilterToSendOrdererResultsToConsumer startingBlockNumber)
      (newRollupInfoProducerStatistics startingBlockNumber) O cs ls in
  match fst wv with
  | Some e =>
      Fatal e (made (newSyncStatus startingBlockNumber SyncChunkSize ttlOfLastBlockDefault)
                 [callWorkersVerify false (Some e)] (warn ++ [fatalLine e]))
  | None =>
      match fst sv with
      | Some e =>
          Fatal e (made (snd sv)
                     [callWorkersVerify false None; callSyncStatusVerify false (Some e)]
                     (warn ++ [fatalLine e]))
      | None =>
          Ok tt (made (snd sv)
                   [callWorkersVerify false None; callSyncStatusVerify false None] warn)
      end
  end.
Proof.
  unfold newL1DataRetriever. cbv zeta.
  replace (if negb renewLastBlockOnL1 then ttlOfLastBlockDefault else ttlOfLastBlockDefault)
    with ttlOfLastBlockDefault by (destruct renewLastBlockOnL1; reflexivity).
  unfold bind. rewrite verify_unfold. cbv zeta.
  cbn [workers syncStatus calls].
  destruct (workers_verify (newWorkers ethermans) false) as [[we|] w]; cbn [fst snd];
    [reflexivity|].
  destruct (syncStatus_verify
              (newSyncStatus startingBlockNumber SyncChunkSize ttlOfLastBlockDefault) false)
    as [[se|] s]; reflexivity.
Qed.

(** X5. [newL1DataRetriever] ends in [log.Fatal] exactly when [verify(false)]
    finds an error, in the workers or else in the sync status, and that error
    is the one it dies with.  Otherwise it returns a producer that holds the
    checked workers and sync status, the channel it was given with nothing
    sent on it, the zero time as [timeLastBLockOnL1], and a filter and
    statistics that start at the starting block; the clock has not been
    read.  A channel with less capacity than there are L1 clients costs a
    warning in the log and nothing else. *)
Theorem newL1DataRetriever_fatal_iff_verify_fails
  (ethermans : list Etherman) (startingBlockNumber SyncChunkSize : N)
  (outgoingCap : nat) (renewLastBlockOnL1 : bool) :
  let wv := workers_verify (newWorkers ethermans) false in
  let sv := syncStatus_verify
              (newSyncStatus startingBlockNumber SyncChunkSize ttlOfLastBlockDefault) false in
  let warn := capacityWarning outgoingCap (List.length ethermans) in
  match newL1DataRetriever ethermans startingBlockNumber SyncChunkSize outgoingCap
          renewLastBlockOnL1 with
  | Ok _ l =>
      fst wv = None /\ fst sv = None /\
      workers l = snd wv /\ syncStatus l = snd sv /\
      outgoingChannel l = mkChannel outgoingCap [] /\
      timeLastBLockOnL1 l = zeroTime /\
      filterToSendOrdererResultsToConsumer l =
        newFilterToSendOrdererResultsToConsumer startingBlockNumber /\
      statistics l = newRollupInfoProducerStatistics startingBlockNumber /\
      clockReads l = O /\
      logs l = warn
  | Fatal e l =>
      (fst wv = Some e \/ fst wv = None /\ fst sv = Some e) /\
      logs l = warn ++ [fatalLine e] /\
      chanSent (outgoingChannel l) = []
  | OutOfFuel => False
  end.
Proof.
  intros wv sv warn. subst wv sv warn.
  rewrite newL1DataRetriever_unfold. cbv zeta.
  destruct (fst (workers_verify (newWorkers ethermans) false)) as [we|].
  - cbn. split; [left; reflexivity|]. split; reflexivity.
  - destruct (fst (syncStatus_verify
                     (newSyncStatus startingBlockNumber SyncChunkSize ttlOfLastBlockDefault)
                     false)) as [se|]; cbn.
    + split; [right; split; reflexivity|]. split; reflexivity.
    + repeat split; reflexivity.
Qed.

(** *** [initialize] *)

Lemma initialize_unfold (l : producer) :
  initialize clock l =
  match verify true l with
  | Ok (Some e) l1 => Fatal e (set_logs (logs l1 ++ [fatalLine e]) l1)
  | Ok None l1 =>
      let wi := workers_initialize (workers l1) in
      let l2 := set_calls (calls l1 ++ [callWorkersInitialize (fst wi)])
                  (set_workers (snd wi) l1) in
      match fst wi with
      | Some e => Fatal e (set_logs (logs l2 ++ [fatalLine e]) l2)
      | None =>
          let l3 := set_clockReads (Datatypes.S (clockReads l2)) l2 in
          if needToRenewLastBlockOnL1 (syncStatus l1) (clock (clockReads l1)) then
            let l4 := set_logs (logs l3 ++ [(logInfo, "producer: Need a initial value for Last Block On L1, doing the request (maxRetries:%v, timeRequest:%v)"%string)]) l3 in
            let q := headRequest l4 in
            let l5 := set_calls (calls l4 ++
                                 [callRequestLastBlock timeRequestInitialValueOfLastBlock
                                    maxRetriesForRequestnitialValueOfLastBlock (fst q)])
                        (set_workers (snd q) l4) in
            match err (fst q) with
            | Some e => Ok (Some e) (set_logs (logs l5 ++ [(logError, "%v"%string)]) l5)
            | None => Ok None (afterNewLastBlock clock (block (result (fst q))) l5)
            end
          else Ok None l3
      end
  | Fatal e l1 => Fatal e l1
  | OutOfFuel => OutOfFuel
  end.
Proof.
  unfold initialize. unfold bind at 1.
  destruct (verify true l) as [[ve|] l1|e l1|]; try reflexivity.
  destruct l1 as [w s ch tl ttl f st n cs ls].
  unfold headRequest. unfold_monad.
  destruct (workers_initialize w) as [[ie|] w2]; unfold_monad; [reflexivity|].
  destruct (needToRenewLastBlockOnL1 s (clock n)); unfold_monad; [|reflexivity].
  destruct (requestLastBlockWithRetries w2 timeRequestInitialValueOfLastBlock
              maxRetriesForRequestnitialValueOfLastBlock) as [q w3].
  unfold_monad. destruct (err q) as [qe|]; [reflexivity|].
  rewrite onNewLastBlock_unfold. reflexivity.
Qed.

(** X6. [initialize] ends in [log.Fatal] exactly when [verify(true)] or the
    initialization of the workers returns an error, and it dies with that
    error; it does so before it reads the clock or asks for the head, and
    after a failed [verify] the workers are not initialized at all.  In all
    other cases [initialize] returns. *)
Theorem initialize_fatal_on_failed_checks (l : producer) :
  exists ev l1,
    verify true l = Ok ev l1 /\
    match ev with
    | Some e =>
        initialize clock l = Fatal e (set_logs (logs l1 ++ [fatalLine e]) l1)
    | None =>
        let wi := workers_initialize (workers l1) in
        match fst wi with
        | Some e =>
            initialize clock l =
              Fatal e
                (set_logs (logs l1 ++ [fatalLine e])
                   (set_calls (calls l1 ++ [callWorkersInitialize (Some e)])
                      (set_workers (snd wi) l1)))
        | None =>
            exists ie l', initialize clock l = Ok ie l'
        end
    end.
Proof.
  rewrite initialize_unfold.
  destruct (verify_Ok true l) as (ev & l1 & Hv).
  rewrite Hv. exists ev, l1. split; [reflexivity|].
  destruct ev as [e|]; [reflexivity|]. cbv zeta.
  destruct (fst (workers_initialize (workers l1))) as [e|]; [reflexivity|].
  destruct (needToRenewLastBlockOnL1 (syncStatus l1) (clock (clockReads l1)));
    [|eexists _, _; reflexivity].
  match goal with
  | |- context [err ?q] => destruct (err q)
  end; eexists _, _; reflexivity.
Qed.

(** X7. When both checks pass, the workers initialize and the sync status
    does not need a new last block, [initialize] returns nil after one
    reading of the clock: it asks no head, tells the sync status nothing and
    leaves [timeLastBLockOnL1] and the channel as they are. *)
Theorem initialize_without_renewal_asks_no_head (l l1 : producer) (w2 : W) :
  verify true l = Ok None l1 ->
  workers_initialize (workers l1) = (None, w2) ->
  needToRenewLastBlockOnL1 (syncStatus l1) (clock (clockReads l1)) = false ->
  exists l',
    initialize clock l = Ok None l' /\
    calls l' = calls l1 ++ [callWorkersInitialize None] /\
    headRequests (calls l') = headRequests (calls l) /\
    workers l' = w2 /\
    syncStatus l' = syncStatus l1 /\
    timeLastBLockOnL1 l' = timeLastBLockOnL1 l /\
    outgoingChannel l' = outgoingChannel l /\
    clockReads l' = Datatypes.S (clockReads l) /\
    logs l' = logs l.
Proof.
  intros Hverify Hinit Hneed.
  rewrite initialize_unfold, Hverify. cbv zeta. rewrite Hinit. cbn [fst snd].
  rewrite Hneed. eexists. split; [reflexivity|].
  clear Hinit Hneed. rewrite verify_unfold in Hverify. cbv zeta in Hverify.
  destruct l as [w s ch tl ttl f st n cs ls]. unfold_setters.
  destruct (workers_verify w true) as [[we|] w1]; unfold_setters;
    [discriminate Hverify|].
  destruct (syncStatus_verify s true) as [se s1]; unfold_setters.
  inversion Hverify; subst se l1; clear Hverify. unfold_setters.
  repeat split; try reflexivity.
  unfold headRequests. rewrite <- !app_assoc, !flat_map_app. cbn.
  rewrite app_nil_r. reflexivity.
Qed.

Lemma initialize_trace (l : producer) :
  match initialize clock l with
  | Ok _ l' | Fatal _ l' =>
      exists t,
        calls l' = calls l ++ t /\
        forallb (@isSetupCall RollupInfo) t = true /\
        (List.length (headRequests t) <= 1)%nat /\
        rangeRequests t = [] /\
        sends t = [] /\
        outgoingChannel l' = outgoingChannel l /\
        filterToSendOrdererResultsToConsumer l' = filterToSendOrdererResultsToConsumer l /\
        ttlOfLastBlockOnL1 l' = ttlOfLastBlockOnL1 l
  | OutOfFuel => False
  end.
Proof.
  rewrite initialize_unfold, verify_unfold. cbv zeta.
  destruct l as [w s ch tl ttl f st n cs ls]. unfold headRequest, afterNewLastBlock.
  unfold_setters.
  destruct (workers_verify w true) as [[we|] w1]; unfold_setters.
  { eexists. split; [reflexivity|]. cbn. repeat split; auto. }
  destruct (syncStatus_verify s true) as [[se|] s1]; unfold_setters.
  { eexists. split; [rewrite <- app_assoc; reflexivity|]. cbn. repeat split; auto. }
  destruct (workers_initialize w1) as [[ie|] w2]; unfold_setters.
  { eexists. split; [rewrite <- !app_assoc; reflexivity|]. cbn. repeat split; auto. }
  destruct (needToRenewLastBlockOnL1 s1 (clock n)); unfold_setters.
  - destruct (requestLastBlockWithRetries w2 timeRequestInitialValueOfLastBlock
                maxRetriesForRequestnitialValueOfLastBlock) as [q w3].
    unfold_setters. destruct (err q) as [qe|]; unfold_setters.
    + eexists. split; [rewrite <- !app_assoc; reflexivity|]. cbn. repeat split; auto.
    + destruct (onNewLastBlockOnL1 s1 (clock (Datatypes.S n)) (block (result q)))
        as [resp s2].
      unfold_setters.
      eexists. split; [rewrite <- !app_assoc; reflexivity|]. cbn. repeat split; auto.
  - eexists. split; [rewrite <- !app_assoc; reflexivity|]. cbn. repeat split; auto.
Qed.

(** X8. Whatever it returns with, [initialize] has only set up: the calls it
    has made are the two checks, the initialization of the workers, at most
    one head request and the head told to the sync status.  It asks the sync
    status for no range, hands no range to the pool, does not call the
    filter and sends nothing; the channel, the filter and the TTL are as
    they were.  It has no loop to run out of fuel in. *)
Theorem initialize_only_sets_up (l : producer) :
  match initialize clock l with
  | Ok _ l' | Fatal _ l' =>
      exists t,
        calls l' = calls l ++ t /\
        forallb (@isSetupCall RollupInfo) t = true /\
        (List.length (headRequests t) <= 1)%nat /\
        rangeRequests t = [] /\
        sends t = [] /\
        outgoingChannel l' = outgoingChannel l /\
        filterToSendOrdererResultsToConsumer l' = filterToSendOrdererResultsToConsumer l /\
        ttlOfLastBlockOnL1 l' = ttlOfLastBlockOnL1 l
  | OutOfFuel => False
  end.
Proof. exact (initialize_trace l). Qed.

(** X9. Nothing reaches the consumer before [start]: when the producer has
    been built by [newL1DataRetriever] and [initialize] has returned, with
    an error or without, nothing has been sent on the outgoing channel, no
    range has been handed to the pool, the filter is the one made for the
    starting block, and the TTL is the default. *)
Theorem nothing_is_sent_before_start
  (ethermans : list Etherman) (startingBlockNumber SyncChunkSize : N)
  (outgoingCap : nat) (renewLastBlockOnL1 : bool)
  (l0 : producer) (e : option error) (l1 : producer) :
  newL1DataRetriever ethermans startingBlockNumber SyncChunkSize outgoingCap
    renewLastBlockOnL1 = Ok tt l0 ->
  initialize clock l0 = Ok e l1 ->
  outgoingChannel l1 = mkChannel outgoingCap [] /\
  sends (calls l1) = [] /\
  rangeRequests (calls l1) = [] /\
  forallb (@isSetupCall RollupInfo) (calls l1) = true /\
  filterToSendOrdererResultsToConsumer l1 =
    newFilterToSendOrdererResultsToConsumer startingBlockNumber /\
  ttlOfLastBlockOnL1 l1 = ttlOfLastBlockDefault.
Proof.
  intros Hnew Hinit.
  rewrite newL1DataRetriever_unfold in Hnew. cbv zeta in Hnew.
  destruct (fst (workers_verify (newWorkers ethermans) false)); [discriminate Hnew|].
  destruct (fst (syncStatus_verify
                   (newSyncStatus startingBlockNumber SyncChunkSize ttlOfLastBlockDefault)
                   false)); [discriminate Hnew|].
  inversion Hnew as [Hl0]; clear Hnew.
  pose proof (initialize_trace l0) as Htrace. rewrite Hinit in Htrace.
  destruct Htrace as (t & Hc & Hsetup & _ & Hreq & Hsends & Hch & Hf & Httl).
  rewrite Hch, Hf, Httl, Hc. subst l0. cbn [outgoingChannel calls
    filterToSendOrdererResultsToConsumer ttlOfLastBlockOnL1].
  unfold sends, rangeRequests in *. rewrite !flat_map_app, forallb_app.
  rewrite Hsends, Hreq, Hsetup. cbn. repeat split; reflexivity.
Qed.


(** *** [getNextTimeout] *)

Lemma wrapInt64_range (z : Z) : (minDuration <= wrapInt64 z <= maxDuration)%Z.
Proof.
  unfold wrapInt64, minDuration, maxDuration.
  pose proof (Z.mod_pos_bound (z + 2 ^ 63) (2 ^ 64) eq_refl). lia.
Qed.

Lemma getNextTimeout_wait (l : producer) :
  exists d l',
    getNextTimeout clock l = Ok d l' /\
    (Second <= d <= maxDuration)%Z /\
    l' = (if isSynchronized l then set_clockReads (Datatypes.S (clockReads l)) l else l).
Proof.
  rewrite getNextTimeout_unfold. unfold isSynchronized.
  destruct (getStatus (syncStatus l)); cbn [syncStatusEnum_eqb].
  1,2: eexists _, _; split; [reflexivity|]; split; [|reflexivity];
       unfold timeOutMainLoop, Minute, Second, Nanosecond, maxDuration; lia.
  eexists _, _. split; [reflexivity|]. split; [|reflexivity].
  unfold max.
  match goal with
  | |- context [Duration_add ?a ?b] =>
      pose proof (wrapInt64_range (a + b)) as Hr; unfold Duration_add;
      destruct (wrapInt64 (a + b) >? Second)%Z eqn:Hgt
  end.
  - apply Z.gtb_lt in Hgt. lia.
  - unfold Second, Nanosecond, maxDuration. lia.
Qed.

(** X10. [getNextTimeout] always returns, and never with less than one
    second, whichever of the three statuses the sync status has and whatever
    the times and the TTL are (a sum that overflows included), nor with more
    than a duration can hold.  It reads
    the clock once when the status is Synchronized and not at all
    otherwise; nothing else of the producer changes. *)
Theorem getNextTimeout_is_at_least_one_second (l : producer) :
  exists d l',
    getNextTimeout clock l = Ok d l' /\
    (Second <= d <= maxDuration)%Z /\
    (isSynchronized l = false -> d = timeOutMainLoop) /\
    clockReads l' = (if isSynchronized l then Datatypes.S (clockReads l) else clockReads l) /\
    calls l' = calls l /\ logs l' = logs l /\ viewOf l' = viewOf l /\
    workers l' = workers l /\ statistics l' = statistics l /\
    timeLastBLockOnL1 l' = timeLastBLockOnL1 l /\
    ttlOfLastBlockOnL1 l' = ttlOfLastBlockOnL1 l.
Proof.
  destruct (getNextTimeout_wait l) as (d & l' & Hrun & Hd & Hl).
  exists d, l'. split; [exact Hrun|]. split; [exact Hd|].
  split.
  { intros Hs. rewrite getNextTimeout_unfold in Hrun. unfold isSynchronized in Hs.
    destruct (getStatus (syncStatus l)); cbn in Hs; try discriminate Hs;
      inversion Hrun; reflexivity. }
  subst l'. destruct (isSynchronized l); cbn; repeat split; reflexivity.
Qed.

(** *** [step] *)

Lemma step_finish_wait (l : producer) (b : bool) (d : Duration) (l' : producer) :
  step_finish clock l = Ok (b, d) l' -> (Second <= d <= maxDuration)%Z.
Proof.
  destruct l as [w s ch tl ttl f st n cs ls].
  unfold step_finish. unfold_monad.
  destruct (time_Sub (clock n) (lastShowUpTime st) >? timeForShowUpStatisticsLog)%Z;
    unfold_monad;
    match goal with
    | |- context [getNextTimeout clock ?x] =>
        destruct (getNextTimeout_wait x) as (d0 & l0 & Hrun & Hd & _); rewrite Hrun
    end;
    intros Heq; inversion Heq; subst; exact Hd.
Qed.

(** X11. [step] returns false exactly when the case of the [select] that
    fired is the cancellation of the context; it has then done nothing else,
    and the wait is left as it was.  In every other case it returns true and
    sets the next wait to at least one second. *)
Theorem step_stops_only_on_cancellation
  (fuel : nat) (c : selectCase RollupInfo) (waitDuration : Duration) (l : producer)
  (b : bool) (d : Duration) (l' : producer) :
  step clock fuel c waitDuration l = Ok (b, d) l' ->
  (b = false <-> c = caseDone) /\
  (c = caseDone ->
   d = waitDuration /\ l' = set_calls (calls l ++ [callSelect caseDone]) l) /\
  (c <> caseDone -> (Second <= d <= maxDuration)%Z).
Proof.
  intros Hrun.
  assert (Hdec : c = caseDone \/ c <> caseDone)
    by (destruct c; [left; reflexivity | right; discriminate | right; discriminate]).
  destruct Hdec as [-> | Hc].
  - rewrite step_done in Hrun. inversion Hrun; subst.
    split; [tauto|]. split; [auto | congruence].
  - assert (Hfuel : step clock fuel c waitDuration l <> OutOfFuel) by congruence.
    destruct (step_spec clock fuel waitDuration l Hc Hfuel)
      as (l0 & l1 & d' & l2 & _ & _ & Hrest & Hstep).
    rewrite Hstep in Hrun. inversion Hrun; subst b d' l2; clear Hrun.
    split; [split; [discriminate | congruence]|].
    split; [congruence|]. intros _.
    unfold step_rest in Hrest. apply bind_Ok in Hrest.
    destruct Hrest as (n & l3 & _ & Hfin).
    eapply step_finish_wait. exact Hfin.
Qed.

(** *** [onResponseRollupInfo] *)

Lemma onResponseRollupInfo_unfold
  (r : genericResponse (responseRollupInfoByBlockRange RollupInfo)) (l : producer) :
  exists l',
    onResponseRollupInfo r l = Ok tt l' /\
    calls l' = calls l ++ responseCalls (caseResponse r)
                            (filterToSendOrdererResultsToConsumer l) /\
    logs l' = logs l ++ responseLog r (filterToSendOrdererResultsToConsumer l) /\
    statistics l' =
      match err r with
      | None => updateNumRollupInfoOk (statistics l) 1
                  (blockRange_len (response_blockRange (result r)))
      | Some _ => updateNumRollupInfoErrors (statistics l) 1
      end /\
    responseFrame l l'.
Proof.
  unfold onResponseRollupInfo, responseCalls, responseLog, responseFrame.
  destruct (err r) as [e|] eqn:Herr.
  - eexists. split; [reflexivity|]. cbn. repeat split; reflexivity.
  - unfold bind, modify, record, get. cbn.
    destruct (filter_filter (filterToSendOrdererResultsToConsumer l)
                (newL1SyncMessageData (result r))) as [released f] eqn:Hf.
    cbn. rewrite sendPackages_ok.
    eexists. split; [reflexivity|]. cbn.
    repeat split; try reflexivity.
    rewrite <- !app_assoc. reflexivity.
Qed.

Lemma responseCalls_no_requests (c : selectCase RollupInfo) (f : F) :
  rangeRequests (responseCalls c f) = [] /\ headRequests (responseCalls c f) = [].
Proof.
  unfold responseCalls. destruct c as [| |r]; [split; reflexivity..|].
  destruct (err r); [split; reflexivity|]. cbn.
  generalize (fst (filter_filter f (newL1SyncMessageData (result r)))).
  intros ms. split; induction ms as [|m ms IH]; cbn; auto.
Qed.


(** *** [launchWork] *)

Lemma dispatchTrace_requests (t : calls_t) (k : nat) :
  dispatchTrace t k ->
  List.length (rangeRequests t) = (k + if rejectedRequest t then 1 else 0)%nat /\
  sends t = [] /\ filterReleases t = [].
Proof.
  induction 1 as [|br|br t k Ht IH]; [cbn; auto..|].
  destruct IH as (IH & Hs & Hf).
  change (rangeRequests (callGetNextRange (Some br) :: callAsyncRequest br true
                           :: callOnStartedNewWorker br :: t))
    with (br :: rangeRequests t).
  change (rejectedRequest (callGetNextRange (Some br) :: callAsyncRequest br true
                             :: callOnStartedNewWorker br :: t))
    with (rejectedRequest t).
  cbn [List.length]. rewrite IH. cbn. auto.
Qed.

Lemma launchWork_loop_rejected (fuel : nat) :
  forall (n : Z) (l : producer) (r : Z * bool) (l' : producer),
    launchWork_loop fuel n l = Ok r l' ->
    exists t, calls l' = calls l ++ t /\ snd r = rejectedRequest t.
Proof.
  induction fuel as [|fuel IH]; intros n l r l' Hrun; [discriminate Hrun|].
  cbn [launchWork_loop] in Hrun. unfold bind, get, modify, record, ret in Hrun.
  destruct (getNextRange (syncStatus l)) as [[br|] s] eqn:Hnext; cbn in Hrun.
  - destruct (asyncRequestRollupInfoByBlockRange (workers l) br) as [[e|] w] eqn:Hreq;
      cbn in Hrun.
    + inversion Hrun; subst r l'; clear Hrun. cbn.
      exists [callGetNextRange (Some br); callAsyncRequest br false].
      rewrite <- app_assoc. split; reflexivity.
    + destruct (IH _ _ _ _ Hrun) as (t & Hc & Hr). cbn in Hc.
      exists (callGetNextRange (Some br) :: callAsyncRequest br true
                :: callOnStartedNewWorker br :: t).
      split; [rewrite Hc, <- !app_assoc; reflexivity|].
      rewrite Hr. reflexivity.
  - inversion Hrun; subst r l'; clear Hrun. cbn.
    exists [callGetNextRange None]. split; reflexivity.
Qed.

(** X13. [launchWork] tells in the log what it has done: a debug line
    exactly when it returns 0, a warning exactly when the pool has turned a
    range down.  Every range it gets from the sync status goes to the pool
    once: the ranges handed to the pool are those recorded as started and,
    after a rejection, one more.  [launchWork] sends nothing, does not call
    the filter, does not read the clock, and leaves the channel, the filter,
    the timestamp of the last block, the TTL and the statistics as they
    are. *)
Theorem launchWork_reports_what_it_launched
  (fuel : nat) (l : producer) (n : Z) (l' : producer) :
  launchWork fuel l = Ok n l' ->
  exists t k,
    calls l' = calls l ++ t /\
    dispatchTrace t k /\
    n = wrapInt64 (Z.of_nat k) /\
    List.length (rangeRequests t) = (k + if rejectedRequest t then 1 else 0)%nat /\
    logs l' = logs l ++ launchWorkLog n (rejectedRequest t) /\
    sends t = [] /\ filterReleases t = [] /\
    outgoingChannel l' = outgoingChannel l /\
    filterToSendOrdererResultsToConsumer l' = filterToSendOrdererResultsToConsumer l /\
    timeLastBLockOnL1 l' = timeLastBLockOnL1 l /\
    ttlOfLastBlockOnL1 l' = ttlOfLastBlockOnL1 l /\
    statistics l' = statistics l /\
    clockReads l' = clockReads l.
Proof.
  intros Hrun.
  destruct (launchWork_calls _ _ Hrun) as (t & k & Hc & Ht & Hseg & Hn & Hf).
  exists t, k. split; [exact Hc|]. split; [exact Ht|]. split; [exact Hn|].
  destruct (dispatchTrace_requests Ht) as (Hreq & Hs & Hr).
  split; [exact Hreq|].
  assert (Hq : segments (@quietBlock RollupInfo S F _) t (viewOf l) (viewOf l'))
    by (eapply segments_mono; [apply tail_is_quiet | exact Hseg]).
  destruct (quiet_segments_frame Hq) as (Hfilter & Hsent & _).
  unfold viewOf in Hfilter, Hsent. cbn [fst snd] in Hfilter, Hsent.
  destruct Hf as (Hcap & Htl & Httl & Hst & Hclock).
  split.
  { unfold launchWork, bind in Hrun.
    destruct (launchWork_loop fuel 0 l) as [[n0 b] l1| |] eqn:Hloop; try discriminate.
    destruct (launchWork_loop_calls _ _ _ Hloop) as (t1 & k1 & Hc1 & _ & _ & _ & Hl1 & _).
    destruct (launchWork_loop_rejected _ _ _ Hloop) as (t2 & Hc2 & Hb). cbn [snd] in Hb.
    assert (Hcalls : calls l' = calls l1 /\ n = n0 /\
                     logs l' = logs l1 ++ launchWorkLog n0 b).
    { unfold launchWorkLog.
      destruct (n0 =? 0)%Z, b; cbn in Hrun; inversion Hrun; subst; cbn;
        rewrite <- ?app_assoc, ?app_nil_r; repeat split; reflexivity. }
    destruct Hcalls as (Hc' & -> & Hl').
    assert (t2 = t).
    { rewrite Hc', Hc2 in Hc. apply app_inv_head in Hc. exact Hc. }
    subst t2. rewrite Hl', Hl1, Hb. reflexivity. }
  split; [exact Hs|]. split; [exact Hr|].
  split.
  { destruct (outgoingChannel l') as [cap' sent'], (outgoingChannel l) as [cap sent].
    cbn in *. congruence. }
  auto.
Qed.

(** *** [onNewLastBlock] *)

Lemma channel_eq (c c' : channel RollupInfo) :
  chanCap c' = chanCap c -> chanSent c' = chanSent c -> c' = c.
Proof. destruct c, c'; cbn; congruence. Qed.

Lemma tail_segments_frame (t : calls_t) (l l' : producer) :
  segments (@tailBlock RollupInfo S F _) t (viewOf l) (viewOf l') ->
  filterToSendOrdererResultsToConsumer l' = filterToSendOrdererResultsToConsumer l /\
  chanSent (outgoingChannel l') = chanSent (outgoingChannel l) /\
  sends t = [].
Proof.
  intros Hseg.
  assert (Hq : segments (@quietBlock RollupInfo S F _) t (viewOf l) (viewOf l'))
    by (eapply segments_mono; [apply tail_is_quiet | exact Hseg]).
  destruct (quiet_segments_frame Hq) as (Hfilter & Hsent & Hs).
  unfold viewOf in Hfilter, Hsent. cbn [fst snd] in Hfilter, Hsent. auto.
Qed.

(** X14. [onNewLastBlock] tells the sync status the block at the first
    reading of the clock and returns the sync status's answer; it puts the
    block that answer ends at into the statistics, and it sets
    [timeLastBLockOnL1] to the second reading of the clock, whether the head
    has moved or not.  Only with [launchWork] set does it run the dispatch
    loop, after all that; without, it makes no other call.  The channel, the
    filter and the TTL stay as they are. *)
Theorem onNewLastBlock_restarts_the_ttl
  (fuel : nat) (lastBlock : N) (launch : bool) (l : producer)
  (resp : onNewLastBlockResponse) (l' : producer) :
  onNewLastBlock clock fuel lastBlock launch l = Ok resp l' ->
  let now := clock (clockReads l) in
  let told := onNewLastBlockOnL1 (syncStatus l) now lastBlock in
  resp = fst told /\
  timeLastBLockOnL1 l' = clock (Datatypes.S (clockReads l)) /\
  clockReads l' = Datatypes.S (Datatypes.S (clockReads l)) /\
  statistics l' = updateLastBlockNumber (statistics l) (toBlock (fullRange resp)) /\
  outgoingChannel l' = outgoingChannel l /\
  filterToSendOrdererResultsToConsumer l' = filterToSendOrdererResultsToConsumer l /\
  ttlOfLastBlockOnL1 l' = ttlOfLastBlockOnL1 l /\
  exists dispatch,
    calls l' = calls l ++ callOnNewLastBlockOnL1 now lastBlock :: dispatch /\
    if launch
    then exists k, dispatchTrace dispatch k
    else dispatch = [] /\ syncStatus l' = snd told /\ workers l' = workers l.
Proof.
  intros Hrun now told. subst now told.
  rewrite onNewLastBlock_unfold in Hrun. cbv zeta in Hrun.
  assert (Hafter : forall l1, l1 = afterNewLastBlock clock lastBlock l ->
            timeLastBLockOnL1 l1 = clock (Datatypes.S (clockReads l)) /\
            clockReads l1 = Datatypes.S (Datatypes.S (clockReads l)) /\
            statistics l1 =
              updateLastBlockNumber (statistics l)
                (toBlock (fullRange (fst (onNewLastBlockOnL1 (syncStatus l)
                                            (clock (clockReads l)) lastBlock)))) /\
            outgoingChannel l1 = outgoingChannel l /\
            filterToSendOrdererResultsToConsumer l1 =
              filterToSendOrdererResultsToConsumer l /\
            ttlOfLastBlockOnL1 l1 = ttlOfLastBlockOnL1 l /\
            calls l1 = calls l ++ [callOnNewLastBlockOnL1 (clock (clockReads l)) lastBlock] /\
            syncStatus l1 =
              snd (onNewLastBlockOnL1 (syncStatus l) (clock (clockReads l)) lastBlock) /\
            workers l1 = workers l).
  { intros l1 ->. unfold afterNewLastBlock.
    destruct (onNewLastBlockOnL1 (syncStatus l) (clock (clockReads l)) lastBlock)
      as [resp0 s0].
    cbn. repeat split; reflexivity. }
  destruct launch.
  - destruct (launchWork fuel (afterNewLastBlock clock lastBlock l))
      as [n l1|e l1|] eqn:Hlw; try discriminate.
    inversion Hrun; subst resp l1; clear Hrun.
    destruct (launchWork_calls _ _ Hlw) as (t & k & Hc & Ht & Hseg & _ & Hf).
    destruct (tail_segments_frame Hseg) as (Hfilter & Hsent & _).
    destruct Hf as (Hcap & Htl & Httl & Hst & Hclock).
    destruct (Hafter _ eq_refl) as (A1 & A2 & A3 & A4 & A5 & A6 & A7 & A8 & A9).
    split; [reflexivity|].
    split; [congruence|]. split; [congruence|]. split; [congruence|].
    split; [apply channel_eq; congruence|].
    split; [congruence|]. split; [congruence|].
    exists t. split; [rewrite Hc, A7, <- app_assoc; reflexivity|].
    exists k. exact Ht.
  - inversion Hrun; subst resp l'; clear Hrun.
    destruct (Hafter _ eq_refl) as (A1 & A2 & A3 & A4 & A5 & A6 & A7 & A8 & A9).
    repeat (split; [assumption || reflexivity|]).
    exists []. auto.
Qed.

(** *** [renewLastBlockOnL1IfNeeded] *)

(** X15. [renewLastBlockOnL1IfNeeded] asks the pool for the last block
    exactly when more than the TTL has gone by since [timeLastBLockOnL1] (a
    time equal to the TTL is not enough) or the caller forces it, and then
    once, with the timeout and the retries of the constants.  When it does
    not ask, it has read the clock and done nothing else.  When the request
    fails, it logs the error and changes nothing but the pool.  When the
    request succeeds, the block goes to the sync status, the timestamp is
    set anew and the dispatch loop runs, all within the call.  It never ends
    in [log.Fatal], and only the dispatch loop can run out of fuel. *)
Theorem renewLastBlockOnL1IfNeeded_asks_when_stale_or_forced
  (fuel : nat) (forced : bool) (l : producer) :
  let elapsed := time_Sub (clock (clockReads l)) (timeLastBLockOnL1 l) in
  let asks := (ttlOfLastBlockOnL1 l <? elapsed)%Z || forced in
  let q := fst (headRequest l) in
  let request := callRequestLastBlock timeRequestInitialValueOfLastBlock
                   maxRetriesForRequestnitialValueOfLastBlock q in
  match renewLastBlockOnL1IfNeeded clock fuel forced l with
  | Ok _ l' =>
      headRequests (calls l') = headRequests (calls l) ++ (if asks then [q] else []) /\
      (asks = false -> l' = set_clockReads (Datatypes.S (clockReads l)) l) /\
      (asks = true -> err q <> None ->
       calls l' = calls l ++ [request] /\
       syncStatus l' = syncStatus l /\
       timeLastBLockOnL1 l' = timeLastBLockOnL1 l /\
       statistics l' = statistics l) /\
      (asks = true -> err q = None ->
       exists dispatch k,
         calls l' = calls l ++ request
                      :: callOnNewLastBlockOnL1 (clock (Datatypes.S (clockReads l)))
                           (block (result q))
                      :: dispatch /\
         dispatchTrace dispatch k /\
         timeLastBLockOnL1 l' = clock (Datatypes.S (Datatypes.S (clockReads l)))) /\
      outgoingChannel l' = outgoingChannel l /\
      filterToSendOrdererResultsToConsumer l' = filterToSendOrdererResultsToConsumer l /\
      ttlOfLastBlockOnL1 l' = ttlOfLastBlockOnL1 l
  | Fatal _ _ => False
  | OutOfFuel => asks = true /\ err q = None
  end.
Proof.
  intros elapsed asks q request.
  assert (Hasks : asks = lastBlockIsStale clock l || forced).
  { subst asks elapsed. unfold lastBlockIsStale. rewrite Z.gtb_ltb. reflexivity. }
  rewrite renewLastBlockOnL1IfNeeded_unfold. rewrite <- Hasks.
  assert (Hhead : calls (afterHeadRequest l) = calls l ++ [request] /\
                  syncStatus (afterHeadRequest l) = syncStatus l /\
                  timeLastBLockOnL1 (afterHeadRequest l) = timeLastBLockOnL1 l /\
                  statistics (afterHeadRequest l) = statistics l /\
                  outgoingChannel (afterHeadRequest l) = outgoingChannel l /\
                  filterToSendOrdererResultsToConsumer (afterHeadRequest l) =
                    filterToSendOrdererResultsToConsumer l /\
                  ttlOfLastBlockOnL1 (afterHeadRequest l) = ttlOfLastBlockOnL1 l /\
                  clockReads (afterHeadRequest l) = Datatypes.S (clockReads l))
    by (unfold afterHeadRequest; cbn; repeat split; reflexivity).
  destruct Hhead as (H1 & H2 & H3 & H4 & H5 & H6 & H7 & H8).
  destruct asks.
  - fold q. destruct (err q) as [e|] eqn:Herr.
    + cbn [calls syncStatus timeLastBLockOnL1 statistics outgoingChannel
           filterToSendOrdererResultsToConsumer ttlOfLastBlockOnL1 set_logs].
      split; [rewrite H1; unfold headRequests; rewrite flat_map_app; reflexivity|].
      split; [discriminate|].
      split; [intros _ _; auto|].
      split; [intros _ Habs; discriminate Habs|]. auto.
    + destruct (onNewLastBlock clock fuel (block (result q)) true (afterHeadRequest l))
        as [resp l'|e l'|] eqn:Hnew;
        [|exfalso; eapply onNewLastBlock_not_Fatal; eassumption|split; reflexivity].
      destruct (onNewLastBlock_spec _ _ _ _ _ Hnew) as ((t & Hc & Hseg) & Httl & Hh).
      destruct (tail_segments_frame Hseg) as (Hfilter & Hsent & _).
      rewrite onNewLastBlock_unfold in Hnew. cbv zeta in Hnew.
      destruct (launchWork fuel (afterNewLastBlock clock (block (result q))
                                   (afterHeadRequest l)))
        as [n l1|e l1|] eqn:Hlw; try discriminate.
      inversion Hnew; subst resp l1; clear Hnew.
      destruct (launchWork_calls _ _ Hlw) as (t' & k & Hc' & Ht' & _ & _ & Hf).
      destruct Hf as (Hcap & Htl & _).
      assert (Hafter : calls (afterNewLastBlock clock (block (result q)) (afterHeadRequest l))
                       = calls l ++ [request;
                           callOnNewLastBlockOnL1 (clock (Datatypes.S (clockReads l)))
                             (block (result q))] /\
                       timeLastBLockOnL1
                         (afterNewLastBlock clock (block (result q)) (afterHeadRequest l))
                       = clock (Datatypes.S (Datatypes.S (clockReads l))) /\
                       chanCap (outgoingChannel
                         (afterNewLastBlock clock (block (result q)) (afterHeadRequest l)))
                       = chanCap (outgoingChannel l)).
      { unfold afterNewLastBlock. rewrite H1, H2, H8.
        destruct (onNewLastBlockOnL1 (syncStatus l) (clock (Datatypes.S (clockReads l)))
                    (block (result q))) as [resp0 s0].
        cbn [calls timeLastBLockOnL1 outgoingChannel]. rewrite H5, <- app_assoc.
        repeat split; reflexivity. }
      destruct Hafter as (A1 & A2 & A3).
      split; [rewrite Hh, H1; unfold headRequests; rewrite flat_map_app; reflexivity|].
      split; [discriminate|].
      split; [intros _ Habs; congruence|].
      split.
      { intros _ _. exists t', k. split; [rewrite Hc', A1, <- app_assoc; reflexivity|].
        split; [exact Ht' | congruence]. }
      split; [apply channel_eq; congruence|].
      split; congruence.
  - cbn. rewrite app_nil_r. repeat split; try reflexivity; discriminate.
Qed.

(** *** The order of an iteration *)

Lemma step_select_calls (c : selectCase RollupInfo) (l l0 : producer) :
  step_select c l = Ok tt l0 ->
  calls l0 = calls l ++ callSelect c :: responseCalls c (filterToSendOrdererResultsToConsumer l).
Proof.
  destruct c as [| |r].
  1,2: intros Hrun; inversion Hrun; subst l0; reflexivity.
  unfold step_select, bind, record, modify. intros Hrun.
  match type of Hrun with
  | onResponseRollupInfo r ?x = _ =>
      destruct (onResponseRollupInfo_unfold r x) as (l1 & Hrun' & Hc & _)
  end.
  rewrite Hrun' in Hrun. inversion Hrun; subst l1; clear Hrun.
  rewrite Hc. cbn. rewrite <- app_assoc. reflexivity.
Qed.

Lemma sends_responseCalls (c : selectCase RollupInfo) (l : producer) :
  sends (responseCalls c (filterToSendOrdererResultsToConsumer l)) = forwardedFor c l.
Proof.
  unfold responseCalls, forwardedFor. destruct c as [| |r]; try reflexivity.
  destruct (err r); [reflexivity|]. cbn.
  apply (sends_map_callSend
           (fst (filter_filter (filterToSendOrdererResultsToConsumer l)
                   (newL1SyncMessageData (result r))))).
Qed.

(** X16. An iteration of the main loop that handles a timeout or a response
    makes its calls in this order: the [select]; for a response,
    [onFinishWorker], and for one without error the filter and the sends of
    what it releases; then the head refresh, with at most one head request;
    and last, always, one run of the dispatch loop.  So a range that a failed
    response has freed can go out again in the same iteration.  Only the
    handling of the response sends on the channel. *)
Theorem step_handles_the_case_then_dispatches
  (fuel : nat) (c : selectCase RollupInfo) (waitDuration : Duration) (l : producer)
  (b : bool) (d : Duration) (l' : producer) :
  c <> caseDone ->
  step clock fuel c waitDuration l = Ok (b, d) l' ->
  let handled := responseCalls c (filterToSendOrdererResultsToConsumer l) in
  exists refresh dispatch k,
    calls l' = calls l ++ callSelect c :: handled ++ refresh ++ dispatch /\
    dispatchTrace dispatch k /\
    (List.length (headRequests refresh) <= 1)%nat /\
    rangeRequests handled = [] /\ headRequests handled = [] /\
    headRequests dispatch = [] /\
    sends refresh = [] /\ sends dispatch = [] /\
    chanSent (outgoingChannel l') = chanSent (outgoingChannel l) ++ sends handled.
Proof.
  intros Hc Hrun handled. subst handled.
  assert (Hfuel : step clock fuel c waitDuration l <> OutOfFuel) by congruence.
  destruct (step_spec clock fuel waitDuration l Hc Hfuel)
    as (l0 & l1 & d' & l2 & Hsel & Hren & Hrest & Hstep).
  rewrite Hstep in Hrun. inversion Hrun; subst b d' l2; clear Hrun.
  pose proof (step_select_calls _ _ Hsel) as Hc0.
  destruct (step_renew_spec _ _ _ Hren) as ((t1 & Hc1 & Hseg1) & _ & Hh1).
  destruct (step_rest_spec _ _ _ Hrest) as (_ & _ & t2 & k & Hc2 & Ht2 & Hseg2).
  destruct (tail_segments_frame Hseg1) as (_ & _ & Hs1).
  destruct (tail_segments_frame Hseg2) as (_ & _ & Hs2).
  destruct (step_extends _ _ _ _ _ Hstep) as (_ & _ & Hsent & _).
  destruct (responseCalls_no_requests c (filterToSendOrdererResultsToConsumer l))
    as (Hr0 & Hh0).
  exists t1, t2, k.
  split; [rewrite Hc2, Hc1, Hc0, <- !app_assoc; reflexivity|].
  split; [exact Ht2|].
  split.
  { rewrite Hc1 in Hh1. unfold headRequests in Hh1. rewrite flat_map_app in Hh1.
    apply app_inv_head in Hh1. unfold headRequests. rewrite Hh1.
    destruct (isSynchronized l0 && lastBlockIsStale clock l0); cbn; auto. }
  split; [exact Hr0|]. split; [exact Hh0|].
  split; [eapply dispatchTrace_no_headRequests; exact Ht2|].
  split; [exact Hs1|]. split; [exact Hs2|].
  rewrite sends_responseCalls. exact Hsent.
Qed.

(** *** The main loop *)

Lemma step_not_Fatal (fuel : nat) (c : selectCase RollupInfo) (waitDuration : Duration)
  (l : producer) (e : error) (l' : producer) :
  step clock fuel c waitDuration l <> Fatal e l'.
Proof.
  assert (Hdec : c = caseDone \/ c <> caseDone)
    by (destruct c; [left; reflexivity | right; discriminate | right; discriminate]).
  destruct Hdec as [-> | Hc]; [rewrite step_done; discriminate|].
  rewrite (step_unfold clock fuel waitDuration l Hc).
  destruct (step_select_spec c l) as (l0 & bs & Hsel & _). rewrite Hsel.
  destruct (step_renew clock fuel l0) as [[] l1|e1 l1|] eqn:Hren; [| |discriminate].
  - apply step_rest_not_Fatal.
  - exfalso. eapply step_renew_not_Fatal. exact Hren.
Qed.

Lemma start_loop_not_Fatal (fuel : nat) (cases : list (selectCase RollupInfo)) :
  forall (waitDuration : Duration) (previous : syncStatusEnum) (l : producer)
         (e : error) (l' : producer),
    start_loop clock fuel cases waitDuration previous l <> Fatal e l'.
Proof.
  induction cases as [|c cases IH]; intros waitDuration previous l e l';
    [discriminate|].
  rewrite start_loop_cons.
  destruct (step clock fuel c waitDuration l) as [[[|] d] l1|e1 l1|] eqn:Hstep;
    [apply IH | discriminate | | discriminate].
  exfalso. eapply step_not_Fatal. exact Hstep.
Qed.

(** X17. Once the producer is initialized, nothing in its loop exits the
    process: with the three statuses of the enumeration neither [step] nor
    [start] ends in [log.Fatal], whatever the sync status, the pool and the
    filter do and however the responses, timeouts and head requests turn
    out.  Errors of the pool and of the L1 clients are logged and the loop
    goes on. *)
Theorem start_never_exits_the_process
  (fuel : nat) (cases : list (selectCase RollupInfo)) (c : selectCase RollupInfo)
  (waitDuration : Duration) (l : producer) :
  match start clock fuel cases l with
  | Fatal _ _ => False
  | _ => True
  end /\
  match step clock fuel c waitDuration l with
  | Fatal _ _ => False
  | _ => True
  end.
Proof.
  split.
  - rewrite start_unfold.
    destruct (start_loop clock fuel cases 0%Z (getStatus (syncStatus l)) l)
      as [[|] l1|e l1|] eqn:Hloop; try exact I.
    eapply start_loop_not_Fatal. exact Hloop.
  - destruct (step clock fuel c waitDuration l) as [r l1|e l1|] eqn:Hstep; try exact I.
    eapply step_not_Fatal. exact Hstep.
Qed.

(** X18. [start] only ever adds to the outgoing channel: what was on it
    stays, in place, and what it adds are the messages of its sends, in the
    order of the calls.  The data messages among them are the data messages
    the filter has released, one for one and in the order of their release:
    the producer drops, repeats and reorders none, for any filter.  The TTL
    is the one the producer was built with. *)
Theorem start_only_appends_to_the_channel
  (fuel : nat) (cases : list (selectCase RollupInfo)) (l : producer)
  (r : startResult) (l' : producer) :
  start clock fuel cases l = Ok r l' ->
  exists t,
    calls l' = calls l ++ t /\
    chanSent (outgoingChannel l') = chanSent (outgoingChannel l) ++ sends t /\
    dataMessages (sends t) = dataMessages (filterReleases t) /\
    ttlOfLastBlockOnL1 l' = ttlOfLastBlockOnL1 l.
Proof.
  intros Hrun.
  destruct (start_extends _ _ _ _ Hrun) as (t & Hc & Hseg).
  exists t. split; [exact Hc|].
  split; [exact (run_segments_sent Hseg)|].
  split; [exact (run_segments_data Hseg)|].
  rewrite start_unfold in Hrun.
  destruct (start_loop clock fuel cases 0%Z (getStatus (syncStatus l)) l)
    as [[|] l1|e l1|] eqn:Hloop; try discriminate;
    destruct (start_loop_extends _ _ _ _ _ _ Hloop) as (_ & Httl);
    inversion Hrun; subst; exact Httl.
Qed.

End Generic.

End LoopFacts.

(** ** More example runs *)

Module LoopExamples.

Import Synchronizer.

Import Examples.

Import Traces.

Import ProducerFacts.

Import LoopFacts.

(** A batch with 100 bytes left is charged 60 and then 50: the first call
    passes, the second fails, and 40 bytes are left. *)
Lemma sub_twice_never_overdraws_witness :
  isUint64 100 /\ isUint64 60 /\ isUint64 50 /\
  let first := Sequencer.sub Sequencer.gasCounter_Sub Sequencer.errUnderflow
                 (Sequencer.mkBatchResources 10%Z 100%Z)
                 (Sequencer.mkBatchResources 3%Z 60%Z) in
  let second := Sequencer.sub Sequencer.gasCounter_Sub Sequencer.errUnderflow
                  (fst first) (Sequencer.mkBatchResources 3%Z 50%Z) in
  snd first = None /\ snd second <> None /\ Sequencer.bytes (fst second) = 40%Z.
Proof.
  assert (H100 : isUint64 100) by (unfold isUint64; lia).
  assert (H60 : isUint64 60) by (unfold isUint64; lia).
  assert (H50 : isUint64 50) by (unfold isUint64; lia).
  split; [exact H100|]. split; [exact H60|]. split; [exact H50|].
  pose proof (SequencerFacts.sub_twice_never_overdraws Sequencer.gasCounter_Sub
                Sequencer.errUnderflow
                (Sequencer.mkBatchResources 10%Z 100%Z)
                (Sequencer.mkBatchResources 3%Z 60%Z)
                (Sequencer.mkBatchResources 3%Z 50%Z) H100 H60 H50) as H.
  cbv zeta in H. destruct H as (_ & _ & _ & Hover).
  cbv zeta. split; [vm_compute; reflexivity|].
  split; [|vm_compute; reflexivity].
  destruct (Hover ltac:(cbn; lia)) as [Habs | Hsecond]; [|exact Hsecond].
  exfalso. apply Habs. vm_compute. reflexivity.
Defined.

(** The synchronized producer two seconds after its head was seen: the
    checks pass, no new head is needed, and [initialize] returns nil without
    a head request. *)
Lemma initialize_without_renewal_asks_no_head_witness :
  exists l',
    initialize clockAt2s synchronizedProducer = Ok None l' /\
    headRequests (calls l') = [] /\
    timeLastBLockOnL1 l' = 0%Z.
Proof.
  assert (Hverify : verify true synchronizedProducer
                    = Ok None (stateOf (verify true synchronizedProducer)
                                 synchronizedProducer))
    by (vm_compute; reflexivity).
  assert (Hinit : workers_initialize
                    (workers (stateOf (verify true synchronizedProducer)
                                synchronizedProducer))
                  = (None, Scripted.mkPool [] [] false))
    by (vm_compute; reflexivity).
  assert (Hneed : needToRenewLastBlockOnL1
                    (syncStatus (stateOf (verify true synchronizedProducer)
                                   synchronizedProducer))
                    (clockAt2s (clockReads (stateOf (verify true synchronizedProducer)
                                              synchronizedProducer))) = false)
    by (vm_compute; reflexivity).
  destruct (initialize_without_renewal_asks_no_head clockAt2s synchronizedProducer
              Hverify Hinit Hneed)
    as (l' & Hrun & _ & Hheads & _ & _ & Htl & _).
  exists l'. split; [exact Hrun|]. split; [exact Hheads | exact Htl].
Defined.

(** Scenario S2 after construction and initialization: the head, 14, is
    known, and nothing has gone to the consumer or to the pool. *)
Lemma nothing_is_sent_before_start_witness :
  newL1DataRetriever [s2_pool] 0 5 10 true = Ok tt s2_constructed /\
  initialize msClock s2_constructed = Ok None s2_initialized /\
  outgoingChannel s2_initialized = mkChannel 10 [] /\
  rangeRequests (calls s2_initialized) = [].
Proof.
  assert (Hnew : newL1DataRetriever [s2_pool] 0 5 10 true = Ok tt s2_constructed)
    by (vm_compute; reflexivity).
  assert (Hinit : initialize msClock s2_constructed = Ok None s2_initialized)
    by (vm_compute; reflexivity).
  destruct (nothing_is_sent_before_start msClock [s2_pool] 0 5 10 true Hnew Hinit)
    as (Hch & _ & Hreq & _).
  split; [exact Hnew|]. split; [exact Hinit|]. split; [exact Hch | exact Hreq].
Defined.

(** The synchronized producer wakes up on its timer two seconds after its
    head was seen: the iteration goes on, and the next wait is 7 s. *)
Lemma step_stops_only_on_cancellation_witness :
  exists l',
    step clockAt2s 10 caseTimeAfter 0%Z synchronizedProducer
      = Ok (true, (7 * Second)%Z) l' /\
    (Second <= 7 * Second <= maxDuration)%Z.
Proof.
  assert (Hrun : step clockAt2s 10 caseTimeAfter 0%Z synchronizedProducer
                 = Ok (true, (7 * Second)%Z)
                     (stateOf (step clockAt2s 10 caseTimeAfter 0%Z synchronizedProducer)
                        synchronizedProducer))
    by (vm_compute; reflexivity).
  destruct (step_stops_only_on_cancellation clockAt2s 10 caseTimeAfter 0%Z
              synchronizedProducer Hrun) as (_ & _ & Hwait).
  eexists. split; [exact Hrun|].
  apply Hwait. discriminate.
Defined.

(** The initialized producer of scenario S2: three ranges go to the pool,
    all are accepted, and no line is written to the log. *)
Lemma launchWork_reports_what_it_launched_witness :
  exists l' t,
    launchWork 16 s2_initialized = Ok 3%Z l' /\
    calls l' = calls s2_initialized ++ t /\
    dispatchTrace t 3 /\
    rangeRequests t = [mkBlockRange 0 4; mkBlockRange 5 9; mkBlockRange 10 14] /\
    logs l' = logs s2_initialized.
Proof.
  assert (Hrun : launchWork 16 s2_initialized
                 = Ok 3%Z (stateOf (launchWork 16 s2_initialized) s2_initialized))
    by (vm_compute; reflexivity).
  destruct (launchWork_reports_what_it_launched _ _ Hrun)
    as (t & k & Hc & Ht & Hn & _ & Hlogs & _).
  assert (Ht' : t = skipn (List.length (calls s2_initialized))
                      (calls (stateOf (launchWork 16 s2_initialized) s2_initialized))).
  { rewrite Hc. rewrite skipn_app, skipn_all, Nat.sub_diag. reflexivity. }
  assert (Hk : k = 3%nat).
  { assert (Hlen : List.length (rangeRequests t) = 3%nat)
      by (rewrite Ht'; vm_compute; reflexivity).
    destruct (LoopFacts.dispatchTrace_requests Ht) as (Hreq & _).
    assert (Hrej : rejectedRequest t = false) by (rewrite Ht'; vm_compute; reflexivity).
    rewrite Hrej in Hreq. lia. }
  subst k.
  eexists _, t. split; [exact Hrun|]. split; [exact Hc|]. split; [exact Ht|].
  split; [rewrite Ht'; vm_compute; reflexivity|].
  rewrite Hlogs.
  assert (Hrej : rejectedRequest t = false) by (rewrite Ht'; vm_compute; reflexivity).
  rewrite Hrej. vm_compute. reflexivity.
Defined.

(** The constructed producer of scenario S2 learns that the head is 14: the
    sync status knows it, and the timestamp is the second reading of the
    clock. *)
Lemma onNewLastBlock_restarts_the_ttl_witness :
  exists resp l',
    onNewLastBlock msClock 0 14 false s2_constructed = Ok resp l' /\
    fullRange resp = mkBlockRange 0 14 /\
    timeLastBLockOnL1 l' = msClock 1 /\
    SpecSyncStatus.lastBlockOnL1 (syncStatus l') = Some 14%N.
Proof.
  assert (Hrun : onNewLastBlock msClock 0 14 false s2_constructed
                 = Ok (mkOnNewLastBlockResponse (mkBlockRange 0 14)
                         (Some (mkBlockRange 0 14)))
                     (stateOf (onNewLastBlock msClock 0 14 false s2_constructed)
                        s2_constructed))
    by (vm_compute; reflexivity).
  destruct (onNewLastBlock_restarts_the_ttl _ _ _ _ _ Hrun)
    as (_ & Htl & _ & _ & _ & _ & _ & dispatch & _ & _ & Hs & _).
  eexists _, _. split; [exact Hrun|]. split; [reflexivity|].
  split; [exact Htl|]. rewrite Hs. vm_compute. reflexivity.
Defined.

(** The last chunk, [10-14], arrives at a producer that waits for it: the
    chunk is handled, goes through the filter and out, and the dispatch
    loop, run last, finds no range left. *)
Lemma step_handles_the_case_then_dispatches_witness :
  exists l',
    step msClock 10 (okResponse 10 14) 0%Z almostSynchronizedProducer
      = Ok (true, 5002000000%Z) l' /\
    calls l' =
      [callSelect (okResponse 10 14);
       callOnFinishWorker (mkBlockRange 10 14) true;
       callFilter (newL1SyncMessageData (mkResponseRollupInfo (mkBlockRange 10 14) tt))
         [newL1SyncMessageData (mkResponseRollupInfo (mkBlockRange 10 14) tt)];
       callSend (newL1SyncMessageData (mkResponseRollupInfo (mkBlockRange 10 14) tt));
       callGetNextRange None].
Proof.
  assert (Hc : okResponse 10 14 <> caseDone) by discriminate.
  assert (Hrun : step msClock 10 (okResponse 10 14) 0%Z almostSynchronizedProducer
                 = Ok (true, 5002000000%Z)
                     (stateOf (step msClock 10 (okResponse 10 14) 0%Z
                                 almostSynchronizedProducer)
                        almostSynchronizedProducer))
    by (vm_compute; reflexivity).
  destruct (step_handles_the_case_then_dispatches _ _ _ _ Hc Hrun)
    as (refresh & dispatch & k & _).
  eexists. split; [exact Hrun|]. vm_compute. reflexivity.
Defined.

(** Scenario S2: the channel was empty, and what [start] has put on it are
    the three chunks, each released by the filter. *)
Lemma start_only_appends_to_the_channel_witness :
  exists t,
    calls s2_final = calls s2_initialized ++ t /\
    chanSent (outgoingChannel s2_final) = sends t /\
    dataMessages (sends t) = dataMessages (filterReleases t).
Proof.
  assert (Hstart : start msClock 10 s2_cases s2_initialized
                   = Ok (startReturned None) s2_final)
    by (vm_compute; reflexivity).
  destruct (start_only_appends_to_the_channel _ _ _ _ Hstart)
    as (t & Hc & Hsent & Hdata & _).
  exists t. split; [exact Hc|]. split; [|exact Hdata].
  rewrite Hsent. reflexivity.
Defined.

End LoopExamples.

(** ** The sends that wait for the consumer *)

Module BackpressureFacts.

Import Synchronizer.

Import ProducerFacts.

Section Generic.

Variables RollupInfo Etherman : Type.

Context {W S F St : Type}.

Context {workersOps : workersInterface Etherman W}.

Context {syncStatusOps : syncStatusInterface S}.

Context {filterOps : filter RollupInfo F}.

Context {statisticsOps : statisticsInterface St}.

Variable clock : nat -> Time.

Local Abbreviation producer :=
  (l1RollupInfoProducer RollupInfo (W:=W) (S:=S) (F:=F) (St:=St)).

Local Abbreviation message := (l1SyncMessage RollupInfo).

Local Abbreviation call_t := (M RollupInfo (W:=W) (S:=S) (F:=F) (St:=St)).

Local Abbreviation wait_t := (Backpressure.R RollupInfo (W:=W) (S:=S) (F:=F) (St:=St)).

Section Consumer.

Variable receives : option nat.

(** *** Refinement *)

Lemma refines_lift {A : Type} (m : call_t A) :
  Backpressure.refines receives (Backpressure.lift m) m.
Proof.
  intros l. unfold Backpressure.lift. destruct (m l); reflexivity.
Qed.

Lemma refines_bind {A B : Type}
  (m' : wait_t A) (m : call_t A) (k' : A -> wait_t B) (k : A -> call_t B) :
  Backpressure.refines receives m' m ->
  (forall a, Backpressure.refines receives (k' a) (k a)) ->
  Backpressure.refines receives (Backpressure.bind m' k') (bind m k).
Proof.
  intros Hm Hk l. unfold Backpressure.bind, bind.
  specialize (Hm l). destruct (m' l) as [a l1|pkg l1|e l1|].
  - rewrite Hm. apply Hk.
  - exact Hm.
  - rewrite Hm. reflexivity.
  - rewrite Hm. reflexivity.
Qed.

(** *** [sendPackages] *)

Lemma roomFor_afterSend (done : list message) (n : nat) (l : producer) :
  Backpressure.roomFor receives n (afterSend done l) =
  Backpressure.roomFor receives (List.length done + n) l.
Proof.
  unfold Backpressure.roomFor, afterSend. destruct receives as [k|]; [|reflexivity].
  cbn [outgoingChannel chanSent chanCap]. rewrite length_app.
  rewrite Nat.add_assoc. reflexivity.
Qed.

Lemma roomFor_less (n m : nat) (l : producer) :
  n <= m -> Backpressure.roomFor receives m l = true ->
  Backpressure.roomFor receives n l = true.
Proof.
  unfold Backpressure.roomFor. destruct receives as [k|]; [|reflexivity].
  intros Hle Hm. apply Nat.leb_le in Hm. apply Nat.leb_le. lia.
Qed.

Lemma roomFor_false (n : nat) (l : producer) :
  Backpressure.roomFor receives n l = false -> receives <> None.
Proof.
  unfold Backpressure.roomFor. destruct receives; [discriminate | discriminate].
Qed.

Lemma sendPackages_cons (pkg : message) (rest : list message) (l : producer) :
  Backpressure.sendPackages receives (pkg :: rest) l =
  if Backpressure.roomFor receives 1 l
  then Backpressure.sendPackages receives rest (afterSend [pkg] l)
  else Backpressure.Blocks pkg (Backpressure.waitingToSend [] l).
Proof.
  destruct l as [w s [cap sent] tl ttl f st n cs ls].
  cbn [Backpressure.sendPackages].
  unfold Backpressure.bind, Backpressure.lift, Backpressure.send, Backpressure.lift,
    Backpressure.waitingToSend, afterSend, log, modify, bind, record, modify.
  unfold Backpressure.roomFor.
  cbn [outgoingChannel chanSent chanCap set_logs logs set_outgoingChannel set_calls
       workers syncStatus timeLastBLockOnL1 ttlOfLastBlockOnL1
       filterToSendOrdererResultsToConsumer statistics clockReads calls map app].
  rewrite !app_nil_r.
  destruct receives as [k|]; [|reflexivity].
  destruct (List.length sent + 1 <=? k + cap)%nat; reflexivity.
Qed.

Lemma afterSend_cons (pkg : message) (rest : list message) (l : producer) :
  afterSend rest (afterSend [pkg] l) = afterSend (pkg :: rest) l.
Proof.
  unfold afterSend. cbn. rewrite <- !app_assoc. reflexivity.
Qed.

Lemma waitingToSend_cons (pkg : message) (done : list message) (l : producer) :
  Backpressure.waitingToSend done (afterSend [pkg] l) =
  Backpressure.waitingToSend (pkg :: done) l.
Proof.
  unfold Backpressure.waitingToSend. rewrite afterSend_cons. reflexivity.
Qed.

Lemma sendPackages_run (pkgs : list message) :
  forall l : producer,
    (Backpressure.roomFor receives (List.length pkgs) l = true ->
     Backpressure.sendPackages receives pkgs l = Backpressure.Returns tt (afterSend pkgs l)) /\
    (Backpressure.roomFor receives 0 l = true ->
     Backpressure.roomFor receives (List.length pkgs) l = false ->
     exists done pkg rest,
       pkgs = done ++ pkg :: rest /\
       Backpressure.roomFor receives (List.length done) l = true /\
       Backpressure.roomFor receives (Datatypes.S (List.length done)) l = false /\
       Backpressure.sendPackages receives pkgs l =
         Backpressure.Blocks pkg (Backpressure.waitingToSend done l)).
Proof.
  induction pkgs as [|pkg rest IH]; intros l.
  - split.
    + intros _. destruct l as [w s [cap sent] tl ttl f st n cs ls].
      unfold afterSend. cbn. rewrite !app_nil_r. reflexivity.
    + cbn [List.length]. intros Hroom Hno. congruence.
  - rewrite sendPackages_cons. cbn [List.length].
    destruct (IH (afterSend [pkg] l)) as (IHall & IHsome).
    destruct (Backpressure.roomFor receives 1 l) eqn:Hone.
    + split.
      * intros Hall. rewrite IHall, afterSend_cons; [reflexivity|].
        rewrite roomFor_afterSend. exact Hall.
      * intros _ Hno.
        destruct IHsome as (done & pkg' & rest' & -> & Hdone & Hnext & Hrun).
        { rewrite roomFor_afterSend. exact Hone. }
        { rewrite roomFor_afterSend. exact Hno. }
        exists (pkg :: done), pkg', rest'.
        rewrite roomFor_afterSend in Hdone, Hnext.
        split; [reflexivity|]. split; [exact Hdone|]. split; [exact Hnext|].
        rewrite Hrun, waitingToSend_cons. reflexivity.
    + split.
      * intros Hall. apply (roomFor_less (n:=1)) in Hall; [congruence | lia].
      * intros Hzero _. exists [], pkg, rest. auto.
Qed.

Lemma refines_sendPackages (pkgs : list message) :
  Backpressure.refines receives (Backpressure.sendPackages receives pkgs)
    (sendPackages pkgs : call_t unit).
Proof.
  induction pkgs as [|pkg rest IH]; intros l.
  - cbn. reflexivity.
  - rewrite sendPackages_cons.
    destruct (Backpressure.roomFor receives 1 l) eqn:Hone;
      [|eapply roomFor_false; exact Hone].
    specialize (IH (afterSend [pkg] l)).
    rewrite !sendPackages_ok in *. rewrite afterSend_cons in IH. exact IH.
Qed.

(** *** [onResponseRollupInfo], [step], [start] *)

Lemma refines_onResponseRollupInfo
  (r : genericResponse (responseRollupInfoByBlockRange RollupInfo)) :
  Backpressure.refines receives (Backpressure.onResponseRollupInfo receives r)
    (onResponseRollupInfo r : call_t unit).
Proof.
  unfold Backpressure.onResponseRollupInfo, onResponseRollupInfo.
  apply refines_bind; [apply refines_lift | intros _].
  apply refines_bind; [apply refines_lift | intros _].
  destruct (err r).
  - apply refines_bind; [apply refines_lift | intros _]. apply refines_lift.
  - apply refines_bind; [apply refines_lift | intros _].
    apply refines_bind; [apply refines_lift | intros l0].
    destruct (filter_filter (filterToSendOrdererResultsToConsumer l0)
                (newL1SyncMessageData (result r))) as [released f].
    apply refines_bind; [apply refines_lift | intros _].
    apply refines_bind; [apply refines_lift | intros _].
    apply refines_sendPackages.
Qed.

Lemma refines_step (fuel : nat) (c : selectCase RollupInfo) (waitDuration : Duration) :
  Backpressure.refines receives (Backpressure.step clock receives fuel c waitDuration)
    (step clock fuel c waitDuration).
Proof.
  unfold Backpressure.step, step.
  apply refines_bind; [apply refines_lift | intros _].
  destruct c as [| |r]; [apply refines_lift | |].
  all: apply refines_bind;
    [first [apply refines_lift | apply refines_onResponseRollupInfo] | intros _].
  all: apply refines_bind; [apply refines_lift | intros l0].
  all: apply refines_bind;
    [destruct (syncStatusEnum_eqb (getStatus (syncStatus l0)) syncStatusSynchronized);
     [apply refines_bind; [apply refines_lift | intros _]; apply refines_lift
     |apply refines_lift]
    |intros _].
  all: apply refines_bind; [apply refines_lift | intros _].
  all: apply refines_bind; [apply refines_lift | intros l1].
  all: apply refines_bind; [apply refines_lift | intros since].
  all: apply refines_bind;
    [destruct (since >? timeForShowUpStatisticsLog)%Z;
     [apply refines_bind; [apply refines_lift | intros _];
      apply refines_bind; [apply refines_lift | intros now]; apply refines_lift
     |apply refines_lift]
    |intros _].
  all: apply refines_bind; [apply refines_lift | intros d].
  all: apply refines_bind; [apply refines_lift | intros _].
  all: apply refines_lift.
Qed.

Lemma refines_start_loop (fuel : nat) (cases : list (selectCase RollupInfo)) :
  forall (waitDuration : Duration) (previousStatus : syncStatusEnum),
    Backpressure.refines receives
      (Backpressure.start_loop clock receives fuel cases waitDuration previousStatus)
      (start_loop clock fuel cases waitDuration previousStatus).
Proof.
  induction cases as [|c cases IH]; intros wd prev.
  - apply refines_lift.
  - cbn [Backpressure.start_loop start_loop].
    apply refines_bind; [apply refines_step | intros [continue wd']].
    destruct continue; [|apply refines_lift].
    apply refines_bind; [apply refines_lift | intros l0].
    apply refines_bind; [|intros _; apply IH].
    destruct (negb (syncStatusEnum_eqb prev (getStatus (syncStatus l0))));
      [|apply refines_lift].
    apply refines_bind; [apply refines_lift | intros _].
    destruct (syncStatusEnum_eqb (getStatus (syncStatus l0)) syncStatusSynchronized);
      [|apply refines_lift].
    apply refines_bind; [apply refines_lift | intros _].
    apply refines_sendPackages.
Qed.

Lemma refines_start (fuel : nat) (cases : list (selectCase RollupInfo)) :
  Backpressure.refines receives (Backpressure.start clock receives fuel cases)
    (start clock fuel cases).
Proof.
  unfold Backpressure.start, start.
  apply refines_bind; [apply refines_lift | intros l0].
  apply refines_bind; [apply refines_start_loop | intros left].
  destruct left; [|apply refines_lift].
  apply refines_bind; [apply refines_lift | intros _].
  apply refines_bind; [apply refines_lift | intros _].
  apply refines_lift.
Qed.

(** With a consumer that keeps receiving no send waits for good, and the
    two producers are one. *)
Lemma refines_keeps_receiving {A : Type} (m' : wait_t A) (m : call_t A) (l : producer) :
  receives = None -> Backpressure.refines receives m' m -> m' l = Backpressure.lift m l.
Proof.
  intros Hnone Href. specialize (Href l). unfold Backpressure.lift.
  destruct (m' l) as [a l1|pkg l1|e l1|]; try (rewrite Href; reflexivity).
  contradiction.
Qed.

(** *** More fuel *)

Lemma settled_lift {A : Type} (m m' : call_t A) :
  (forall l, m l <> OutOfFuel -> m' l = m l) ->
  Backpressure.settled (Backpressure.lift m) (Backpressure.lift m').
Proof.
  intros H l. unfold Backpressure.lift. specialize (H l).
  destruct (m l) as [a l1|e l1|]; intros Hend;
    [rewrite H by discriminate; reflexivity
    |rewrite H by discriminate; reflexivity
    |congruence].
Qed.

Lemma settled_refl {A : Type} (m : wait_t A) : Backpressure.settled m m.
Proof. intros l _. reflexivity. Qed.

Lemma settled_bind {A B : Type} (m m' : wait_t A) (k k' : A -> wait_t B) :
  Backpressure.settled m m' ->
  (forall a, Backpressure.settled (k a) (k' a)) ->
  Backpressure.settled (Backpressure.bind m k) (Backpressure.bind m' k').
Proof.
  intros Hm Hk l. unfold Backpressure.bind. specialize (Hm l).
  destruct (m l) as [a l1|pkg l1|e l1|]; intros Hend;
    try (rewrite Hm by discriminate).
  - apply Hk. exact Hend.
  - reflexivity.
  - reflexivity.
  - congruence.
Qed.

Lemma launchWork_settled (fuel fuel' : nat) (l : producer) :
  fuel <= fuel' -> launchWork fuel l <> OutOfFuel ->
  launchWork fuel' l = launchWork fuel l.
Proof.
  intros Hle Hend. destruct (launchWork fuel l) as [n l1|e l1|] eqn:Hrun.
  - eapply launchWork_more_fuel; eassumption.
  - exfalso. eapply launchWork_not_Fatal. exact Hrun.
  - congruence.
Qed.

Lemma renewLastBlockOnL1IfNeeded_settled (fuel fuel' : nat) (forced : bool) (l : producer) :
  fuel <= fuel' -> renewLastBlockOnL1IfNeeded clock fuel forced l <> OutOfFuel ->
  renewLastBlockOnL1IfNeeded clock fuel' forced l = renewLastBlockOnL1IfNeeded clock fuel forced l.
Proof.
  intros Hle Hend.
  destruct (renewLastBlockOnL1IfNeeded clock fuel forced l) as [[] l1|e l1|] eqn:Hrun.
  - eapply renewLastBlockOnL1IfNeeded_more_fuel; eassumption.
  - exfalso. eapply renewLastBlockOnL1IfNeeded_not_Fatal. exact Hrun.
  - congruence.
Qed.

Lemma step_settled (fuel fuel' : nat) (c : selectCase RollupInfo) (waitDuration : Duration) :
  fuel <= fuel' ->
  Backpressure.settled (Backpressure.step clock receives fuel c waitDuration)
    (Backpressure.step clock receives fuel' c waitDuration).
Proof.
  intros Hle. unfold Backpressure.step.
  apply settled_bind; [apply settled_refl | intros _].
  destruct c as [| |r]; [apply settled_refl | |].
  all: apply settled_bind; [apply settled_refl | intros _].
  all: apply settled_bind; [apply settled_refl | intros l0].
  all: apply settled_bind;
    [destruct (syncStatusEnum_eqb (getStatus (syncStatus l0)) syncStatusSynchronized);
     [apply settled_bind; [apply settled_refl | intros _];
      apply settled_lift; intros l1; apply renewLastBlockOnL1IfNeeded_settled; exact Hle
     |apply settled_refl]
    |intros _].
  all: apply settled_bind;
    [apply settled_lift; intros l1; apply launchWork_settled; exact Hle | intros _].
  all: apply settled_refl.
Qed.

Lemma start_loop_settled (fuel fuel' : nat) (cases : list (selectCase RollupInfo)) :
  fuel <= fuel' ->
  forall (waitDuration : Duration) (previousStatus : syncStatusEnum),
    Backpressure.settled
      (Backpressure.start_loop clock receives fuel cases waitDuration previousStatus)
      (Backpressure.start_loop clock receives fuel' cases waitDuration previousStatus).
Proof.
  intros Hle. induction cases as [|c cases IH]; intros wd prev.
  - apply settled_refl.
  - cbn [Backpressure.start_loop].
    apply settled_bind; [apply step_settled; exact Hle | intros [continue wd']].
    destruct continue; [|apply settled_refl].
    apply settled_bind; [apply settled_refl | intros l0].
    apply settled_bind; [apply settled_refl | intros _; apply IH].
Qed.

Lemma start_settled (fuel fuel' : nat) (cases : list (selectCase RollupInfo)) :
  fuel <= fuel' ->
  Backpressure.settled (Backpressure.start clock receives fuel cases)
    (Backpressure.start clock receives fuel' cases).
Proof.
  intros Hle. unfold Backpressure.start.
  apply settled_bind; [apply settled_refl | intros l0].
  apply settled_bind; [apply start_loop_settled; exact Hle | intros left].
  apply settled_refl.
Qed.

(** A run that has come to an end with some fuel does not return with
    another. *)
Lemma start_blocks_whatever_fuel (fuel fuel' : nat) (cases : list (selectCase RollupInfo))
  (l : producer) (pkg : message) (lb : producer) (r : startResult) (l' : producer) :
  Backpressure.start clock receives fuel cases l = Backpressure.Blocks pkg lb ->
  Backpressure.start clock receives fuel' cases l <> Backpressure.Returns r l'.
Proof.
  intros Hblocks Hreturns.
  assert (H1 : Backpressure.start clock receives (Nat.max fuel fuel') cases l =
               Backpressure.Blocks pkg lb).
  { rewrite <- Hblocks. apply (@start_settled fuel); [apply Nat.le_max_l|].
    rewrite Hblocks. discriminate. }
  assert (H2 : Backpressure.start clock receives (Nat.max fuel fuel') cases l =
               Backpressure.Returns r l').
  { rewrite <- Hreturns. apply (@start_settled fuel'); [apply Nat.le_max_r|].
    rewrite Hreturns. discriminate. }
  congruence.
Qed.

(** *** The cancellation *)

Lemma bind_then {A B : Type}
  (g : Backpressure.result producer message B -> Backpressure.result producer message B)
  (m : wait_t A) (k k' : A -> wait_t B) (l : producer) :
  (forall pkg lb, g (Backpressure.Blocks pkg lb) = Backpressure.Blocks pkg lb) ->
  (forall e lb, g (Backpressure.Dies e lb) = Backpressure.Dies e lb) ->
  g Backpressure.NoFuel = Backpressure.NoFuel ->
  (forall a l1, k' a l1 = g (k a l1)) ->
  Backpressure.bind m k' l = g (Backpressure.bind m k l).
Proof.
  intros Hb Hd Hn Hk. unfold Backpressure.bind.
  destruct (m l) as [a l1|pkg l1|e l1|]; auto.
Qed.

Local Abbreviation thenDone :=
  (fun r : Backpressure.result producer message bool =>
     match r with
     | Backpressure.Returns true l1 => Backpressure.Returns true l1
     | Backpressure.Returns false l1 =>
         Backpressure.Returns true (set_calls (calls l1 ++ [callSelect caseDone]) l1)
     | Backpressure.Blocks pkg lb => Backpressure.Blocks pkg lb
     | Backpressure.Dies e lb => Backpressure.Dies e lb
     | Backpressure.NoFuel => Backpressure.NoFuel
     end).

(** The cases [before] and then the cancellation: the loop is left where
    [before] leaves the producer waiting in the [select], and nowhere else. *)
Lemma start_loop_then_done (fuel : nat) (before after : list (selectCase RollupInfo)) :
  forall (waitDuration : Duration) (previous : syncStatusEnum) (l : producer),
    Backpressure.start_loop clock receives fuel (before ++ caseDone :: after)
      waitDuration previous l =
    thenDone (Backpressure.start_loop clock receives fuel before waitDuration previous l).
Proof.
  induction before as [|c before IH]; intros wd prev l; [reflexivity|].
  cbn [app Backpressure.start_loop].
  apply (bind_then thenDone); try reflexivity.
  intros [[|] d] l1; [|reflexivity].
  apply (bind_then thenDone); try reflexivity.
  intros l0 l2.
  apply (bind_then thenDone); try reflexivity.
  intros _ l3. apply IH.
Qed.

Lemma start_loop_left_or_waits (fuel : nat) (cases : list (selectCase RollupInfo)) :
  forall (waitDuration : Duration) (previous : syncStatusEnum) (l : producer)
         (b : bool) (l' : producer),
    Backpressure.start_loop clock receives fuel cases waitDuration previous l =
      Backpressure.Returns b l' ->
    if b then In caseDone cases else ~ In caseDone cases.
Proof.
  intros wd prev l b l' Hrun.
  pose proof (refines_start_loop fuel cases wd prev l) as Href. rewrite Hrun in Href.
  destruct b.
  - destruct (start_loop_left _ _ _ _ _ _ Href) as (before & after & l1 & -> & _).
    apply in_or_app. right. left. reflexivity.
  - eapply start_loop_waiting_no_cancel. exact Href.
Qed.

Lemma start_wait_unfold (fuel : nat) (cases : list (selectCase RollupInfo)) (l : producer) :
  Backpressure.start clock receives fuel cases l =
  match Backpressure.start_loop clock receives fuel cases 0%Z (getStatus (syncStatus l)) l with
  | Backpressure.Returns true l1 =>
      Backpressure.Returns (startReturned None)
        (mkProducer (waitFinishAllWorkers (workers l1)) (syncStatus l1) (outgoingChannel l1)
           (timeLastBLockOnL1 l1) (ttlOfLastBlockOnL1 l1)
           (filterToSendOrdererResultsToConsumer l1) (statistics l1) (clockReads l1)
           (calls l1 ++ [callWaitFinishAllWorkers]) (logs l1))
  | Backpressure.Returns false l1 => Backpressure.Returns startWaiting l1
  | Backpressure.Blocks pkg l1 => Backpressure.Blocks pkg l1
  | Backpressure.Dies e l1 => Backpressure.Dies e l1
  | Backpressure.NoFuel => Backpressure.NoFuel
  end.
Proof.
  unfold Backpressure.start, Backpressure.bind, Backpressure.lift, get.
  destruct (Backpressure.start_loop clock receives fuel cases 0%Z (getStatus (syncStatus l)) l)
    as [[|] l1|pkg l1|e l1|]; reflexivity.
Qed.

(** What [start] does with the cases [before] and then the cancellation,
    from what it does with [before]. *)
Lemma start_then_done (fuel : nat) (before after : list (selectCase RollupInfo))
  (l : producer) :
  ~ In caseDone before ->
  Backpressure.start clock receives fuel (before ++ caseDone :: after) l =
  match Backpressure.start clock receives fuel before l with
  | Backpressure.Returns _ l1 => Backpressure.Returns (startReturned None) (afterCancel l1)
  | r => r
  end.
Proof.
  intros Hno. rewrite !start_wait_unfold, start_loop_then_done. cbv beta.
  destruct (Backpressure.start_loop clock receives fuel before 0%Z (getStatus (syncStatus l)) l)
    as [[|] l1|pkg l1|e l1|] eqn:Hloop; try reflexivity.
  - exfalso. apply Hno. apply (start_loop_left_or_waits _ _ _ _ _ Hloop).
  - unfold afterCancel. cbn. rewrite <- app_assoc. reflexivity.
Qed.

(** When [start] returns or waits in the [select]. *)
Lemma start_returned (fuel : nat) (cases : list (selectCase RollupInfo)) (l : producer)
  (r : startResult) (l' : producer) :
  Backpressure.start clock receives fuel cases l = Backpressure.Returns r l' ->
  match r with
  | startReturned e =>
      e = None /\
      exists before after l1,
        cases = before ++ caseDone :: after /\
        ~ In caseDone before /\
        Backpressure.start clock receives fuel before l = Backpressure.Returns startWaiting l1 /\
        l' = afterCancel l1
  | startWaiting => ~ In caseDone cases
  end.
Proof.
  intros Hrun. pose proof (refines_start fuel cases l) as Href. rewrite Hrun in Href.
  destruct r as [e|].
  - rewrite ProducerFacts.start_unfold in Href.
    destruct (start_loop clock fuel cases 0%Z (getStatus (syncStatus l)) l)
      as [[|] l1|e1 l1|] eqn:Hloop; try discriminate.
    inversion Href; subst e; clear Href. split; [reflexivity|].
    destruct (start_loop_left _ _ _ _ _ _ Hloop) as (before & after & l2 & -> & Hbefore & _).
    assert (Hno : ~ In caseDone before)
      by (eapply start_loop_waiting_no_cancel; exact Hbefore).
    rewrite (@start_then_done fuel before after l Hno) in Hrun.
    pose proof (refines_start fuel before l) as Href.
    rewrite ProducerFacts.start_unfold, Hbefore in Href.
    destruct (Backpressure.start clock receives fuel before l)
      as [r0 l0|pkg l0|e0 l0|] eqn:Hrun0; try discriminate.
    inversion Href; subst r0 l0; clear Href.
    inversion Hrun; subst l'; clear Hrun.
    exists before, after, l2. auto.
  - rewrite ProducerFacts.start_unfold in Href.
    destruct (start_loop clock fuel cases 0%Z (getStatus (syncStatus l)) l)
      as [[|] l1|e1 l1|] eqn:Hloop; try discriminate.
    eapply start_loop_waiting_no_cancel. exact Hloop.
Qed.

(** X3. [sendPackages] sends the packages in the order of the slice, each
    behind what is on the outgoing channel, and touches nothing else of the
    producer.  It returns when every send finds room, which is always so with
    a consumer that keeps receiving; otherwise it waits for good in the first
    send that finds none, with the packages before it sent and nothing after
    it.  It ends in no other way.  For an empty slice it does nothing at all,
    and sending [xs ++ ys] is sending [xs] and then [ys]. *)
Theorem sendPackages_sends_in_order (xs ys : list message) (l : producer) :
  (Backpressure.roomFor receives (List.length xs) l = true ->
   Backpressure.sendPackages receives xs l = Backpressure.Returns tt (afterSend xs l)) /\
  (Backpressure.roomFor receives 0 l = true ->
   Backpressure.roomFor receives (List.length xs) l = false ->
   exists done pkg rest,
     xs = done ++ pkg :: rest /\
     Backpressure.roomFor receives (List.length done) l = true /\
     Backpressure.roomFor receives (Datatypes.S (List.length done)) l = false /\
     Backpressure.sendPackages receives xs l =
       Backpressure.Blocks pkg (Backpressure.waitingToSend done l) /\
     chanSent (outgoingChannel (Backpressure.waitingToSend done l)) =
       chanSent (outgoingChannel l) ++ done) /\
  (receives = None ->
   Backpressure.sendPackages receives xs l = Backpressure.Returns tt (afterSend xs l)) /\
  match Backpressure.sendPackages receives xs l with
  | Backpressure.Returns _ l1 =>
      l1 = afterSend xs l /\
      Backpressure.sendPackages receives (xs ++ ys) l =
        Backpressure.sendPackages receives ys l1
  | Backpressure.Blocks pkg lb =>
      receives <> None /\
      Backpressure.sendPackages receives (xs ++ ys) l = Backpressure.Blocks pkg lb
  | Backpressure.Dies _ _ => False
  | Backpressure.NoFuel => False
  end /\
  Backpressure.sendPackages receives [] l = Backpressure.Returns tt l /\
  chanSent (outgoingChannel (afterSend xs l)) = chanSent (outgoingChannel l) ++ xs /\
  chanCap (outgoingChannel (afterSend xs l)) = chanCap (outgoingChannel l) /\
  calls (afterSend xs l) = calls l ++ map (@callSend RollupInfo) xs /\
  workers (afterSend xs l) = workers l /\
  syncStatus (afterSend xs l) = syncStatus l /\
  filterToSendOrdererResultsToConsumer (afterSend xs l) =
    filterToSendOrdererResultsToConsumer l /\
  statistics (afterSend xs l) = statistics l /\
  timeLastBLockOnL1 (afterSend xs l) = timeLastBLockOnL1 l /\
  ttlOfLastBlockOnL1 (afterSend xs l) = ttlOfLastBlockOnL1 l /\
  clockReads (afterSend xs l) = clockReads l.
Proof.
  destruct (sendPackages_run xs l) as (Hall & Hsome).
  split; [exact Hall|]. split.
  { intros Hzero Hno.
    destruct (Hsome Hzero Hno) as (done & pkg & rest & Hxs & Hdone & Hnext & Hrun).
    exists done, pkg, rest. repeat (split; [assumption|]). reflexivity. }
  split.
  { intros Hnone. apply Hall. unfold Backpressure.roomFor. rewrite Hnone. reflexivity. }
  split.
  { revert l Hall Hsome. induction xs as [|pkg rest IH]; intros l Hall Hsome.
    - cbn [app]. split; [|reflexivity].
      destruct l as [w s [cap sent] tl ttl f st n cs ls].
      unfold afterSend. cbn. rewrite !app_nil_r. reflexivity.
    - cbn [app]. rewrite !sendPackages_cons.
      destruct (Backpressure.roomFor receives 1 l) eqn:Hone.
      + destruct (sendPackages_run rest (afterSend [pkg] l)) as (Hall' & Hsome').
        specialize (IH (afterSend [pkg] l) Hall' Hsome').
        destruct (Backpressure.sendPackages receives rest (afterSend [pkg] l))
          as [[] l1|pkg' lb|e lb|]; try exact IH.
        destruct IH as (-> & IH). split; [apply afterSend_cons | exact IH].
      + split; [|reflexivity]. eapply roomFor_false. exact Hone. }
  split.
  { destruct l as [w s [cap sent] tl ttl f st n cs ls]. reflexivity. }
  unfold afterSend. cbn. repeat split; reflexivity.
Qed.

End Consumer.

(** *** [start] and the cancellation *)

Section Cancellation.

Variable Inv : S -> Prop.

Variable measure : S -> nat.

Hypothesis Inv_verify :
  forall s a e s', Inv s -> syncStatus_verify s a = (e, s') -> Inv s'.

Hypothesis Inv_getNextRange :
  forall s br s', Inv s -> getNextRange s = (br, s') -> Inv s'.

Hypothesis Inv_onStartedNewWorker :
  forall s br, Inv s -> Inv (onStartedNewWorker s br).

Hypothesis Inv_onFinishWorker :
  forall s br ok, Inv s -> Inv (onFinishWorker s br ok).

Hypothesis Inv_onNewLastBlockOnL1 :
  forall s now b resp s', Inv s -> onNewLastBlockOnL1 s now b = (resp, s') -> Inv s'.

Hypothesis measure_decreases :
  forall s br s', Inv s -> getNextRange s = (Some br, s') ->
    measure (onStartedNewWorker s' br) < measure s.

(** C8. The cancellation is seen in the [select], when the iteration that is
    under way has ended.  With a consumer that keeps receiving every
    iteration ends, so after the cases before it [start] waits in the
    [select], and when the cancellation is raised the loop is left,
    [waitFinishAllWorkers] is called on the pool, and then, with that call as
    its last, [start] returns nil.  With any consumer: when the cases before
    the cancellation leave the producer waiting in the [select], [start]
    returns in that way; when they leave it waiting in a send on the
    outgoing channel that finds no room, the consumer having stopped, the
    loop is not left and [start] does not return.  And whenever [start]
    returns it returns nil, the cancellation was raised while the producer
    waited in the [select], and [waitFinishAllWorkers] has been called; while
    no cancellation is raised [start] does not return. *)
Theorem start_returns_after_waitFinishAllWorkers
  (before after : list (selectCase RollupInfo)) (l : producer) :
  Inv (syncStatus l) ->
  ~ In caseDone before ->
  (exists fuel l1,
     Backpressure.start clock None fuel before l = Backpressure.Returns startWaiting l1 /\
     Backpressure.start clock None fuel (before ++ caseDone :: after) l =
       Backpressure.Returns (startReturned None) (afterCancel l1)) /\
  (forall (receives : option nat) (fuel : nat),
     match Backpressure.start clock receives fuel before l with
     | Backpressure.Returns r l1 =>
         r = startWaiting /\
         Backpressure.start clock receives fuel (before ++ caseDone :: after) l =
           Backpressure.Returns (startReturned None) (afterCancel l1)
     | Backpressure.Blocks pkg lb =>
         receives <> None /\
         Backpressure.start clock receives fuel (before ++ caseDone :: after) l =
           Backpressure.Blocks pkg lb /\
         forall fuel' r l',
           Backpressure.start clock receives fuel' (before ++ caseDone :: after) l <>
             Backpressure.Returns r l'
     | Backpressure.Dies e lb =>
         Backpressure.start clock receives fuel (before ++ caseDone :: after) l =
           Backpressure.Dies e lb
     | Backpressure.NoFuel =>
         Backpressure.start clock receives fuel (before ++ caseDone :: after) l =
           Backpressure.NoFuel
     end) /\
  (forall (receives : option nat) (fuel : nat) (cases : list (selectCase RollupInfo))
          (r : startResult) (l' : producer),
     Backpressure.start clock receives fuel cases l = Backpressure.Returns r l' ->
     match r with
     | startReturned e =>
         e = None /\
         exists b a l1,
           cases = b ++ caseDone :: a /\
           ~ In caseDone b /\
           Backpressure.start clock receives fuel b l = Backpressure.Returns startWaiting l1 /\
           l' = afterCancel l1
     | startWaiting => ~ In caseDone cases
     end) /\
  (forall l1 : producer,
     workers (afterCancel l1) = waitFinishAllWorkers (workers l1) /\
     calls (afterCancel l1) = calls l1 ++ [callSelect caseDone; callWaitFinishAllWorkers] /\
     outgoingChannel (afterCancel l1) = outgoingChannel l1 /\
     syncStatus (afterCancel l1) = syncStatus l1).
Proof.
  intros HI Hno.
  assert (Hany : forall (receives : option nat) (fuel : nat),
            match Backpressure.start clock receives fuel before l with
            | Backpressure.Returns r l1 =>
                r = startWaiting /\
                Backpressure.start clock receives fuel (before ++ caseDone :: after) l =
                  Backpressure.Returns (startReturned None) (afterCancel l1)
            | Backpressure.Blocks pkg lb =>
                receives <> None /\
                Backpressure.start clock receives fuel (before ++ caseDone :: after) l =
                  Backpressure.Blocks pkg lb /\
                forall fuel' r l',
                  Backpressure.start clock receives fuel' (before ++ caseDone :: after) l <>
                    Backpressure.Returns r l'
            | Backpressure.Dies e lb =>
                Backpressure.start clock receives fuel (before ++ caseDone :: after) l =
                  Backpressure.Dies e lb
            | Backpressure.NoFuel =>
                Backpressure.start clock receives fuel (before ++ caseDone :: after) l =
                  Backpressure.NoFuel
            end).
  { intros receives fuel.
    pose proof (@start_then_done receives fuel before after l Hno) as Hdone.
    pose proof (refines_start receives fuel before l) as Href.
    destruct (Backpressure.start clock receives fuel before l)
      as [r l1|pkg lb|e lb|] eqn:Hrun.
    - split; [|exact Hdone].
      pose proof (start_returned receives _ _ _ Hrun) as Hr.
      destruct r as [e|]; [|reflexivity].
      destruct Hr as (_ & b & a & _ & -> & _). exfalso. apply Hno.
      apply in_or_app. right. left. reflexivity.
    - split; [exact Href|]. split; [exact Hdone|].
      intros fuel' r l'. eapply start_blocks_whatever_fuel. exact Hdone.
    - exact Hdone.
    - exact Hdone. }
  split; [|split; [exact Hany|split]].
  - destruct (@start_enough_fuel _ _ _ _ _ _ _ _ _ _ clock Inv measure Inv_verify
                Inv_getNextRange Inv_onStartedNewWorker Inv_onFinishWorker
                Inv_onNewLastBlockOnL1 measure_decreases before l HI)
      as (fuel & r & l1 & Hrun).
    pose proof (refines_start None fuel before l) as Href.
    specialize (Hany None fuel).
    destruct (Backpressure.start clock None fuel before l) as [r0 l0|pkg lb|e lb|] eqn:Hrun';
      [|exfalso; apply Href; reflexivity|congruence|congruence].
    destruct Hany as (-> & Hdone). exists fuel, l0. split; [exact Hrun' | exact Hdone].
  - intros receives fuel cases r l' Hrun. exact (start_returned receives _ _ _ Hrun).
  - intros l1. unfold afterCancel. cbn. repeat split; reflexivity.
Qed.

End Cancellation.

End Generic.

End BackpressureFacts.

(** ** Runs with a consumer *)

Module BackpressureExamples.

Import Synchronizer.

Import Examples.

Import Backpressure.SlowConsumer.

(** Scenario S2 with a consumer that keeps receiving: after the three chunks
    and the FullySynced message the producer waits in the [select]; the
    cancellation is raised, and [start] returns nil from the state in which
    the pool has been waited for. *)
Lemma start_returns_after_waitFinishAllWorkers_witness :
  chunkSizeIsPositive (syncStatus s2_initialized) /\
  ~ In caseDone s2_beforeCancel /\
  Backpressure.start msClock None 10 s2_beforeCancel s2_initialized =
    Backpressure.Returns startWaiting s2_waiting /\
  Backpressure.start msClock None 10 s2_cases s2_initialized =
    Backpressure.Returns (startReturned None) s2_final /\
  Scripted.waited (workers s2_waiting) = false /\
  Scripted.waited (workers s2_final) = true /\
  calls s2_final = calls s2_waiting ++ [callSelect caseDone; callWaitFinishAllWorkers].
Proof.
  assert (Hchunk : chunkSizeIsPositive (syncStatus s2_initialized))
    by (vm_compute; discriminate).
  assert (Hno : ~ In caseDone s2_beforeCancel)
    by (intros [H|[H|[H|[H|[]]]]]; discriminate H).
  assert (Hbefore : Backpressure.start msClock None 10 s2_beforeCancel s2_initialized =
                    Backpressure.Returns startWaiting s2_waiting)
    by (vm_compute; reflexivity).
  destruct (BackpressureFacts.start_returns_after_waitFinishAllWorkers
              msClock chunkSizeIsPositive rangesLeft
              SpecRun.chunkSizeIsPositive_verify
              SpecRun.chunkSizeIsPositive_getNextRange
              SpecRun.chunkSizeIsPositive_onStartedNewWorker
              SpecRun.chunkSizeIsPositive_onFinishWorker
              SpecRun.chunkSizeIsPositive_onNewLastBlockOnL1
              SpecRun.rangesLeft_decreases
              s2_beforeCancel [] s2_initialized Hchunk Hno)
    as (_ & Hany & _ & Hcancel).
  specialize (Hany None 10%nat). rewrite Hbefore in Hany. destruct Hany as (_ & Hrun).
  destruct (Hcancel s2_waiting) as (_ & Hcalls & _).
  assert (Hfinal : afterCancel s2_waiting = s2_final) by (vm_compute; reflexivity).
  rewrite Hfinal in Hrun, Hcalls.
  split; [exact Hchunk|]. split; [exact Hno|]. split; [exact Hbefore|].
  split; [exact Hrun|]. split; [vm_compute; reflexivity|].
  split; [vm_compute; reflexivity | exact Hcalls].
Defined.

(** Scenario S6 with a consumer that has stopped: channel of capacity 1,
    chunks [5-9] and [10-14] held by the filter, and with [0-4] three chunks
    ready.  [0-4] goes into the buffer of the channel; the send of [5-9]
    finds no room and waits for good.  The cancellation is raised, but the
    producer never comes back to the [select]: the loop is not left, the
    pool is not waited for, and [start] does not return, with whatever
    fuel. *)
Lemma start_does_not_return_from_a_waiting_send :
  In caseDone s2_cases /\
  Backpressure.start msClock (Some O) 10 s2_cases s6_initialized =
    Backpressure.Blocks
      (newL1SyncMessageData (mkResponseRollupInfo (mkBlockRange 5 9) tt)) s6_blocked /\
  outgoingChannel s6_blocked =
    mkChannel 1 [newL1SyncMessageData (mkResponseRollupInfo (mkBlockRange 0 4) tt)] /\
  ~ In (callSelect caseDone) (calls s6_blocked) /\
  ~ In callWaitFinishAllWorkers (calls s6_blocked) /\
  Scripted.waited (workers s6_blocked) = false /\
  (forall (fuel : nat) (r : startResult) (l' : exampleProducer),
     Backpressure.start msClock (Some O) fuel s2_cases s6_initialized <>
       Backpressure.Returns r l').
Proof.
  assert (Hblocks : Backpressure.start msClock (Some O) 10 s2_cases s6_initialized =
                    Backpressure.Blocks
                      (newL1SyncMessageData (mkResponseRollupInfo (mkBlockRange 5 9) tt))
                      s6_blocked)
    by (vm_compute; reflexivity).
  split; [vm_compute; tauto|]. split; [exact Hblocks|].
  split; [vm_compute; reflexivity|].
  split; [vm_compute; intuition discriminate|].
  split; [vm_compute; intuition discriminate|].
  split; [vm_compute; reflexivity|].
  intros fuel r l'. eapply BackpressureFacts.start_blocks_whatever_fuel. exact Hblocks.
Qed.

End BackpressureExamples.
